(** * VisionFi node-sdk example client: result polling, workflow cache, TTL parsing

    A shallow embedding of the command cores of the TypeScript CLI
    ([src/commands/auth.ts], [analyze.ts], [results.ts],
    [interactive-core.ts], [interactive.ts]), of the actions of [src/cli.ts]
    and of [loadConfig] of [src/utils/config.ts], together with the
    properties of its specification.

    Conventions of the embedding.
    - A JavaScript [number] is an integer of [Z]; where the source can
      produce and tests for [NaN] (the results of [parseInt]) the type
      [JsNumber] adds it.  The arithmetic of [Js] and [parseInt] compute
      the mathematical result, which is the result of the source on the
      safe integers ([isSafeInteger], magnitude at most 2^53 - 1, where
      doubles are exact and are written in plain decimal); every property
      that names a number produced by them carries that bound.  [-0] is
      identified with [0] (no operation of the source tells them apart).
    - A JavaScript string is a [string] of code units below 256.
    - An [async] function is a computation of the monad [Eff]: it threads
      the journal of calls made to injected collaborators and the shared
      configuration object, and may end in a thrown error.
    - A remote client is a record of scripted outcomes, one per method,
      with the time the listing of workflows takes.
    - The configuration file is what [JSON.parse] makes of it, as the keys
      of [CLIConfig] it holds. *)

From Stdlib Require Import ZArith List Bool Lia String Ascii DecimalString Permutation.
From Stdlib Require DecimalPos.
Import ListNotations.
Open Scope string_scope.
Open Scope Z_scope.

(** ** JavaScript values *)

Module Js.

Inductive JsNumber : Type :=
| Num (z : Z)
| NaN.

(** [Number.MAX_SAFE_INTEGER], 2^53 - 1. *)
Definition MAX_SAFE_INTEGER : Z := 9007199254740991.

(** [Number.isSafeInteger(z)].  On these integers a double is exact, and
    [Number.prototype.toString] writes plain decimal digits; beyond them
    the source rounds (and from 10^21 on writes an exponent), which the
    operations below do not follow. *)
Definition isSafeInteger (z : Z) : Prop :=
  - MAX_SAFE_INTEGER <= z <= MAX_SAFE_INTEGER.

#[warnings="-register-all"]
Inductive JsVal : Type :=
| JUndefined
| JNull
| JBool (b : bool)
| JNumber (n : JsNumber)
| JString (s : string)
| JObject (fields : list (string * JsVal)).

(** An object literal, as its own properties in insertion order. *)
Definition JsObject : Type := list (string * JsVal).

(** ToBoolean: what [if (v)], [!v], [v || d] and [c ? a : b] test. *)
Definition truthy (v : JsVal) : bool :=
  match v with
  | JUndefined | JNull => false
  | JBool b => b
  | JNumber (Num z) => negb (z =? 0)
  | JNumber NaN => false
  | JString s => negb (s =? "")%string
  | JObject _ => true
  end.

(** [o.k] on an object: the first binding of [k], [undefined] without one. *)
Fixpoint prop (o : JsObject) (k : string) : JsVal :=
  match o with
  | [] => JUndefined
  | (k', v) :: rest => if (k' =? k)%string then v else prop rest k
  end.

(** ['k' in o]. *)
Fixpoint has_prop (k : string) (o : JsObject) : bool :=
  match o with
  | [] => false
  | (k', _) :: rest => (k' =? k)%string || has_prop k rest
  end.

(** [v?.k]: [undefined] on [null] and [undefined], the property on an
    object; a primitive has none of the properties read by the source. *)
Definition opt_prop (v : JsVal) (k : string) : JsVal :=
  match v with
  | JObject o => prop o k
  | _ => JUndefined
  end.

(** [isNaN(n)] and the comparisons the source applies to a [parseInt]
    result; every comparison with [NaN] is false. *)
Definition isNaN (n : JsNumber) : bool :=
  match n with NaN => true | Num _ => false end.

Definition lt (a : JsNumber) (b : Z) : bool :=
  match a with NaN => false | Num z => z <? b end.

(** [a * b], for a safe product. *)
Definition mul (a : JsNumber) (b : Z) : JsNumber :=
  match a with NaN => NaN | Num z => Num (z * b) end.

(** [Math.floor(a / b)] for a safe [a] and a positive integer [b]. *)
Definition floor_div (a : JsNumber) (b : Z) : JsNumber :=
  match a with NaN => NaN | Num z => Num (z / b) end.

(** [a !== 1]. *)
Definition neq1 (a : JsNumber) : bool :=
  match a with NaN => true | Num z => negb (z =? 1) end.

(** Template interpolation [`${n}`] and [n.toString()], for a safe [n]. *)
Definition show (n : JsNumber) : string :=
  match n with
  | NaN => "NaN"
  | Num z => NilEmpty.string_of_int (Z.to_int z)
  end.

(** An [Error] value, as the message the source reads from it. *)
Record JsError : Type := mkError { err_message : string }.

End Js.
Export Js.

(** ** String primitives used by the TTL parser *)

Module JsString.

Definition code (c : ascii) : N := N_of_ascii c.

(** WhiteSpace and LineTerminator code units below 256:
    TAB, LF, VT, FF, CR, SP and NBSP. *)
Definition isWhiteSpace (c : ascii) : bool :=
  let n := code c in
  (((9 <=? n) && (n <=? 13)) || (n =? 32) || (n =? 160))%N.

Fixpoint trimStart (s : string) : string :=
  match s with
  | EmptyString => EmptyString
  | String c rest => if isWhiteSpace c then trimStart rest else s
  end.

Fixpoint trimEnd (s : string) : string :=
  match s with
  | EmptyString => EmptyString
  | String c rest =>
      match trimEnd rest with
      | EmptyString => if isWhiteSpace c then EmptyString else String c EmptyString
      | kept => String c kept
      end
  end.

(** [s.trim()] *)
Definition trim (s : string) : string := trimEnd (trimStart s).

(** Lower-case mapping of one code unit below 256: A-Z, and the Latin-1
    capitals U+00C0..U+00DE except the multiplication sign U+00D7. *)
Definition lowerChar (c : ascii) : ascii :=
  let n := code c in
  if (((65 <=? n) && (n <=? 90)) ||
      ((192 <=? n) && (n <=? 222) && negb (n =? 215)))%N
  then ascii_of_N (n + 32)
  else c.

(** [s.toLowerCase()] *)
Fixpoint toLowerCase (s : string) : string :=
  match s with
  | EmptyString => EmptyString
  | String c rest => String (lowerChar c) (toLowerCase rest)
  end.

(** [s.endsWith(t)] *)
Definition endsWith (s t : string) : bool :=
  let n := String.length s in
  let m := String.length t in
  (m <=? n)%nat && (substring (n - m) m s =? t)%string.

(** [s.slice(0, -1)]: everything but the last code unit. *)
Definition slice_0_m1 (s : string) : string :=
  substring 0 (String.length s - 1) s.

(** The value of a code unit as a digit: 0-9, then a-z and A-Z for 10-35. *)
Definition digitValue (c : ascii) : option Z :=
  let n := code c in
  if ((48 <=? n) && (n <=? 57))%N then Some (Z.of_N n - 48)
  else if ((97 <=? n) && (n <=? 122))%N then Some (Z.of_N n - 87)
  else if ((65 <=? n) && (n <=? 90))%N then Some (Z.of_N n - 55)
  else None.

(** The longest prefix of [s] made of radix-[R] digits, as digit values. *)
Fixpoint radixDigits (R : Z) (s : string) : list Z :=
  match s with
  | EmptyString => []
  | String c rest =>
      match digitValue c with
      | Some d => if d <? R then d :: radixDigits R rest else []
      | None => []
      end
  end.

(** The integer a digit sequence denotes in radix [R]. *)
Definition mathInt (R : Z) (ds : list Z) : Z :=
  fold_left (fun acc d => acc * R + d) ds 0.

(** [parseInt(s, radix)], after ECMA-262 sec. 19.2.5: skip leading white
    space, take a sign, settle the radix (an absent or zero radix means 10,
    or 16 after a [0x] prefix, which radix 16 strips as well), read
    the longest digit prefix, and answer [NaN] when it is empty.  The
    answer is the integer the digits denote; the source has the double
    nearest to it, which is that integer when it is safe. *)
Definition parseInt (s : string) (radix : option Z) : JsNumber :=
  let S0 := trimStart s in
  let '(sign, S1) :=
    match S0 with
    | String "-" rest => (-1, rest)
    | String "+" rest => (1, rest)
    | _ => (1, S0)
    end in
  let R0 := match radix with Some r => r | None => 0 end in
  if negb (R0 =? 0) && ((R0 <? 2) || (36 <? R0)) then NaN
  else
    let stripPrefix := (R0 =? 0) || (R0 =? 16) in
    let R1 := if R0 =? 0 then 10 else R0 in
    let '(R, S2) :=
      if stripPrefix then
        match S1 with
        | String "0" (String "x" rest) => (16, rest)
        | String "0" (String "X" rest) => (16, rest)
        | _ => (R1, S1)
        end
      else (R1, S1) in
    match radixDigits R S2 with
    | [] => NaN
    | ds => Num (sign * mathInt R ds)
    end.

(** The replacement text of [String.prototype.replace] for a pattern
    without capture groups (GetSubstitution, ECMA-262 sec. 22.1.3.19.1):
    [$$] is a dollar sign, [$&] the matched text, [$`] the text before the
    match and [$'] the text after it; any other code unit, a lone [$]
    included, stands for itself. *)
Fixpoint getSubstitution (matched before after replacement : string) : string :=
  match replacement with
  | EmptyString => EmptyString
  | String "$" (String "$" rest) =>
      String "$" (getSubstitution matched before after rest)
  | String "$" (String "&" rest) =>
      matched ++ getSubstitution matched before after rest
  | String "$" (String "`" rest) =>
      before ++ getSubstitution matched before after rest
  | String "$" (String "'" rest) =>
      after ++ getSubstitution matched before after rest
  | String c rest => String c (getSubstitution matched before after rest)
  end.

(** [s.replace(/^~/, replacement)] *)
Definition replaceLeadingTilde (s replacement : string) : string :=
  match s with
  | String "~" rest => getSubstitution "~" "" rest replacement ++ rest
  | _ => s
  end.

End JsString.
Export JsString.

(** ** Configuration ([types/config.ts], [utils/config.ts]) *)

Record CLIConfig : Type := mkConfig {
  service_account_path : string;
  api_endpoint : string;
  recent_uuids : list string;
  debug_mode : bool;
  test_mode : bool;
  workflow_cache_ttl : Z
}.

Definition DEFAULT_CONFIG : CLIConfig :=
  {| service_account_path := "";
     api_endpoint := "https://platform.visionfi.ai/api/v1";
     recent_uuids := [];
     debug_mode := false;
     test_mode := false;
     workflow_cache_ttl := 1200 |}.

(** [{ ...config, recent_uuids: l }], and the assignment
    [config.recent_uuids = l] on the configuration object. *)
Definition with_recent_uuids (l : list string) (c : CLIConfig) : CLIConfig :=
  {| service_account_path := service_account_path c;
     api_endpoint := api_endpoint c;
     recent_uuids := l;
     debug_mode := debug_mode c;
     test_mode := test_mode c;
     workflow_cache_ttl := workflow_cache_ttl c |}.

(** The assignment [config.workflow_cache_ttl = ttl]. *)
Definition with_workflow_cache_ttl (ttl : Z) (c : CLIConfig) : CLIConfig :=
  {| service_account_path := service_account_path c;
     api_endpoint := api_endpoint c;
     recent_uuids := recent_uuids c;
     debug_mode := debug_mode c;
     test_mode := test_mode c;
     workflow_cache_ttl := ttl |}.

(** [{ ...config, service_account_path: path }] *)
Definition with_service_account_path (path : string) (c : CLIConfig) : CLIConfig :=
  {| service_account_path := path;
     api_endpoint := api_endpoint c;
     recent_uuids := recent_uuids c;
     debug_mode := debug_mode c;
     test_mode := test_mode c;
     workflow_cache_ttl := workflow_cache_ttl c |}.

(** The object [JSON.parse] makes of the configuration file, as the keys
    of [CLIConfig] it has; a key the file does not have is [None]. *)
Record StoredConfig : Type := mkStored {
  stored_service_account_path : option string;
  stored_api_endpoint : option string;
  stored_recent_uuids : option (list string);
  stored_debug_mode : option bool;
  stored_test_mode : option bool;
  stored_workflow_cache_ttl : option Z
}.

(** What [loadConfig] finds at [DEFAULT_CONFIG_PATH]: no file, a file
    that [readFileSync], [JSON.parse] or the test [key in config] rejects
    with an error, or a file that parses to an object. *)
Inductive ConfigFile : Type :=
| NoConfigFile
| UnreadableConfigFile
| ConfigFileHolding (parsed : StoredConfig).

(** [for (const [key, value] of Object.entries(DEFAULT_CONFIG))
      if (!(key in config)) config[key] = value;] *)
Definition withDefaults (parsed : StoredConfig) : CLIConfig :=
  let orDefault {A} (stored : option A) (dflt : A) : A :=
    match stored with Some v => v | None => dflt end in
  {| service_account_path :=
       orDefault (stored_service_account_path parsed) (service_account_path DEFAULT_CONFIG);
     api_endpoint :=
       orDefault (stored_api_endpoint parsed) (api_endpoint DEFAULT_CONFIG);
     recent_uuids :=
       orDefault (stored_recent_uuids parsed) (recent_uuids DEFAULT_CONFIG);
     debug_mode :=
       orDefault (stored_debug_mode parsed) (debug_mode DEFAULT_CONFIG);
     test_mode :=
       orDefault (stored_test_mode parsed) (test_mode DEFAULT_CONFIG);
     workflow_cache_ttl :=
       orDefault (stored_workflow_cache_ttl parsed) (workflow_cache_ttl DEFAULT_CONFIG) |}.

(** [l.includes(uuid)] *)
Definition includes (l : list string) (uuid : string) : bool :=
  existsb (fun u => (u =? uuid)%string) l.

(** The expression that the analyze and results paths assign to
    [recent_uuids]:
    [[uuid, ...l.filter((u) => u !== uuid).slice(0, 9)]]. *)
Definition recentWith (uuid : string) (l : list string) : list string :=
  uuid :: firstn 9 (filter (fun u => negb (u =? uuid)%string) l).

(** ** Responses of the remote API ([types/visionfi.ts]) *)

(** [{ data: any }], what [verifyAuth] resolves to. *)
Record AuthVerificationResult : Type := mkAuthResult { auth_data : JsVal }.

(** [{ uuid?: string; [key: string]: any }], what [analyzeDocument]
    resolves to. *)
Record AnalysisJobResult : Type := mkJob {
  job_uuid : option string;
  job_rest : JsObject
}.

(** [if (result.uuid)] on a job result: a present, non-empty string. *)
Definition truthy_uuid (u : option string) : bool :=
  match u with
  | Some s => negb (s =? "")%string
  | None => false
  end.

(** ** Effects: journal, shared configuration, clock, thrown errors *)

Module Effects.

Inductive Outcome (A : Type) : Type :=
| Returned (a : A)
| Thrown (e : JsError).
Arguments Returned {A} a.
Arguments Thrown {A} e.

(** A call made to an injected collaborator. *)
Inductive Call : Type :=
| CreateClient (serviceAccountPath apiBaseUrl : string)
| VerifyAuth
| GetResults (uuid : string) (polling : option (JsNumber * JsNumber))
| AnalyzeDocument (fileData fileName analysisType : string)
| GetWorkflows
| SaveConfig (cfg : CLIConfig).

(** The calls that reach the remote API. *)
Definition isNetworkCall (c : Call) : bool :=
  match c with
  | VerifyAuth | GetResults _ _ | AnalyzeDocument _ _ _ | GetWorkflows => true
  | CreateClient _ _ | SaveConfig _ => false
  end.

Definition isVerifyAuth (c : Call) : bool :=
  match c with VerifyAuth => true | _ => false end.

Definition isGetResults (c : Call) : bool :=
  match c with GetResults _ _ => true | _ => false end.

Definition isAnalyzeDocument (c : Call) : bool :=
  match c with AnalyzeDocument _ _ _ => true | _ => false end.

Definition isGetWorkflows (c : Call) : bool :=
  match c with GetWorkflows => true | _ => false end.

(** What a run can observe and change: the calls made so far (oldest
    first), the configuration object the caller shares with the command,
    and the reading of [Date.now()] in milliseconds. *)
Record World : Type := mkWorld {
  journal : list Call;
  config : CLIConfig;
  clock : Z
}.

Definition Eff (A : Type) : Type := World -> Outcome A * World.

Definition ret {A} (a : A) : Eff A := fun w => (Returned a, w).

Definition throw {A} (e : JsError) : Eff A := fun w => (Thrown e, w).

Definition bind {A B} (m : Eff A) (k : A -> Eff B) : Eff B :=
  fun w =>
    match m w with
    | (Returned a, w') => k a w'
    | (Thrown e, w') => (Thrown e, w')
    end.

(** [try { m } catch (err) { handler err }] *)
Definition try_catch {A} (m : Eff A) (handler : JsError -> Eff A) : Eff A :=
  fun w =>
    match m w with
    | (Returned a, w') => (Returned a, w')
    | (Thrown e, w') => handler e w'
    end.

(** Settle a scripted outcome: return its value or throw its error. *)
Definition settle {A} (o : Outcome A) : Eff A := fun w => (o, w).

Definition record (c : Call) : Eff unit :=
  fun w => (Returned tt,
            {| journal := journal w ++ [c]; config := config w; clock := clock w |}).

Definition readConfig : Eff CLIConfig := fun w => (Returned (config w), w).

Definition writeConfig (c : CLIConfig) : Eff unit :=
  fun w => (Returned tt,
            {| journal := journal w; config := c; clock := clock w |}).

(** [Date.now()] *)
Definition dateNow : Eff Z := fun w => (Returned (clock w), w).

(** Time passes while a call is awaited: the clock moves on by [ms]
    milliseconds. *)
Definition elapse (ms : Z) : Eff unit :=
  fun w => (Returned tt,
            {| journal := journal w; config := config w; clock := clock w + ms |}).

End Effects.
Export Effects.

Declare Scope eff_scope.
Delimit Scope eff_scope with eff.
Notation "x <- m ;; k" := (bind m (fun x => k))
  (at level 61, m at next level, right associativity) : eff_scope.
Notation "m ;; k" := (bind m (fun _ => k))
  (at level 61, right associativity) : eff_scope.
Open Scope eff_scope.

(** ** Injected collaborators *)

(** The API client, as the outcome each method is scripted to have.  The
    helpers below journal the call and settle the outcome.  The clock is
    read by the workflow cache only, around its one call [getWorkflows];
    that call has a duration, the milliseconds that pass until it settles. *)
Record Client : Type := mkClient {
  verifyAuth_outcome : Outcome AuthVerificationResult;
  getResults_outcome : string -> option (JsNumber * JsNumber) -> Outcome JsObject;
  analyzeDocument_outcome : string -> string -> string -> Outcome AnalysisJobResult;
  getWorkflows_outcome : Outcome JsVal;
  getWorkflows_duration : Z
}.

(** [await client.verifyAuth()] *)
Definition verifyAuth (c : Client) : Eff AuthVerificationResult :=
  record VerifyAuth ;; settle (verifyAuth_outcome c).

(** [await client.getResults(uuid, pollInterval, maxAttempts)]; [polling]
    is [None] for the one-argument call. *)
Definition getResults (c : Client) (uuid : string)
    (polling : option (JsNumber * JsNumber)) : Eff JsObject :=
  record (GetResults uuid polling) ;; settle (getResults_outcome c uuid polling).

(** [await client.analyzeDocument(fileData, { fileName, analysisType })] *)
Definition analyzeDocument (c : Client) (fileData fileName analysisType : string)
    : Eff AnalysisJobResult :=
  record (AnalyzeDocument fileData fileName analysisType) ;;
  settle (analyzeDocument_outcome c fileData fileName analysisType).

(** [await client.getWorkflows()] *)
Definition getWorkflows (c : Client) : Eff JsVal :=
  record GetWorkflows ;;
  elapse (getWorkflows_duration c) ;;
  settle (getWorkflows_outcome c).

(** The [dependencies] bag of the command cores, and what stands behind
    the default collaborators of the wrappers: the state of the
    configuration file, which [loadConfig] of [utils/config.ts] reads. *)
Record Dependencies : Type := mkDeps {
  clientFactory_outcome : string -> string -> Outcome Client;
  existsSync : string -> bool;
  readFileSync_outcome : string -> Outcome string;
  basename : string -> string;
  configFile : ConfigFile;
  saveConfig_outcome : CLIConfig -> Outcome unit
}.

(** [clientFactory({ serviceAccountPath, apiBaseUrl })] *)
Definition clientFactory (d : Dependencies) (serviceAccountPath apiBaseUrl : string)
    : Eff Client :=
  record (CreateClient serviceAccountPath apiBaseUrl) ;;
  settle (clientFactory_outcome d serviceAccountPath apiBaseUrl).

(** [configManager.saveConfig(cfg)] *)
Definition saveConfig (d : Dependencies) (cfg : CLIConfig) : Eff unit :=
  record (SaveConfig cfg) ;; settle (saveConfig_outcome d cfg).

(** [fileSystem.readFileSync(path)] *)
Definition readFileSync (d : Dependencies) (path : string) : Eff string :=
  settle (readFileSync_outcome d path).

(** ** [utils/config.ts] *)

(** The configuration a call of [loadConfig] returns: the content of the
    file with the missing keys taken from [DEFAULT_CONFIG], and a copy of
    [DEFAULT_CONFIG] when there is no file or no readable one. *)
Definition loadedConfig (d : Dependencies) : CLIConfig :=
  match configFile d with
  | ConfigFileHolding parsed => withDefaults parsed
  | UnreadableConfigFile | NoConfigFile => DEFAULT_CONFIG
  end.

Module Config.

(** [loadConfig()].  With no configuration file the defaults are written
    through [saveConfig] before they are returned; an unreadable file is
    left as it is.  The two [mkdirSync(dir, { recursive: true })] for the
    configuration and key directories come first in the source; they are
    not among the calls the journal keeps and are taken to succeed. *)
Definition loadConfig (d : Dependencies) : Eff CLIConfig :=
  match configFile d with
  | ConfigFileHolding parsed => ret (withDefaults parsed)
  | UnreadableConfigFile => ret DEFAULT_CONFIG
  | NoConfigFile => saveConfig d DEFAULT_CONFIG ;; ret DEFAULT_CONFIG
  end.

End Config.

(** ** The shared shape of command results

    Every core returns an object with at least [success], [message] and
    [exitCode]; [handleCommandResult] of [cli.ts] takes exactly that
    structural type. *)
Class CommandOutcome (R : Type) : Type := {
  outcome_success : R -> bool;
  outcome_message : R -> string;
  outcome_exitCode : R -> Z
}.

(** How a wrapper or an action of the command line leaves the process:
    through [process.exit(code)], or by returning to its caller. *)
Inductive Ending : Type :=
| Exited (code : Z)
| Returns.

(** The invariant of the result record: success exactly when the exit
    code is zero. *)
Definition exit_coherent {R} `{CommandOutcome R} (r : R) : Prop :=
  outcome_success r = true <-> outcome_exitCode r = 0.

(** The [error] property of a result: absent, a value taken from an API
    response, or a caught [Error]. *)
Inductive ErrorField : Type :=
| NoError
| ApiError (v : JsVal)
| Caught (e : JsError).

(** ** [commands/auth.ts] *)

Module Auth.

(** [AuthCommandResult] of [types/auth.ts] *)
Record AuthCommandResult : Type := mkResult {
  success : bool;
  message : string;
  exitCode : Z;
  data : JsVal;
  error : ErrorField
}.

#[global] Instance AuthCommandResult_outcome : CommandOutcome AuthCommandResult :=
  {| outcome_success := success;
     outcome_message := message;
     outcome_exitCode := exitCode |}.

Definition authenticateWithApi (config : CLIConfig) (deps : Dependencies)
    : Eff AuthCommandResult :=
  if (service_account_path config =? "")%string then
    ret {| success := false;
           message := "Client not initialized. Please configure a service account first.";
           exitCode := 1;
           data := JUndefined;
           error := NoError |}
  else
    try_catch
      (client <- clientFactory deps (service_account_path config) (api_endpoint config) ;;
       authResult <- verifyAuth client ;;
       ret {| success := truthy (auth_data authResult);
              message := if truthy (auth_data authResult)
                         then "Authentication successful!"
                         else "Authentication failed!";
              exitCode := if truthy (auth_data authResult) then 0 else 1;
              data := auth_data authResult;
              error := NoError |})
      (fun err =>
         ret {| success := false;
                message := "Authentication error: " ++ err_message err;
                exitCode := 1;
                data := JUndefined;
                error := Caught err |}).

End Auth.

(** ** [commands/analyze.ts] *)

Module Analyze.

(** [AnalyzeOptions] of [types/analyze.ts]; [workflow] is absent when the
    command line gave none. *)
Record AnalyzeOptions : Type := mkOptions { workflow : option string }.

(** [AnalyzeCommandResult] of [types/analyze.ts] *)
Record AnalyzeCommandResult : Type := mkResult {
  success : bool;
  message : string;
  exitCode : Z;
  uuid : option string;
  data : option AnalysisJobResult;
  error : ErrorField
}.

#[global] Instance AnalyzeCommandResult_outcome : CommandOutcome AnalyzeCommandResult :=
  {| outcome_success := success;
     outcome_message := message;
     outcome_exitCode := exitCode |}.

Definition failure (msg : string) (err : ErrorField) : AnalyzeCommandResult :=
  {| success := false; message := msg; exitCode := 1;
     uuid := None; data := None; error := err |}.

(** The statements of [analyzeDocumentCore] after the authentication
    block: the workflow check, the file read and the submission. *)
Definition submit (filePath : string) (options : AnalyzeOptions)
    (deps : Dependencies) (client : Client) : Eff AnalyzeCommandResult :=
  match workflow options with
  | None =>
      ret (failure "No workflow specified. Use --workflow option to specify analysis workflow." NoError)
  | Some workflowKey =>
      if (workflowKey =? "")%string then
        ret (failure "No workflow specified. Use --workflow option to specify analysis workflow." NoError)
      else
        fileData <- readFileSync deps filePath ;;
        try_catch
          (result <- analyzeDocument client fileData (basename deps filePath) workflowKey ;;
           if truthy_uuid (job_uuid result) then
             ret {| success := true;
                    message := "Document submitted successfully!";
                    exitCode := 0;
                    uuid := job_uuid result;
                    data := Some result;
                    error := NoError |}
           else
             ret {| success := false;
                    message := "Document submitted but no UUID was returned.";
                    exitCode := 1;
                    uuid := None;
                    data := Some result;
                    error := NoError |})
          (fun err => ret (failure ("Error submitting document: " ++ err_message err) (Caught err)))
  end.

Definition analyzeDocumentCore (filePath : string) (options : AnalyzeOptions)
    (config : CLIConfig) (deps : Dependencies) : Eff AnalyzeCommandResult :=
  try_catch
    (if (service_account_path config =? "")%string then
       ret (failure "No service account configured. Run in interactive mode to set up a service account." NoError)
     else if negb (existsSync deps filePath) then
       ret (failure ("File not found: " ++ filePath) NoError)
     else
       client <- clientFactory deps (service_account_path config) (api_endpoint config) ;;
       (* [Some r] is an early return of the authentication block *)
       early <- try_catch
                  (authResult <- verifyAuth client ;;
                   if negb (truthy (auth_data authResult))
                   then ret (Some (failure "Authentication failed." NoError))
                   else ret None)
                  (fun err =>
                     ret (Some (failure ("Authentication error: " ++ err_message err)
                                        (Caught err)))) ;;
       match early with
       | Some r => ret r
       | None => submit filePath options deps client
       end)
    (fun err => ret (failure ("Unexpected error: " ++ err_message err) (Caught err))).

(** The CLI wrapper [analyzeDocument], without its console output: it
    loads the configuration, runs the core on it and, on a success that
    carries a job id, puts the id in front of [recent_uuids] and saves the
    configuration; it ends in [process.exit(result.exitCode)] when the
    exit code is not 0.  The wrapper uses the default collaborators, for
    which [deps] stands. *)
Definition analyzeDocument (filePath : string) (options : AnalyzeOptions)
    (deps : Dependencies) : Eff Ending :=
  cfg <- Config.loadConfig deps ;;
  result <- analyzeDocumentCore filePath options cfg deps ;;
  (if success result && truthy_uuid (uuid result) then
     match uuid result with
     | Some id =>
         saveConfig deps (with_recent_uuids (recentWith id (recent_uuids cfg)) cfg)
     | None => ret tt
     end
   else ret tt) ;;
  if negb (exitCode result =? 0) then ret (Exited (exitCode result))
  else ret Returns.

End Analyze.

(** ** [commands/results.ts] *)

Module Results.

(** [number | string], the type of the polling options. *)
Inductive NumberOrString : Type :=
| ONumber (n : JsNumber)
| OString (s : string).

(** [ResultsOptions] of [types/results.ts]; an absent [wait] is [false]. *)
Record ResultsOptions : Type := mkOptions {
  wait : bool;
  pollInterval : option NumberOrString;
  maxAttempts : option NumberOrString
}.

(** [ResultsCommandResult] of [types/results.ts]; an absent [status] or
    [results] is [JUndefined]. *)
Record ResultsCommandResult : Type := mkResult {
  success : bool;
  message : string;
  exitCode : Z;
  status : JsVal;
  results : JsVal;
  error : ErrorField
}.

#[global] Instance ResultsCommandResult_outcome : CommandOutcome ResultsCommandResult :=
  {| outcome_success := success;
     outcome_message := message;
     outcome_exitCode := exitCode |}.

Definition failure (msg : string) (err : ErrorField) : ResultsCommandResult :=
  {| success := false; message := msg; exitCode := 1;
     status := JUndefined; results := JUndefined; error := err |}.

(** [typeof o === 'string' ? parseInt(o, 10) : (o || dflt)] *)
Definition numericOption (o : option NumberOrString) (dflt : Z) : JsNumber :=
  match o with
  | Some (OString s) => parseInt s (Some 10)
  | Some (ONumber n) => if truthy (JNumber n) then n else Num dflt
  | None => Num dflt
  end.

(** The branch on what the response carries (lines 709-734). *)
Definition interpret (result : JsObject) : ResultsCommandResult :=
  if truthy (prop result "results") then
    {| success := true;
       message := "Results retrieved successfully!";
       exitCode := 0;
       status := prop result "status";
       results := prop result "results";
       error := NoError |}
  else if has_prop "error" result && truthy (prop result "error") then
    {| success := false;
       message := "Analysis error occurred during processing.";
       exitCode := 1;
       status := prop result "status";
       results := JUndefined;
       error := ApiError (prop result "error") |}
  else
    {| success := true;
       message := "No results available yet. The job may still be processing.";
       exitCode := 0;
       status := prop result "status";
       results := JUndefined;
       error := NoError |}.

(** The statements of [getResultsCore] after the authentication block. *)
Definition fetch (uuid : string) (options : ResultsOptions)
    (deps : Dependencies) (client : Client) : Eff ResultsCommandResult :=
  if (uuid =? "")%string then
    ret (failure "No job UUID specified." NoError)
  else
    cfg <- readConfig ;;
    (if negb (includes (recent_uuids cfg) uuid) then
       writeConfig (with_recent_uuids (recentWith uuid (recent_uuids cfg)) cfg) ;;
       cfg' <- readConfig ;;
       saveConfig deps cfg'
     else ret tt) ;;
    let pollInterval := numericOption (pollInterval options) 3000 in
    let maxAttempts := numericOption (maxAttempts options) 10 in
    let shouldWait := wait options in
    try_catch
      (result <- (if shouldWait
                  then getResults client uuid (Some (pollInterval, maxAttempts))
                  else getResults client uuid (Some (Num 0, Num 1))) ;;
       ret (interpret result))
      (fun err => ret (failure ("Failed to retrieve results: " ++ err_message err) (Caught err))).

(** [getResultsCore(uuid, options, config, dependencies)]; the [config]
    argument is the shared configuration object of the world. *)
Definition getResultsCore (uuid : string) (options : ResultsOptions)
    (deps : Dependencies) : Eff ResultsCommandResult :=
  try_catch
    (cfg <- readConfig ;;
     if (service_account_path cfg =? "")%string then
       ret (failure "No service account configured. Run in interactive mode to set up a service account." NoError)
     else
       client <- clientFactory deps (service_account_path cfg) (api_endpoint cfg) ;;
       early <- try_catch
                  (authResult <- verifyAuth client ;;
                   if negb (truthy (auth_data authResult))
                   then ret (Some (failure "Authentication failed." NoError))
                   else ret None)
                  (fun err =>
                     ret (Some (failure ("Authentication error: " ++ err_message err)
                                        (Caught err)))) ;;
       match early with
       | Some r => ret r
       | None => fetch uuid options deps client
       end)
    (fun err => ret (failure ("Unexpected error: " ++ err_message err) (Caught err))).

End Results.

(** ** [commands/interactive-core.ts] *)

Module InteractiveCore.

(** The shapes the cores give to [data] ([data?: any] in
    [types/interactive.ts]). *)
Inductive InteractiveData : Type :=
| DClient (client : Client)
| DAuth (authResult : AuthVerificationResult)
| DWorkflows (workflows : JsVal) (cachedAt : Z) (fromCache : bool)
| DApi (response : JsVal)
| DSubmission (uuid : string) (result : AnalysisJobResult) (config : CLIConfig)
| DJob (result : AnalysisJobResult)
| DResults (result : JsObject)
| DTtl (seconds : JsNumber) (formattedString : string).

(** [InteractiveCommandResult] of [types/interactive.ts] *)
Record InteractiveCommandResult : Type := mkResult {
  success : bool;
  message : string;
  exitCode : Z;
  data : option InteractiveData;
  error : ErrorField
}.

#[global] Instance InteractiveCommandResult_outcome
    : CommandOutcome InteractiveCommandResult :=
  {| outcome_success := success;
     outcome_message := message;
     outcome_exitCode := exitCode |}.

Definition notInitialized : InteractiveCommandResult :=
  {| success := false; message := "Client not initialized"; exitCode := 1;
     data := None; error := NoError |}.

Definition initializeClientCore (serviceAccountPath : string) (config : CLIConfig)
    (deps : Dependencies) : Eff InteractiveCommandResult :=
  try_catch
    (client <- clientFactory deps serviceAccountPath (api_endpoint config) ;;
     ret {| success := true;
            message := "Client initialized successfully";
            exitCode := 0;
            data := Some (DClient client);
            error := NoError |})
    (fun err =>
       ret {| success := false;
              message := "Failed to initialize client: " ++ err_message err;
              exitCode := 1;
              data := None;
              error := Caught err |}).

Definition verifyAuthenticationCore (client : option Client)
    : Eff InteractiveCommandResult :=
  match client with
  | None => ret notInitialized
  | Some client =>
      try_catch
        (authResult <- verifyAuth client ;;
         if truthy (auth_data authResult) then
           ret {| success := true;
                  message := "Authentication successful";
                  exitCode := 0;
                  data := Some (DAuth authResult);
                  error := NoError |}
         else
           ret {| success := false;
                  message := "Authentication check returned without error, but may not be fully authenticated";
                  exitCode := 1;
                  data := Some (DAuth authResult);
                  error := NoError |})
        (fun err =>
           ret {| success := false;
                  message := "Authentication test failed: " ++ err_message err;
                  exitCode := 1;
                  data := None;
                  error := Caught err |})
  end.

(** [cachedWorkflows === null] *)
Definition isNull (v : JsVal) : bool :=
  match v with JNull => true | _ => false end.

(** A parameter declared [p: any = null]: an argument that is
    [undefined] (or left out) is replaced by the default. *)
Definition orNull (v : JsVal) : JsVal :=
  match v with JUndefined => JNull | _ => v end.

(** The decision of [getWorkflowsCore] (lines 265-267). *)
Definition shouldFetchFromApi (forceRefresh : bool) (cachedWorkflows : JsVal)
    (now workflowsCachedAt workflowCacheTtl : Z) : bool :=
  forceRefresh || isNull cachedWorkflows ||
  (now - workflowsCachedAt >? workflowCacheTtl * 1000).

Definition getWorkflowsCore (client : option Client) (forceRefresh : bool)
    (cachedWorkflows : JsVal) (workflowsCachedAt workflowCacheTtl : Z)
    (debugMode : bool) : Eff InteractiveCommandResult :=
  let cachedWorkflows := orNull cachedWorkflows in
  match client with
  | None => ret notInitialized
  | Some client =>
      now <- dateNow ;;
      if shouldFetchFromApi forceRefresh cachedWorkflows now
           workflowsCachedAt workflowCacheTtl
      then
        try_catch
          (workflows <- getWorkflows client ;;
           if truthy (opt_prop workflows "success") then
             ret {| success := true;
                    message := "Workflows fetched successfully";
                    exitCode := 0;
                    data := Some (DWorkflows workflows now false);
                    error := NoError |}
           else
             ret {| success := false;
                    message := "Failed to fetch workflows";
                    exitCode := 1;
                    data := Some (DApi workflows);
                    error := NoError |})
          (fun err =>
             ret {| success := false;
                    message := "Error fetching workflows: " ++ err_message err;
                    exitCode := 1;
                    data := None;
                    error := Caught err |})
      else
        ret {| success := true;
               message := "Using cached workflows";
               exitCode := 0;
               data := Some (DWorkflows cachedWorkflows workflowsCachedAt true);
               error := NoError |}
  end.

Definition analyzeDocumentCore (client : option Client)
    (fileData fileName workflowKey : string) (config : CLIConfig)
    (deps : Dependencies) : Eff InteractiveCommandResult :=
  match client with
  | None => ret notInitialized
  | Some client =>
      try_catch
        (result <- analyzeDocument client fileData fileName workflowKey ;;
         match job_uuid result with
         | Some uuid =>
             if truthy_uuid (Some uuid) then
               let recentUuids := recentWith uuid (recent_uuids config) in
               let updatedConfig := with_recent_uuids recentUuids config in
               saveConfig deps updatedConfig ;;
               ret {| success := true;
                      message := "Document submitted successfully";
                      exitCode := 0;
                      data := Some (DSubmission uuid result updatedConfig);
                      error := NoError |}
             else
               ret {| success := false;
                      message := "Document submitted but no UUID was returned";
                      exitCode := 1;
                      data := Some (DJob result);
                      error := NoError |}
         | None =>
             ret {| success := false;
                    message := "Document submitted but no UUID was returned";
                    exitCode := 1;
                    data := Some (DJob result);
                    error := NoError |}
         end)
        (fun err =>
           ret {| success := false;
                  message := "Error submitting document: " ++ err_message err;
                  exitCode := 1;
                  data := None;
                  error := Caught err |})
  end.

(** The branch of the interactive [getResultsCore] on what the response
    carries (lines 406-428). *)
Definition interpret (result : JsObject) : InteractiveCommandResult :=
  if truthy (prop result "results") then
    {| success := true;
       message := "Results retrieved successfully";
       exitCode := 0;
       data := Some (DResults result);
       error := NoError |}
  else if has_prop "error" result && truthy (prop result "error") then
    {| success := false;
       message := "Analysis error";
       exitCode := 1;
       data := Some (DResults result);
       error := ApiError (prop result "error") |}
  else
    {| success := false;
       message := "No results available yet. The job may still be processing.";
       exitCode := 0;
       data := Some (DResults result);
       error := NoError |}.

Definition getResultsCore (client : option Client) (uuid : string)
    : Eff InteractiveCommandResult :=
  match client with
  | None => ret notInitialized
  | Some client =>
      try_catch
        (result <- getResults client uuid None ;;
         ret (interpret result))
        (fun err =>
           ret {| success := false;
                  message := "Failed to retrieve results: " ++ err_message err;
                  exitCode := 1;
                  data := None;
                  error := Caught err |})
  end.

Definition formatCacheTtlCore (seconds : JsNumber) : InteractiveCommandResult :=
  let formattedString :=
    if lt seconds 60 then show seconds ++ " seconds"
    else if lt seconds 3600 then
      let minutes := floor_div seconds 60 in
      show minutes ++ " minute" ++ (if neq1 minutes then "s" else "")
    else
      let hours := floor_div seconds 3600 in
      show hours ++ " hour" ++ (if neq1 hours then "s" else "") in
  {| success := true;
     message := formattedString;
     exitCode := 0;
     data := Some (DTtl seconds formattedString);
     error := NoError |}.

(** [try { body } catch (err) { handler }] around synchronous code. *)
Definition attempt {A} (body : Outcome A) (handler : JsError -> A) : A :=
  match body with
  | Returned a => a
  | Thrown err => handler err
  end.

Definition parseWorkflowCacheTtlCore (input : string) : InteractiveCommandResult :=
  attempt
    (let normalizedInput := toLowerCase (trim input) in
     let seconds :=
       if endsWith normalizedInput "s" then
         parseInt (slice_0_m1 normalizedInput) None
       else if endsWith normalizedInput "m" then
         mul (parseInt (slice_0_m1 normalizedInput) None) 60
       else if endsWith normalizedInput "h" then
         mul (parseInt (slice_0_m1 normalizedInput) None) 3600
       else
         parseInt normalizedInput None in
     if isNaN seconds || lt seconds 0 then
       Returned {| success := false;
                   message := "Invalid cache TTL. Must be a positive number.";
                   exitCode := 1;
                   data := None;
                   error := NoError |}
     else
       Returned {| success := true;
                   message := "Cache TTL parsed successfully";
                   exitCode := 0;
                   data := Some (DTtl seconds (message (formatCacheTtlCore seconds)));
                   error := NoError |})
    (fun err =>
       {| success := false;
          message := "Invalid format. Examples: 30s, 10m, 2h";
          exitCode := 1;
          data := None;
          error := Caught err |}).

End InteractiveCore.

(** ** [commands/interactive-core.ts]: the cores that configure *)

Module InteractiveSetup.

(** [InteractiveCommandResult] as the cores of this module fill it; [D]
    is the shape they give to [data]. *)
Record ResultOf (D : Type) : Type := mkResult {
  success : bool;
  message : string;
  exitCode : Z;
  data : option D;
  error : ErrorField
}.
Arguments mkResult {D}.
Arguments success {D}.
Arguments message {D}.
Arguments exitCode {D}.
Arguments data {D}.
Arguments error {D}.

#[global] Instance ResultOf_outcome (D : Type) : CommandOutcome (ResultOf D) :=
  {| outcome_success := success;
     outcome_message := message;
     outcome_exitCode := exitCode |}.

(** [{ client, config }], the data of a successful set-up. *)
Record SetupData : Type := mkSetupData {
  setup_client : option Client;
  setup_config : CLIConfig
}.

(** What the set-up cores take from Node besides the injected
    collaborators: [os.homedir()], the default key path
    [path.join(DEFAULT_KEY_DIR, SERVICE_ACCOUNT_KEY_NAME)], [path.dirname],
    and the outcomes of [mkdirSync] and [copyFileSync]. *)
Record Environment : Type := mkEnvironment {
  homedir : string;
  defaultKeyPath : string;
  dirname : string -> string;
  mkdirSync_outcome : string -> Outcome unit;
  copyFileSync_outcome : string -> string -> Outcome unit
}.

(** [initResult.data?.client] *)
Definition clientOf (r : InteractiveCore.InteractiveCommandResult) : option Client :=
  match InteractiveCore.data r with
  | Some (InteractiveCore.DClient c) => Some c
  | _ => None
  end.

(** [return initResult;] for a failed initialisation, which carries no
    data. *)
Definition returned {D} (r : InteractiveCore.InteractiveCommandResult) : ResultOf D :=
  {| success := InteractiveCore.success r;
     message := InteractiveCore.message r;
     exitCode := InteractiveCore.exitCode r;
     data := None;
     error := InteractiveCore.error r |}.

Definition refusal {D} (msg : string) : ResultOf D :=
  {| success := false; message := msg; exitCode := 1;
     data := None; error := NoError |}.

Definition setupServiceAccountWithPathCore (env : Environment)
    (serviceAccountPath : string) (config : CLIConfig) (deps : Dependencies)
    : Eff (ResultOf SetupData) :=
  let trimmed := trim serviceAccountPath in
  if (trimmed =? "")%string then
    ret (refusal "Service account path is empty")
  else
    let normalizedPath := replaceLeadingTilde trimmed (homedir env) in
    if negb (existsSync deps normalizedPath) then
      ret (refusal ("File not found: " ++ normalizedPath))
    else
      initResult <- InteractiveCore.initializeClientCore normalizedPath config deps ;;
      if negb (InteractiveCore.success initResult) then
        ret (returned initResult)
      else
        let updatedConfig := with_service_account_path normalizedPath config in
        saveConfig deps updatedConfig ;;
        ret {| success := true;
               message := "Service account configured successfully";
               exitCode := 0;
               data := Some {| setup_client := clientOf initResult;
                               setup_config := updatedConfig |};
               error := NoError |}.

Definition setupDefaultServiceAccountCore (env : Environment)
    (sourcePath : string) (config : CLIConfig) (deps : Dependencies)
    : Eff (ResultOf SetupData) :=
  let trimmed := trim sourcePath in
  if (trimmed =? "")%string then
    ret (refusal "Source path is empty")
  else
    let normalizedPath := replaceLeadingTilde trimmed (homedir env) in
    if negb (existsSync deps normalizedPath) then
      ret (refusal ("File not found: " ++ normalizedPath))
    else
      try_catch
        (settle (mkdirSync_outcome env (dirname env (defaultKeyPath env))) ;;
         settle (copyFileSync_outcome env normalizedPath (defaultKeyPath env)) ;;
         initResult <- InteractiveCore.initializeClientCore (defaultKeyPath env)
                         config deps ;;
         if negb (InteractiveCore.success initResult) then
           ret (returned initResult)
         else
           let updatedConfig := with_service_account_path (defaultKeyPath env) config in
           saveConfig deps updatedConfig ;;
           ret {| success := true;
                  message := "Service account copied and configured successfully";
                  exitCode := 0;
                  data := Some {| setup_client := clientOf initResult;
                                  setup_config := updatedConfig |};
                  error := NoError |})
        (fun err =>
           ret {| success := false;
                  message := "Failed to setup default service account: "
                             ++ err_message err;
                  exitCode := 1;
                  data := None;
                  error := Caught err |}).

(** A key of the configuration with a value of its type: what every
    caller of [updateConfigCore] passes for [key] and [value]. *)
Inductive ConfigEntry : Type :=
| ServiceAccountPath (value : string)
| ApiEndpoint (value : string)
| RecentUuids (value : list string)
| DebugMode (value : bool)
| TestMode (value : bool)
| WorkflowCacheTtl (value : Z).

Definition keyOf (entry : ConfigEntry) : string :=
  match entry with
  | ServiceAccountPath _ => "service_account_path"
  | ApiEndpoint _ => "api_endpoint"
  | RecentUuids _ => "recent_uuids"
  | DebugMode _ => "debug_mode"
  | TestMode _ => "test_mode"
  | WorkflowCacheTtl _ => "workflow_cache_ttl"
  end.

(** [{ ...config, [key]: value }] *)
Definition withEntry (entry : ConfigEntry) (c : CLIConfig) : CLIConfig :=
  {| service_account_path :=
       match entry with ServiceAccountPath v => v | _ => service_account_path c end;
     api_endpoint :=
       match entry with ApiEndpoint v => v | _ => api_endpoint c end;
     recent_uuids :=
       match entry with RecentUuids v => v | _ => recent_uuids c end;
     debug_mode :=
       match entry with DebugMode v => v | _ => debug_mode c end;
     test_mode :=
       match entry with TestMode v => v | _ => test_mode c end;
     workflow_cache_ttl :=
       match entry with WorkflowCacheTtl v => v | _ => workflow_cache_ttl c end |}.

(** [{ key, value, config }], the data of a successful update. *)
Record UpdateData : Type := mkUpdateData {
  update_entry : ConfigEntry;
  update_config : CLIConfig
}.

Definition updateConfigCore (config : CLIConfig) (entry : ConfigEntry)
    (deps : Dependencies) : Eff (ResultOf UpdateData) :=
  try_catch
    (let updatedConfig := withEntry entry config in
     saveConfig deps updatedConfig ;;
     ret {| success := true;
            message := "Configuration updated: " ++ keyOf entry;
            exitCode := 0;
            data := Some {| update_entry := entry; update_config := updatedConfig |};
            error := NoError |})
    (fun err =>
       ret {| success := false;
              message := "Failed to update configuration: " ++ err_message err;
              exitCode := 1;
              data := None;
              error := Caught err |}).

End InteractiveSetup.

(** ** [commands/interactive.ts]: the session object and its workflow cache *)

Module Interactive.

Import InteractiveCore.

(** The fields of [class VisionFiCLI] that the workflow cache uses. *)
Record VisionFiCLI : Type := mkSession {
  session_config : CLIConfig;
  client : option Client;
  _cachedWorkflows : JsVal;
  _workflowsCachedAt : Z;
  _workflowCacheTtl : Z
}.

(** The state the constructor leaves: an empty cache, the lifetime of the
    loaded configuration. *)
Definition newSession (cfg : CLIConfig) (c : option Client) : VisionFiCLI :=
  {| session_config := cfg;
     client := c;
     _cachedWorkflows := JNull;
     _workflowsCachedAt := 0;
     _workflowCacheTtl := workflow_cache_ttl cfg |}.

Definition storeWorkflows (self : VisionFiCLI) (workflows : JsVal) (cachedAt : Z)
    : VisionFiCLI :=
  {| session_config := session_config self;
     client := client self;
     _cachedWorkflows := workflows;
     _workflowsCachedAt := cachedAt;
     _workflowCacheTtl := _workflowCacheTtl self |}.

(** [getCachedWorkflows(forceRefresh)], without its debug output: the
    value returned and the session afterwards.  A successful
    [getWorkflowsCore] always carries [{ workflows, cachedAt }]
    ([getWorkflowsCore_success_data] below), so the last branch of the
    match is never taken. *)
Definition getCachedWorkflows (self : VisionFiCLI) (forceRefresh : bool)
    : Eff (JsVal * VisionFiCLI) :=
  result <- getWorkflowsCore (client self) forceRefresh (_cachedWorkflows self)
              (_workflowsCachedAt self) (_workflowCacheTtl self)
              (debug_mode (session_config self)) ;;
  let self' :=
    if success result then
      match data result with
      | Some (DWorkflows workflows cachedAt fromCache) =>
          if negb fromCache then storeWorkflows self workflows cachedAt else self
      | _ => self
      end
    else self in
  ret (_cachedWorkflows self', self').

Definition clearWorkflowCache (self : VisionFiCLI) : VisionFiCLI :=
  storeWorkflows self JNull 0.

(** [setWorkflowCacheTtl(seconds)], without its console output: whether
    the lifetime was accepted, and the session afterwards.  The argument is
    turned into a string and parsed again; an accepted value is stored in
    the session and in its configuration, which is then saved.  A success
    of the parser always carries [{ seconds, formattedString }] with a
    number for [seconds], so the last branch of the match is never
    taken. *)
Definition setWorkflowCacheTtl (self : VisionFiCLI) (deps : Dependencies)
    (seconds : JsNumber) : Eff (bool * VisionFiCLI) :=
  let parseResult := parseWorkflowCacheTtlCore (show seconds) in
  if success parseResult then
    match data parseResult with
    | Some (DTtl (Num parsed) _) =>
        let self' :=
          {| session_config := with_workflow_cache_ttl parsed (session_config self);
             client := client self;
             _cachedWorkflows := _cachedWorkflows self;
             _workflowsCachedAt := _workflowsCachedAt self;
             _workflowCacheTtl := parsed |} in
        saveConfig deps (session_config self') ;;
        ret (true, self')
    | _ => ret (true, self)
    end
  else ret (false, self).

End Interactive.

(** ** [cli.ts]: the actions of the command line

    What the actions print is left out; what they call and how they leave
    the process is kept. *)

Module Cli.

Definition handleCommandResult {R} `{CommandOutcome R} (result : R) : Ending :=
  if negb (outcome_exitCode result =? 0)%Z then Exited (outcome_exitCode result)
  else Returns.

(** The action of [auth verify]. *)
Definition authVerifyAction (deps : Dependencies) : Eff Ending :=
  try_catch
    (config <- Config.loadConfig deps ;;
     result <- Auth.authenticateWithApi config deps ;;
     ret (handleCommandResult result))
    (fun _ => ret (Exited 1)).

(** The action of [analyze <file>]. *)
Definition analyzeAction (filePath : string) (options : Analyze.AnalyzeOptions)
    (deps : Dependencies) : Eff Ending :=
  try_catch
    (config <- Config.loadConfig deps ;;
     result <- Analyze.analyzeDocumentCore filePath options config deps ;;
     ret (handleCommandResult result))
    (fun _ => ret (Exited 1)).

(** The action of [results <uuid>]; the configuration it loads is the
    object the core reads and updates. *)
Definition resultsAction (uuid : string) (options : Results.ResultsOptions)
    (deps : Dependencies) : Eff Ending :=
  try_catch
    (config <- Config.loadConfig deps ;;
     writeConfig config ;;
     result <- Results.getResultsCore uuid options deps ;;
     ret (handleCommandResult result))
    (fun _ => ret (Exited 1)).

End Cli.

(** * Vocabulary of the properties *)

(** ** Runs and the calls they make *)

(** A world in which nothing has been called yet. *)
Definition freshWorld (cfg : CLIConfig) (now : Z) : World :=
  {| journal := []; config := cfg; clock := now |}.

(** The calls a computation adds to the journal of the world it starts in. *)
Definition performed {A} (m : Eff A) (w : World) : list Call :=
  skipn (List.length (journal w)) (journal (snd (m w))).

(** The polling arguments [getResultsCore] passes to [client.getResults]:
    the options when [wait] is set, one immediate attempt otherwise. *)
Definition requestedPolling (options : Results.ResultsOptions)
    : option (JsNumber * JsNumber) :=
  if Results.wait options
  then Some (Results.numericOption (Results.pollInterval options) 3000,
             Results.numericOption (Results.maxAttempts options) 10)
  else Some (Num 0, Num 1).

(** The journal once the client is created and authentication verified. *)
Definition authenticatedWorld (w : World) : World :=
  {| journal := journal w ++ [CreateClient (service_account_path (config w))
                                           (api_endpoint (config w));
                              VerifyAuth];
     config := config w;
     clock := clock w |}.

(** No workflow was given: the option is absent or empty. *)
Definition missingWorkflow (options : Analyze.AnalyzeOptions) : Prop :=
  Analyze.workflow options = None \/ Analyze.workflow options = Some "".

(** The remote listing fails: it throws, or resolves to a value whose
    [success] is not truthy. *)
Definition fetchFails (client : Client) : Prop :=
  match getWorkflows_outcome client with
  | Thrown _ => True
  | Returned v => truthy (opt_prop v "success") = false
  end.

(** ** Numerals and the records of the lifetime parser *)

(** The last code unit of a string. *)
Fixpoint lastChar (s : string) : option ascii :=
  match s with
  | EmptyString => None
  | String c rest =>
      match lastChar rest with
      | None => Some c
      | found => found
      end
  end.

(** A string without its last code unit. *)
Fixpoint dropLast (s : string) : string :=
  match s with
  | EmptyString => EmptyString
  | String c rest =>
      match rest with
      | EmptyString => EmptyString
      | _ => String c (dropLast rest)
      end
  end.

(** A [Decimal.uint] is a sequence of decimal digits, leading zeros
    allowed; [digitsOf] writes it as a string and [Z.of_uint] is its value. *)
Definition digitsOf (u : Decimal.uint) : string := NilEmpty.string_of_uint u.

(** The digits of a numeral as digit values. *)
Fixpoint uint_digits (u : Decimal.uint) : list Z :=
  match u with
  | Decimal.Nil => []
  | Decimal.D0 u' => 0 :: uint_digits u'
  | Decimal.D1 u' => 1 :: uint_digits u'
  | Decimal.D2 u' => 2 :: uint_digits u'
  | Decimal.D3 u' => 3 :: uint_digits u'
  | Decimal.D4 u' => 4 :: uint_digits u'
  | Decimal.D5 u' => 5 :: uint_digits u'
  | Decimal.D6 u' => 6 :: uint_digits u'
  | Decimal.D7 u' => 7 :: uint_digits u'
  | Decimal.D8 u' => 8 :: uint_digits u'
  | Decimal.D9 u' => 9 :: uint_digits u'
  end.

(** [c] is one of 0-9. *)
Definition isDecimalDigit (c : ascii) : bool :=
  ((48 <=? code c) && (code c <=? 57))%N.

(** [s] starts with [x] or [X]. *)
Definition startsWithX (s : string) : bool :=
  match s with
  | String c _ => (c =? "x")%char || (c =? "X")%char
  | EmptyString => false
  end.

(** [s] starts with a decimal digit and not with the hexadecimal prefix. *)
Definition plainStart (s : string) : bool :=
  match s with
  | String c rest =>
      isDecimalDigit c && negb ((c =? "0")%char && startsWithX rest)
  | EmptyString => false
  end.

(** [c] can start a number for [parseInt]: a decimal digit, a sign, or
    white space that [parseInt] would skip. *)
Definition numericStart (c : ascii) : bool :=
  isDecimalDigit c || (c =? "+")%char || (c =? "-")%char || isWhiteSpace c.

(** The success record for a lifetime of [v] seconds. *)
Definition accepted (v : Z) : InteractiveCore.InteractiveCommandResult :=
  {| InteractiveCore.success := true;
     InteractiveCore.message := "Cache TTL parsed successfully";
     InteractiveCore.exitCode := 0;
     InteractiveCore.data :=
       Some (InteractiveCore.DTtl (Num v)
               (InteractiveCore.message (InteractiveCore.formatCacheTtlCore (Num v))));
     InteractiveCore.error := NoError |}.

(** The failure record for a value that is [NaN] or negative. *)
Definition invalidTtl : InteractiveCore.InteractiveCommandResult :=
  {| InteractiveCore.success := false;
     InteractiveCore.message := "Invalid cache TTL. Must be a positive number.";
     InteractiveCore.exitCode := 1;
     InteractiveCore.data := None;
     InteractiveCore.error := NoError |}.

(** Seconds per unit, by the last code unit of what follows the numeral. *)
Definition unitOf (t : string) : Z :=
  match lastChar t with
  | Some c =>
      if (c =? "s")%char then 1
      else if (c =? "m")%char then 60
      else if (c =? "h")%char then 3600
      else 1
  | None => 1
  end.

(** [s] starts with a digit of radix [R]. *)
Definition startsWithDigit (R : Z) (s : string) : bool :=
  match s with
  | String c _ =>
      match digitValue c with
      | Some d => d <? R
      | None => false
      end
  | EmptyString => false
  end.

(** [s] denotes a number for [parseInt(s)]: after leading white space and
    an optional sign comes a decimal digit, or the prefix [0x] and a
    hexadecimal digit. *)
Definition denotesNumber (s : string) : bool :=
  let unsigned :=
    match trimStart s with
    | String "-" rest => rest
    | String "+" rest => rest
    | other => other
    end in
  match unsigned with
  | String "0" (String "x" rest) => startsWithDigit 16 rest
  | String "0" (String "X" rest) => startsWithDigit 16 rest
  | _ => startsWithDigit 10 unsigned
  end.

(** The text the lifetime parser reads as a number: the normalised input
    without its last code unit when that is one of the unit letters [s],
    [m] and [h], the whole of it otherwise. *)
Definition numeralText (normalized : string) : string :=
  match lastChar normalized with
  | Some c =>
      if (c =? "s")%char || (c =? "m")%char || (c =? "h")%char
      then dropLast normalized
      else normalized
  | None => normalized
  end.

(** The value of an input in seconds, as the specification words it: the
    input trimmed and lower-cased, the number in front of the unit, times
    the seconds of the unit. *)
Definition ttlSeconds (input : string) : JsNumber :=
  let normalized := toLowerCase (trim input) in
  mul (parseInt (numeralText normalized) None) (unitOf normalized).

(** ** Sample collaborators for the concrete instances *)

(** A successful workflow listing. *)
Definition sampleWorkflows : JsVal :=
  JObject [("success", JBool true);
           ("data", JObject [("workflow_key", JString "invoice")])].

(** The response for a job that is still processing. *)
Definition pendingResponse : JsObject :=
  [("status", JString "processing"); ("found", JBool false)].

(** A client that authenticates, lists workflows, accepts documents and
    reports every job as still processing. *)
Definition sampleClient : Client :=
  {| verifyAuth_outcome := Returned {| auth_data := JBool true |};
     getResults_outcome := fun _ _ => Returned pendingResponse;
     analyzeDocument_outcome :=
       fun _ _ _ => Returned {| job_uuid := Some "job-1"; job_rest := [] |};
     getWorkflows_outcome := Returned sampleWorkflows;
     getWorkflows_duration := 250 |}.

(** The same client with authentication refused. *)
Definition refusedClient : Client :=
  {| verifyAuth_outcome := Returned {| auth_data := JBool false |};
     getResults_outcome := getResults_outcome sampleClient;
     analyzeDocument_outcome := analyzeDocument_outcome sampleClient;
     getWorkflows_outcome := getWorkflows_outcome sampleClient;
     getWorkflows_duration := getWorkflows_duration sampleClient |}.

(** The same client with the workflow listing unreachable. *)
Definition offlineClient : Client :=
  {| verifyAuth_outcome := verifyAuth_outcome sampleClient;
     getResults_outcome := getResults_outcome sampleClient;
     analyzeDocument_outcome := analyzeDocument_outcome sampleClient;
     getWorkflows_outcome := Thrown (mkError "network down");
     getWorkflows_duration := getWorkflows_duration sampleClient |}.

(** The response for a job that has finished with results. *)
Definition completedResponse : JsObject :=
  [("status", JString "processed");
   ("results", JObject [("key", JString "value")])].

(** A client whose job has finished with results. *)
Definition completedClient : Client :=
  {| verifyAuth_outcome := verifyAuth_outcome sampleClient;
     getResults_outcome := fun _ _ => Returned completedResponse;
     analyzeDocument_outcome := analyzeDocument_outcome sampleClient;
     getWorkflows_outcome := getWorkflows_outcome sampleClient;
     getWorkflows_duration := getWorkflows_duration sampleClient |}.

(** Collaborators that hand out the client [c], find every file and save
    without error. *)
Definition sampleDeps (c : Client) : Dependencies :=
  {| clientFactory_outcome := fun _ _ => Returned c;
     existsSync := fun _ => true;
     readFileSync_outcome := fun _ => Returned "%PDF";
     basename := fun p => p;
     configFile := NoConfigFile;
     saveConfig_outcome := fun _ => Returned tt |}.

(** A configuration with a service account and the given recent jobs. *)
Definition sampleConfig (recent : list string) : CLIConfig :=
  {| service_account_path := "/keys/visionfi_service_account.json";
     api_endpoint := "https://platform.visionfi.ai/api/v1";
     recent_uuids := recent;
     debug_mode := false;
     test_mode := false;
     workflow_cache_ttl := 1200 |}.

(** A session holding workflows cached at millisecond 1000, with the default
    lifetime of 1200 seconds. *)
Definition staleSession (c : Client) : Interactive.VisionFiCLI :=
  {| Interactive.session_config := sampleConfig [];
     Interactive.client := Some c;
     Interactive._cachedWorkflows := sampleWorkflows;
     Interactive._workflowsCachedAt := 1000;
     Interactive._workflowCacheTtl := 1200 |}.

(** A full list of recent jobs, most recent first. *)
Definition tenJobs : list string :=
  ["j10"; "j9"; "j8"; "j7"; "j6"; "j5"; "j4"; "j3"; "j2"; "j1"].

(** ** Further vocabulary *)

Definition isSaveConfig (c : Call) : bool :=
  match c with SaveConfig _ => true | _ => false end.

(** The calls that open every authenticated run of a command core. *)
Definition openingCalls (cfg : CLIConfig) : list Call :=
  [CreateClient (service_account_path cfg) (api_endpoint cfg); VerifyAuth].

(** A client on which [getResults] always fails on the transport. *)
Definition unreachableClient : Client :=
  {| verifyAuth_outcome := verifyAuth_outcome sampleClient;
     getResults_outcome := fun _ _ => Thrown (mkError "socket hang up");
     analyzeDocument_outcome := fun _ _ _ => Thrown (mkError "socket hang up");
     getWorkflows_outcome := getWorkflows_outcome sampleClient;
     getWorkflows_duration := getWorkflows_duration sampleClient |}.

(** A configuration file that has every key, with the values of [cfg]. *)
Definition stored (cfg : CLIConfig) : StoredConfig :=
  {| stored_service_account_path := Some (service_account_path cfg);
     stored_api_endpoint := Some (api_endpoint cfg);
     stored_recent_uuids := Some (recent_uuids cfg);
     stored_debug_mode := Some (debug_mode cfg);
     stored_test_mode := Some (test_mode cfg);
     stored_workflow_cache_ttl := Some (workflow_cache_ttl cfg) |}.

(** Collaborators like [sampleDeps], with the configuration file
    holding [cfg]. *)
Definition configuredDeps (c : Client) (cfg : CLIConfig) : Dependencies :=
  {| clientFactory_outcome := clientFactory_outcome (sampleDeps c);
     existsSync := existsSync (sampleDeps c);
     readFileSync_outcome := readFileSync_outcome (sampleDeps c);
     basename := basename (sampleDeps c);
     configFile := ConfigFileHolding (stored cfg);
     saveConfig_outcome := saveConfig_outcome (sampleDeps c) |}.

(** The calls [loadConfig] makes: the save of the defaults when there is
    no configuration file, none otherwise. *)
Definition firstRunCalls (deps : Dependencies) : list Call :=
  match configFile deps with
  | NoConfigFile => [SaveConfig DEFAULT_CONFIG]
  | _ => []
  end.

(** The world once [loadConfig] has returned. *)
Definition afterLoading (deps : Dependencies) (w : World) : World :=
  {| journal := journal w ++ firstRunCalls deps;
     config := config w;
     clock := clock w |}.

(** [loadConfig] returns: there is a configuration file, or the defaults
    can be written. *)
Definition loadReturns (deps : Dependencies) : Prop :=
  configFile deps = NoConfigFile ->
  saveConfig_outcome deps DEFAULT_CONFIG = Returned tt.

(** Collaborators like [sampleDeps], on a disk that refuses every save. *)
Definition readOnlyDeps (c : Client) : Dependencies :=
  {| clientFactory_outcome := clientFactory_outcome (sampleDeps c);
     existsSync := existsSync (sampleDeps c);
     readFileSync_outcome := readFileSync_outcome (sampleDeps c);
     basename := basename (sampleDeps c);
     configFile := ConfigFileHolding (stored (sampleConfig []));
     saveConfig_outcome := fun _ => Thrown (mkError "EACCES") |}.

(** The world once a command core has created its client for [cfg] and
    verified authentication. *)
Definition afterOpening (cfg : CLIConfig) (w : World) : World :=
  {| journal := journal w ++ openingCalls cfg;
     config := config w;
     clock := clock w |}.

(** The workflow cache of a session is empty or holds a response whose
    [success] is truthy. *)
Definition cacheWellFormed (self : Interactive.VisionFiCLI) : Prop :=
  Interactive._cachedWorkflows self = JNull
  \/ truthy (opt_prop (Interactive._cachedWorkflows self) "success") = true.

(** The world after one more call. *)
Definition afterCall (c : Call) (w : World) : World :=
  {| journal := journal w ++ [c]; config := config w; clock := clock w |}.

(** The world once [getWorkflows] of [c] has settled: one more call in
    the journal, and the clock moved on by the duration of the call. *)
Definition afterFetch (c : Client) (w : World) : World :=
  {| journal := journal w ++ [GetWorkflows];
     config := config w;
     clock := clock w + getWorkflows_duration c |}.

(** No workflows are cached: the field holds [null], or [undefined],
    which the default parameter of [getWorkflowsCore] turns into
    [null]. *)
Definition noEntry (cached : JsVal) : Prop :=
  cached = JNull \/ cached = JUndefined.

(** The world at a later (or any other) reading of the clock. *)
Definition atTime (now : Z) (w : World) : World :=
  {| journal := journal w; config := config w; clock := now |}.

(** The decimal numeral of the magnitude of an integer, as
    [Number.prototype.toString] writes it. *)
Definition numeralOf (n : Z) : Decimal.uint :=
  match n with
  | Z0 => Decimal.D0 Decimal.Nil
  | Zpos p => Pos.to_uint p
  | Zneg p => Pos.to_uint p
  end.

(** A code unit that [trim] keeps and [toLowerCase] leaves alone. *)
Definition stableChar (c : ascii) : bool :=
  negb (isWhiteSpace c) && (lowerChar c =? c)%char.

Fixpoint stableString (s : string) : bool :=
  match s with
  | EmptyString => true
  | String c rest => stableChar c && stableString rest
  end.

(** The plural ending of [formatCacheTtlCore]. *)
Definition plural (n : Z) : string := if n =? 1 then "" else "s".

(** [s] is empty or starts with a code unit that is not white space. *)
Definition startsTrimmed (s : string) : Prop :=
  match s with
  | EmptyString => True
  | String c _ => isWhiteSpace c = false
  end.

(** ** Vocabulary of the set-up cores *)

(** No code unit of [s] is a dollar sign. *)
Fixpoint noDollar (s : string) : bool :=
  match s with
  | EmptyString => true
  | String c rest => negb (Ascii.eqb c "$") && noDollar rest
  end.

(** The path the set-up cores look for: the input trimmed, with a leading
    tilde replaced through [os.homedir()]. *)
Definition expandedPath (env : InteractiveSetup.Environment) (input : string) : string :=
  replaceLeadingTilde (trim input) (InteractiveSetup.homedir env).

(** An environment with home directory [/home/ada] in which directories
    can be made and files copied. *)
Definition sampleEnv : InteractiveSetup.Environment :=
  {| InteractiveSetup.homedir := "/home/ada";
     InteractiveSetup.defaultKeyPath :=
       "/home/ada/.visionfi/keys/visionfi_service_account.json";
     InteractiveSetup.dirname := fun _ => "/home/ada/.visionfi/keys";
     InteractiveSetup.mkdirSync_outcome := fun _ => Returned tt;
     InteractiveSetup.copyFileSync_outcome := fun _ _ => Returned tt |}.

(** The same environment on a read-only disk. *)
Definition readOnlyEnv : InteractiveSetup.Environment :=
  {| InteractiveSetup.homedir := "/home/ada";
     InteractiveSetup.defaultKeyPath :=
       "/home/ada/.visionfi/keys/visionfi_service_account.json";
     InteractiveSetup.dirname := fun _ => "/home/ada/.visionfi/keys";
     InteractiveSetup.mkdirSync_outcome := fun _ => Thrown (mkError "EROFS");
     InteractiveSetup.copyFileSync_outcome := fun _ _ => Returned tt |}.

(** The world in which the shared configuration object is [cfg]. *)
Definition holdingConfig (cfg : CLIConfig) (w : World) : World :=
  {| journal := journal w; config := cfg; clock := clock w |}.

(** * Properties *)

(** ** Runs and the calls they make *)

Lemma skipn_length_app {A} (l l' : list A) :
  skipn (List.length l) (l ++ l') = l'.
Proof.
  induction l as [|x l IH]; simpl; auto.
Qed.

Lemma skipn_length_self {A} (l : list A) :
  skipn (List.length l) l = [].
Proof.
  induction l as [|x l IH]; simpl; auto.
Qed.

Lemma truthy_prop_has (o : JsObject) (k : string) :
  truthy (prop o k) = true -> has_prop k o = true.
Proof.
  induction o as [|[k' v] o IH]; simpl.
  - discriminate.
  - destruct (k' =? k)%string; simpl; auto.
Qed.

Ltac eff_unfold :=
  unfold performed, verifyAuth, getResults, analyzeDocument, getWorkflows,
    clientFactory, saveConfig, readFileSync, bind, try_catch, ret, throw,
    settle, record, readConfig, writeConfig, dateNow, elapse in *.

(** ** Workflow cache: the decision to fetch *)

Section WorkflowCache.

Import InteractiveCore.

Variable client : Client.

Lemma shouldFetchFromApi_spec force cached now cachedAt ttl :
  shouldFetchFromApi force cached now cachedAt ttl = true <->
  force = true \/ cached = JNull \/ now - cachedAt > ttl * 1000.
Proof.
  unfold shouldFetchFromApi.
  rewrite !orb_true_iff, Z.gtb_gt.
  split.
  - intros [[H|H]|H]; auto.
    destruct cached; simpl in H; try discriminate; auto.
  - intros [H|[H|H]]; auto.
    subst cached; auto.
Qed.

Lemma orNull_present cached : cached <> JUndefined -> orNull cached = cached.
Proof.
  destruct cached; try reflexivity. intros H. now contradiction H.
Qed.

Lemma orNull_spec cached : orNull cached = JNull <-> noEntry cached.
Proof.
  unfold noEntry. destruct cached; cbn; split; intros H; try discriminate; auto;
    destruct H; discriminate.
Qed.

(** An argument for which the raw test already says "fetch" is fetched for
    after the default has been applied as well. *)
Lemma shouldFetchFromApi_orNull force cached now cachedAt ttl :
  shouldFetchFromApi force cached now cachedAt ttl = true ->
  shouldFetchFromApi force (orNull cached) now cachedAt ttl = true.
Proof.
  unfold shouldFetchFromApi. destruct cached; cbn; try tauto.
  intros _. now rewrite orb_true_r.
Qed.

Lemma getWorkflowsCore_fetches_when force cached cachedAt ttl debug w :
  shouldFetchFromApi force (orNull cached) (clock w) cachedAt ttl = true ->
  performed (getWorkflowsCore (Some client) force cached cachedAt ttl debug) w
  = [GetWorkflows].
Proof.
  intros H. unfold getWorkflowsCore. eff_unfold. cbn. rewrite H. cbn.
  destruct (getWorkflows_outcome client) as [v|e]; cbn;
    [destruct (truthy (opt_prop v "success")); cbn|];
    apply skipn_length_app.
Qed.

Lemma getWorkflowsCore_fetches force cached cachedAt ttl debug w :
  shouldFetchFromApi force cached (clock w) cachedAt ttl = true ->
  performed (getWorkflowsCore (Some client) force cached cachedAt ttl debug) w
  = [GetWorkflows].
Proof.
  intros H. now apply getWorkflowsCore_fetches_when, shouldFetchFromApi_orNull.
Qed.

Lemma getWorkflowsCore_cached_when force cached cachedAt ttl debug w :
  shouldFetchFromApi force (orNull cached) (clock w) cachedAt ttl = false ->
  getWorkflowsCore (Some client) force cached cachedAt ttl debug w
  = (Returned {| success := true;
                 message := "Using cached workflows";
                 exitCode := 0;
                 data := Some (DWorkflows (orNull cached) cachedAt true);
                 error := NoError |}, w).
Proof.
  intros H. unfold getWorkflowsCore. eff_unfold. cbn. rewrite H. reflexivity.
Qed.

Lemma getWorkflowsCore_cached force cached cachedAt ttl debug w :
  cached <> JUndefined ->
  shouldFetchFromApi force cached (clock w) cachedAt ttl = false ->
  getWorkflowsCore (Some client) force cached cachedAt ttl debug w
  = (Returned {| success := true;
                 message := "Using cached workflows";
                 exitCode := 0;
                 data := Some (DWorkflows cached cachedAt true);
                 error := NoError |}, w).
Proof.
  intros Hdef H.
  rewrite getWorkflowsCore_cached_when; rewrite (orNull_present _ Hdef); auto.
Qed.

(** The decision, on the argument as the caller passes it. *)
Lemma fetch_decision force cached now cachedAt ttl :
  shouldFetchFromApi force (orNull cached) now cachedAt ttl = true <->
  force = true \/ noEntry cached \/ now - cachedAt > ttl * 1000.
Proof.
  rewrite shouldFetchFromApi_spec, orNull_spec. reflexivity.
Qed.

End WorkflowCache.

(** ** C2, C9: when the workflow cache fetches *)



(** C9, as the specification states it, fails: with a lifetime of 0 and an
    entry stamped with the very millisecond of the access, nothing is
    fetched and the cached entry is returned. *)
Lemma C9_counterexample :
  existsb isGetWorkflows
    (performed (InteractiveCore.getWorkflowsCore (Some sampleClient) false
                  sampleWorkflows 5000 0 false)
       (freshWorld DEFAULT_CONFIG 5000)) = false
  /\ fst (InteractiveCore.getWorkflowsCore (Some sampleClient) false
            sampleWorkflows 5000 0 false (freshWorld DEFAULT_CONFIG 5000))
     = Returned {| InteractiveCore.success := true;
                   InteractiveCore.message := "Using cached workflows";
                   InteractiveCore.exitCode := 0;
                   InteractiveCore.data :=
                     Some (InteractiveCore.DWorkflows sampleWorkflows 5000 true);
                   InteractiveCore.error := NoError |}.
Proof.
  split; reflexivity.
Qed.

(** C9, amended. With a lifetime of 0, no forced refresh and an entry
    cached (the argument is neither [null] nor [undefined]), the access
    fetches from the remote API as soon as the clock has moved past the
    entry's timestamp ([now > cachedAt], that is one millisecond or more);
    an access in the millisecond of the timestamp (or before it) is served
    from the cache without a remote call. *)
Theorem C9_zero_ttl_fetches_once_clock_advanced :
  forall (client : Client) (cached : JsVal) (cachedAt : Z) (debug : bool) (w : World),
    ~ noEntry cached ->
    let run := InteractiveCore.getWorkflowsCore (Some client) false cached cachedAt 0 debug in
    (cachedAt < clock w -> performed run w = [GetWorkflows])
    /\ (clock w <= cachedAt ->
        performed run w = []
        /\ fst (run w)
           = Returned {| InteractiveCore.success := true;
                         InteractiveCore.message := "Using cached workflows";
                         InteractiveCore.exitCode := 0;
                         InteractiveCore.data :=
                           Some (InteractiveCore.DWorkflows cached cachedAt true);
                         InteractiveCore.error := NoError |}).
Proof.
  intros client cached cachedAt debug w Hnn run. split; intros Hclock.
  - subst run. apply getWorkflowsCore_fetches.
    apply shouldFetchFromApi_spec. right; right. lia.
  - assert (Hno : InteractiveCore.shouldFetchFromApi false cached (clock w) cachedAt 0 = false).
    { apply not_true_is_false. rewrite shouldFetchFromApi_spec.
      intros [H|[H|H]]; [discriminate | apply Hnn; now left | lia]. }
    assert (Hdef : cached <> JUndefined) by (intros ->; apply Hnn; now right).
    subst run. unfold performed.
    rewrite getWorkflowsCore_cached by assumption. simpl.
    split; [apply skipn_length_self | reflexivity].
Qed.

Lemma C9_witness :
  performed (InteractiveCore.getWorkflowsCore (Some sampleClient) false
               sampleWorkflows 4999 0 false)
    (freshWorld DEFAULT_CONFIG 5000) = [GetWorkflows].
Proof.
  apply (C9_zero_ttl_fetches_once_clock_advanced sampleClient sampleWorkflows 4999
           false (freshWorld DEFAULT_CONFIG 5000)).
  - intros [H|H]; discriminate H.
  - simpl. lia.
Defined.

(** ** The results command: how a run proceeds *)

Ltac run_step :=
  match goal with
  | |- context [match ?o with Returned _ => _ | Thrown _ => _ end] =>
      destruct o eqn:?
  | |- context [if ?b then _ else _] => destruct b eqn:?
  | |- context [match ?o with Some _ => _ | None => _ end] =>
      destruct o eqn:?
  end.

Ltac run_all := repeat (cbn; try run_step).

Ltac journal_done :=
  cbn; repeat rewrite <- app_assoc;
  first [ rewrite skipn_length_app | rewrite skipn_length_self ];
  try reflexivity.

Section ResultsRuns.

Import Results.

Variables (uuid : string) (options : ResultsOptions) (deps : Dependencies).

Lemma getResultsCore_unconfigured (w : World) :
  service_account_path (config w) = "" ->
  getResultsCore uuid options deps w
  = (Returned (failure "No service account configured. Run in interactive mode to set up a service account." NoError), w).
Proof.
  intros H. unfold getResultsCore. eff_unfold. cbn. rewrite H. reflexivity.
Qed.

Lemma getResultsCore_authenticated (w : World) (client : Client)
    (a : AuthVerificationResult) :
  service_account_path (config w) <> "" ->
  clientFactory_outcome deps (service_account_path (config w))
    (api_endpoint (config w)) = Returned client ->
  verifyAuth_outcome client = Returned a ->
  truthy (auth_data a) = true ->
  getResultsCore uuid options deps w
  = try_catch (fetch uuid options deps client)
      (fun err => ret (failure ("Unexpected error: " ++ err_message err) (Caught err)))
      (authenticatedWorld w).
Proof.
  intros Hsap Hfac Hauth Hdata.
  apply String.eqb_neq in Hsap.
  unfold getResultsCore, authenticatedWorld. eff_unfold. cbn.
  rewrite Hsap. cbn. rewrite Hfac. cbn. rewrite Hauth. cbn. rewrite Hdata. cbn.
  rewrite <- app_assoc. reflexivity.
Qed.

Lemma fetch_calls_remote (w : World) (client : Client) (result : JsObject) :
  uuid <> "" ->
  (forall c, saveConfig_outcome deps c = Returned tt) ->
  getResults_outcome client uuid (requestedPolling options) = Returned result ->
  exists w', fetch uuid options deps client w = (Returned (interpret result), w').
Proof.
  intros Huuid Hsave Hres.
  apply String.eqb_neq in Huuid.
  unfold fetch, requestedPolling in *. eff_unfold. cbn. rewrite Huuid. cbn.
  destruct (includes (recent_uuids (config w)) uuid); cbn;
    rewrite ?Hsave; cbn;
    destruct (wait options); cbn; rewrite Hres; cbn; eauto.
Qed.

End ResultsRuns.

(** ** C1: how the poller reads a response *)

(** C1. Whenever [getResultsCore] of [commands/results] gets a response
    from the remote [getResults] call, it returns: success, exit code 0 and
    "Results retrieved successfully!" if [results] is populated (truthy);
    failure, exit code 1 and "Analysis error occurred during processing."
    if [error] is populated and [results] is not; success, exit code 0 and
    "No results available yet. The job may still be processing." if
    neither is. *)
Theorem C1_poll_outcome_mapping :
  forall (uuid : string) (options : Results.ResultsOptions) (deps : Dependencies)
         (client : Client) (a : AuthVerificationResult) (result : JsObject)
         (w : World),
    service_account_path (config w) <> "" ->
    clientFactory_outcome deps (service_account_path (config w))
      (api_endpoint (config w)) = Returned client ->
    verifyAuth_outcome client = Returned a ->
    truthy (auth_data a) = true ->
    uuid <> "" ->
    (forall c, saveConfig_outcome deps c = Returned tt) ->
    getResults_outcome client uuid (requestedPolling options) = Returned result ->
    exists (r : Results.ResultsCommandResult) (w' : World),
      Results.getResultsCore uuid options deps w = (Returned r, w')
      /\ (truthy (prop result "results") = true ->
          Results.success r = true /\ Results.exitCode r = 0
          /\ Results.message r = "Results retrieved successfully!")
      /\ (truthy (prop result "results") = false ->
          truthy (prop result "error") = true ->
          Results.success r = false /\ Results.exitCode r = 1
          /\ Results.message r = "Analysis error occurred during processing.")
      /\ (truthy (prop result "results") = false ->
          truthy (prop result "error") = false ->
          Results.success r = true /\ Results.exitCode r = 0
          /\ Results.message r
             = "No results available yet. The job may still be processing.").
Proof.
  intros uuid options deps client a result w Hsap Hfac Hauth Hdata Huuid Hsave Hres.
  destruct (fetch_calls_remote uuid options deps (authenticatedWorld w) client result
              Huuid Hsave Hres) as [w' Hfetch].
  exists (Results.interpret result), w'.
  split.
  - rewrite (getResultsCore_authenticated uuid options deps w client a) by assumption.
    unfold try_catch. rewrite Hfetch. reflexivity.
  - unfold Results.interpret.
    destruct (truthy (prop result "results")) eqn:Eres;
      destruct (truthy (prop result "error")) eqn:Eerr;
      try rewrite (truthy_prop_has _ _ Eerr);
      try rewrite andb_false_r; cbn;
      repeat split; intros; try discriminate; reflexivity.
Qed.

Lemma C1_witness :
  exists (r : Results.ResultsCommandResult) (w' : World),
    Results.getResultsCore "test-uuid-123" (Results.mkOptions false None None)
      (sampleDeps completedClient) (freshWorld (sampleConfig []) 0)
    = (Returned r, w')
    /\ Results.success r = true /\ Results.exitCode r = 0
    /\ Results.message r = "Results retrieved successfully!".
Proof.
  destruct (C1_poll_outcome_mapping "test-uuid-123" (Results.mkOptions false None None)
              (sampleDeps completedClient) completedClient
              {| auth_data := JBool true |} completedResponse
              (freshWorld (sampleConfig []) 0))
    as (r & w' & Hrun & Hres & _);
    [ discriminate | reflexivity | reflexivity | reflexivity | discriminate
    | reflexivity | reflexivity | ].
  exists r, w'. split; [exact Hrun | apply Hres; reflexivity].
Defined.

(** ** C5, C8: precondition failures and the calls that precede them *)

Lemma getResultsCore_empty_uuid_no_fetch
    (options : Results.ResultsOptions) (deps : Dependencies) (w : World) :
  existsb isGetResults (performed (Results.getResultsCore "" options deps) w) = false
  /\ exists r w',
       Results.getResultsCore "" options deps w = (Returned r, w')
       /\ Results.success r = false /\ Results.exitCode r = 1.
Proof.
  unfold Results.getResultsCore, Results.fetch. eff_unfold.
  run_all; (split; [journal_done | eauto]).
Qed.

Lemma analyzeDocumentCore_unconfigured
    (filePath : string) (options : Analyze.AnalyzeOptions) (cfg : CLIConfig)
    (deps : Dependencies) (w : World) :
  service_account_path cfg = "" ->
  Analyze.analyzeDocumentCore filePath options cfg deps w
  = (Returned (Analyze.failure "No service account configured. Run in interactive mode to set up a service account." NoError), w).
Proof.
  intros H. unfold Analyze.analyzeDocumentCore. eff_unfold. cbn.
  rewrite H. reflexivity.
Qed.

Lemma analyzeDocumentCore_missing_file
    (filePath : string) (options : Analyze.AnalyzeOptions) (cfg : CLIConfig)
    (deps : Dependencies) (w : World) :
  existsSync deps filePath = false ->
  performed (Analyze.analyzeDocumentCore filePath options cfg deps) w = []
  /\ exists r,
       Analyze.analyzeDocumentCore filePath options cfg deps w = (Returned r, w)
       /\ Analyze.success r = false /\ Analyze.exitCode r = 1.
Proof.
  intros H. unfold Analyze.analyzeDocumentCore. eff_unfold. cbn.
  rewrite H. cbn.
  destruct (service_account_path cfg =? "")%string; cbn;
    (split; [apply skipn_length_self | eauto]).
Qed.

Lemma analyzeDocumentCore_missing_workflow
    (filePath : string) (options : Analyze.AnalyzeOptions) (cfg : CLIConfig)
    (deps : Dependencies) (w : World) :
  missingWorkflow options ->
  existsb isAnalyzeDocument
    (performed (Analyze.analyzeDocumentCore filePath options cfg deps) w) = false
  /\ exists r w',
       Analyze.analyzeDocumentCore filePath options cfg deps w = (Returned r, w')
       /\ Analyze.success r = false /\ Analyze.exitCode r = 1.
Proof.
  intros H.
  unfold Analyze.analyzeDocumentCore, Analyze.submit. eff_unfold.
  destruct H as [H|H]; rewrite H;
    run_all; (split; [journal_done | eauto]).
Qed.

(** C5, as the specification states it, fails: with an empty job UUID and
    a configured service account, a client whose [verifyAuth] reports
    [false] makes the run end on the authentication failure, not on
    "No job UUID specified.". *)
Lemma C5_counterexample :
  exists (r : Results.ResultsCommandResult) (w' : World),
    Results.getResultsCore "" (Results.mkOptions false None None)
      (sampleDeps refusedClient) (freshWorld (sampleConfig []) 0)
    = (Returned r, w')
    /\ Results.message r = "Authentication failed."
    /\ Results.message r <> "No job UUID specified.".
Proof.
  eexists. eexists. split; [reflexivity|].
  split; [reflexivity | discriminate].
Qed.

(** C5, amended. For every call of [getResultsCore] ([commands/results])
    with an empty job UUID and a configured service account, in which the
    client is created and [verifyAuth] reports the caller authenticated,
    the record returned has [success = false], exit code 1 and the message
    "No job UUID specified."; the run has created the client and invoked
    [verifyAuth] once, and makes no [getResults] call. *)
Theorem C5_empty_uuid_rejected_after_authentication :
  forall (options : Results.ResultsOptions) (deps : Dependencies)
         (client : Client) (a : AuthVerificationResult) (w : World),
    service_account_path (config w) <> "" ->
    clientFactory_outcome deps (service_account_path (config w))
      (api_endpoint (config w)) = Returned client ->
    verifyAuth_outcome client = Returned a ->
    truthy (auth_data a) = true ->
    let run := Results.getResultsCore "" options deps in
    run w = (Returned {| Results.success := false;
                         Results.message := "No job UUID specified.";
                         Results.exitCode := 1;
                         Results.status := JUndefined;
                         Results.results := JUndefined;
                         Results.error := NoError |},
             authenticatedWorld w)
    /\ performed run w
       = [CreateClient (service_account_path (config w)) (api_endpoint (config w));
          VerifyAuth]
    /\ existsb isGetResults (performed run w) = false.
Proof.
  intros options deps client a w Hsap Hfac Hauth Hdata run.
  assert (Hrun : run w = (Returned (Results.failure "No job UUID specified." NoError),
                          authenticatedWorld w)).
  { subst run.
    rewrite (getResultsCore_authenticated "" options deps w client a) by assumption.
    reflexivity. }
  split; [exact Hrun|].
  assert (Hperf : performed run w
                  = [CreateClient (service_account_path (config w))
                       (api_endpoint (config w)); VerifyAuth]).
  { unfold performed. rewrite Hrun. cbn. apply skipn_length_app. }
  split; [exact Hperf | rewrite Hperf; reflexivity].
Qed.

Lemma C5_witness :
  Results.getResultsCore "" (Results.mkOptions false None None)
    (sampleDeps sampleClient) (freshWorld (sampleConfig []) 0)
  = (Returned {| Results.success := false;
                 Results.message := "No job UUID specified.";
                 Results.exitCode := 1;
                 Results.status := JUndefined;
                 Results.results := JUndefined;
                 Results.error := NoError |},
     authenticatedWorld (freshWorld (sampleConfig []) 0)).
Proof.
  apply (C5_empty_uuid_rejected_after_authentication
           (Results.mkOptions false None None) (sampleDeps sampleClient)
           sampleClient {| auth_data := JBool true |}
           (freshWorld (sampleConfig []) 0));
    [discriminate | reflexivity | reflexivity | reflexivity].
Defined.

(** C8, as the specification states it, fails: an empty job id, and a
    missing workflow, are detected only after [verifyAuth] has been
    called. *)
Lemma C8_counterexample :
  existsb isVerifyAuth
    (performed (Results.getResultsCore "" (Results.mkOptions false None None)
                  (sampleDeps sampleClient))
       (freshWorld (sampleConfig []) 0)) = true
  /\ existsb isVerifyAuth
       (performed (Analyze.analyzeDocumentCore "invoice.pdf" (Analyze.mkOptions None)
                     (sampleConfig []) (sampleDeps sampleClient))
          (freshWorld (sampleConfig []) 0)) = true.
Proof.
  split; reflexivity.
Qed.

(** C8, amended. A missing service account (in [getResultsCore] and in
    [analyzeDocumentCore]) and a missing file are detected before any
    call: the run makes none and returns a failure.  An empty job id and a
    missing workflow are checked after the authentication step: such a
    run may create the client and call [verifyAuth], returns a failure
    with exit code 1, and makes no [getResults], respectively no
    [analyzeDocument], call. *)
Theorem C8_precondition_failures_precede_the_operation :
  (forall uuid options deps w,
      service_account_path (config w) = "" ->
      performed (Results.getResultsCore uuid options deps) w = []
      /\ exists r, Results.getResultsCore uuid options deps w = (Returned r, w)
                   /\ Results.success r = false /\ Results.exitCode r = 1)
  /\ (forall filePath options cfg deps w,
         service_account_path cfg = "" ->
         performed (Analyze.analyzeDocumentCore filePath options cfg deps) w = []
         /\ exists r, Analyze.analyzeDocumentCore filePath options cfg deps w
                      = (Returned r, w)
                      /\ Analyze.success r = false /\ Analyze.exitCode r = 1)
  /\ (forall filePath options cfg deps w,
         existsSync deps filePath = false ->
         performed (Analyze.analyzeDocumentCore filePath options cfg deps) w = []
         /\ exists r, Analyze.analyzeDocumentCore filePath options cfg deps w
                      = (Returned r, w)
                      /\ Analyze.success r = false /\ Analyze.exitCode r = 1)
  /\ (forall options deps w,
         existsb isGetResults
           (performed (Results.getResultsCore "" options deps) w) = false
         /\ exists r w', Results.getResultsCore "" options deps w = (Returned r, w')
                         /\ Results.success r = false /\ Results.exitCode r = 1)
  /\ (forall filePath options cfg deps w,
         missingWorkflow options ->
         existsb isAnalyzeDocument
           (performed (Analyze.analyzeDocumentCore filePath options cfg deps) w) = false
         /\ exists r w', Analyze.analyzeDocumentCore filePath options cfg deps w
                         = (Returned r, w')
                         /\ Analyze.success r = false /\ Analyze.exitCode r = 1).
Proof.
  split; [|split; [|split; [|split]]].
  - intros uuid options deps w H.
    unfold performed. rewrite getResultsCore_unconfigured by assumption.
    split; [apply skipn_length_self | eauto].
  - intros filePath options cfg deps w H.
    unfold performed. rewrite analyzeDocumentCore_unconfigured by assumption.
    split; [apply skipn_length_self | eauto].
  - intros. now apply analyzeDocumentCore_missing_file.
  - intros. apply getResultsCore_empty_uuid_no_fetch.
  - intros. now apply analyzeDocumentCore_missing_workflow.
Qed.

Lemma C8_witness :
  performed (Results.getResultsCore "job-1" (Results.mkOptions true None None)
               (sampleDeps sampleClient))
    (freshWorld DEFAULT_CONFIG 0) = []
  /\ existsb isAnalyzeDocument
       (performed (Analyze.analyzeDocumentCore "invoice.pdf" (Analyze.mkOptions None)
                     (sampleConfig []) (sampleDeps sampleClient))
          (freshWorld (sampleConfig []) 0)) = false.
Proof.
  split.
  - apply (proj1 C8_precondition_failures_precede_the_operation
             "job-1" (Results.mkOptions true None None) (sampleDeps sampleClient)
             (freshWorld DEFAULT_CONFIG 0)).
    reflexivity.
  - apply (proj2 (proj2 (proj2 (proj2 C8_precondition_failures_precede_the_operation)))
             "invoice.pdf" (Analyze.mkOptions None) (sampleConfig [])
             (sampleDeps sampleClient) (freshWorld (sampleConfig []) 0)).
    left. reflexivity.
Defined.

(** ** C6: a failed fetch leaves the cache as it was *)

Lemma getWorkflowsCore_success_data
    (c : option Client) force cached cachedAt ttl debug w r w' :
  InteractiveCore.getWorkflowsCore c force cached cachedAt ttl debug w = (Returned r, w') ->
  InteractiveCore.success r = true ->
  exists workflows at_ fromCache,
    InteractiveCore.data r = Some (InteractiveCore.DWorkflows workflows at_ fromCache).
Proof.
  unfold InteractiveCore.getWorkflowsCore. eff_unfold.
  destruct c as [client|]; cbn.
  - destruct (InteractiveCore.shouldFetchFromApi force (InteractiveCore.orNull cached)
                (clock w) cachedAt ttl); cbn.
    + destruct (getWorkflows_outcome client) as [v|e]; cbn;
        [destruct (truthy (opt_prop v "success")); cbn|];
        intros H; inversion H; subst; cbn; intros; try discriminate; eauto.
    + intros H; inversion H; subst; cbn; eauto.
  - intros H; inversion H; subst; cbn; discriminate.
Qed.

Lemma getWorkflowsCore_failed_fetch client force cached cachedAt ttl debug w :
  fetchFails client ->
  InteractiveCore.shouldFetchFromApi force cached (clock w) cachedAt ttl = true ->
  exists r w',
    InteractiveCore.getWorkflowsCore (Some client) force cached cachedAt ttl debug w
    = (Returned r, w')
    /\ InteractiveCore.success r = false /\ InteractiveCore.exitCode r = 1.
Proof.
  unfold fetchFails, InteractiveCore.getWorkflowsCore. eff_unfold.
  intros Hfail Hfetch. apply shouldFetchFromApi_orNull in Hfetch.
  cbn. rewrite Hfetch. cbn.
  destruct (getWorkflows_outcome client) as [v|e]; cbn;
    [rewrite Hfail; cbn|]; eauto.
Qed.

Lemma getCachedWorkflows_failed_fetch self client force w :
  Interactive.client self = Some client ->
  fetchFails client ->
  fst (Interactive.getCachedWorkflows self force w)
  = Returned (Interactive._cachedWorkflows self, self).
Proof.
  unfold fetchFails, Interactive.getCachedWorkflows, InteractiveCore.getWorkflowsCore.
  eff_unfold. intros Hc Hfail. rewrite Hc. cbn.
  destruct (InteractiveCore.shouldFetchFromApi force
              (InteractiveCore.orNull (Interactive._cachedWorkflows self))
              (clock w) (Interactive._workflowsCachedAt self)
              (Interactive._workflowCacheTtl self)); cbn.
  - destruct (getWorkflows_outcome client) as [v|e]; cbn;
      [rewrite Hfail; cbn|]; reflexivity.
  - reflexivity.
Qed.

(** C6. When the remote fetch of the workflow cache fails (the listing
    throws, or resolves to a non-success value), [getWorkflowsCore] reports
    a failure with exit code 1, and [getCachedWorkflows] leaves the session
    as it was, cached workflows and timestamp included, and hands back the
    value cached before; the next access (here against the still failing
    remote) finds that value again. *)
Theorem C6_failed_fetch_keeps_cache :
  forall (self : Interactive.VisionFiCLI) (client : Client) (force : bool) (w : World),
    Interactive.client self = Some client ->
    fetchFails client ->
    InteractiveCore.shouldFetchFromApi force (Interactive._cachedWorkflows self)
      (clock w) (Interactive._workflowsCachedAt self)
      (Interactive._workflowCacheTtl self) = true ->
    (exists r w',
        InteractiveCore.getWorkflowsCore (Some client) force
          (Interactive._cachedWorkflows self) (Interactive._workflowsCachedAt self)
          (Interactive._workflowCacheTtl self)
          (debug_mode (Interactive.session_config self)) w = (Returned r, w')
        /\ InteractiveCore.success r = false /\ InteractiveCore.exitCode r = 1)
    /\ performed (Interactive.getCachedWorkflows self force) w = [GetWorkflows]
    /\ (exists w',
           Interactive.getCachedWorkflows self force w
           = (Returned (Interactive._cachedWorkflows self, self), w')
           /\ forall force',
               fst (Interactive.getCachedWorkflows self force' w')
               = Returned (Interactive._cachedWorkflows self, self)).
Proof.
  intros self client force w Hc Hfail Hfetch.
  split; [now apply getWorkflowsCore_failed_fetch|].
  split.
  - unfold Interactive.getCachedWorkflows. rewrite Hc. eff_unfold.
    pose proof (getWorkflowsCore_fetches client force (Interactive._cachedWorkflows self)
                  (Interactive._workflowsCachedAt self) (Interactive._workflowCacheTtl self)
                  (debug_mode (Interactive.session_config self)) w Hfetch) as Hp.
    unfold performed in Hp.
    destruct (InteractiveCore.getWorkflowsCore (Some client) force
                (Interactive._cachedWorkflows self) (Interactive._workflowsCachedAt self)
                (Interactive._workflowCacheTtl self)
                (debug_mode (Interactive.session_config self)) w) as [[r|e] w1];
      cbn in *; exact Hp.
  - pose proof (getCachedWorkflows_failed_fetch self client force w Hc Hfail) as H1.
    destruct (Interactive.getCachedWorkflows self force w) as [o w'] eqn:E.
    cbn in H1. subst o. exists w'. split; [reflexivity|].
    intros force'. now apply getCachedWorkflows_failed_fetch with (client := client).
Qed.

Lemma C6_witness :
  performed (Interactive.getCachedWorkflows (staleSession offlineClient) false)
    (freshWorld (sampleConfig []) 5000000) = [GetWorkflows]
  /\ exists w',
      Interactive.getCachedWorkflows (staleSession offlineClient) false
        (freshWorld (sampleConfig []) 5000000)
      = (Returned (sampleWorkflows, staleSession offlineClient), w').
Proof.
  destruct (C6_failed_fetch_keeps_cache (staleSession offlineClient) offlineClient false
              (freshWorld (sampleConfig []) 5000000))
    as (_ & Hp & w' & Hrun & _);
    [reflexivity | exact I | reflexivity |].
  split; [exact Hp | exists w'; exact Hrun].
Defined.

(** ** C3: success and exit code *)

Ltac coherent_done :=
  eexists; eexists; split; [reflexivity|];
  unfold exit_coherent; cbn; split; intros; (discriminate || reflexivity).

Lemma authenticateWithApi_coherent cfg deps w :
  exists r w', Auth.authenticateWithApi cfg deps w = (Returned r, w')
               /\ exit_coherent r.
Proof.
  unfold Auth.authenticateWithApi. eff_unfold.
  run_all; coherent_done.
Qed.

Lemma analyzeDocumentCore_coherent filePath options cfg deps w :
  exists r w', Analyze.analyzeDocumentCore filePath options cfg deps w = (Returned r, w')
               /\ exit_coherent r.
Proof.
  unfold Analyze.analyzeDocumentCore, Analyze.submit. eff_unfold.
  run_all; coherent_done.
Qed.

Lemma results_interpret_coherent result :
  exit_coherent (Results.interpret result).
Proof.
  unfold Results.interpret, exit_coherent.
  run_all; split; intros; (discriminate || reflexivity).
Qed.

Lemma results_getResultsCore_coherent uuid options deps w :
  exists r w', Results.getResultsCore uuid options deps w = (Returned r, w')
               /\ exit_coherent r.
Proof.
  unfold Results.getResultsCore, Results.fetch. eff_unfold.
  run_all;
    (eexists; eexists; split; [reflexivity|]);
    first [ apply results_interpret_coherent
          | unfold exit_coherent; cbn; split; intros; (discriminate || reflexivity) ].
Qed.

Lemma verifyAuthenticationCore_coherent c w :
  exists r w', InteractiveCore.verifyAuthenticationCore c w = (Returned r, w')
               /\ exit_coherent r.
Proof.
  unfold InteractiveCore.verifyAuthenticationCore. eff_unfold.
  destruct c; run_all; coherent_done.
Qed.

Lemma getWorkflowsCore_coherent c force cached cachedAt ttl debug w :
  exists r w',
    InteractiveCore.getWorkflowsCore c force cached cachedAt ttl debug w = (Returned r, w')
    /\ exit_coherent r.
Proof.
  unfold InteractiveCore.getWorkflowsCore. eff_unfold.
  destruct c; run_all; coherent_done.
Qed.

Lemma interactive_analyzeDocumentCore_coherent c fileData fileName workflowKey cfg deps w :
  exists r w',
    InteractiveCore.analyzeDocumentCore c fileData fileName workflowKey cfg deps w
    = (Returned r, w')
    /\ exit_coherent r.
Proof.
  unfold InteractiveCore.analyzeDocumentCore. eff_unfold.
  destruct c; run_all; coherent_done.
Qed.

(** The interactive poller on a response with neither results nor error:
    a record that is not a success and yet exits with 0. *)
Lemma interactive_interpret_pending (result : JsObject) :
  truthy (prop result "results") = false ->
  truthy (prop result "error") = false ->
  InteractiveCore.interpret result
  = {| InteractiveCore.success := false;
       InteractiveCore.message := "No results available yet. The job may still be processing.";
       InteractiveCore.exitCode := 0;
       InteractiveCore.data := Some (InteractiveCore.DResults result);
       InteractiveCore.error := NoError |}.
Proof.
  intros Hres Herr. unfold InteractiveCore.interpret.
  rewrite Hres, Herr, andb_false_r. reflexivity.
Qed.

(** The pending record is the only one of the interactive poller that
    breaks the invariant. *)
Lemma interactive_getResultsCore_coherent_unless_pending c uuid w :
  exists r w',
    InteractiveCore.getResultsCore c uuid w = (Returned r, w')
    /\ (exit_coherent r
        \/ (InteractiveCore.success r = false
            /\ InteractiveCore.exitCode r = 0
            /\ InteractiveCore.message r
               = "No results available yet. The job may still be processing.")).
Proof.
  unfold InteractiveCore.getResultsCore, InteractiveCore.interpret. eff_unfold.
  destruct c; run_all;
    (eexists; eexists; split; [reflexivity|]);
    first [ right; repeat split; reflexivity
          | left; unfold exit_coherent; cbn; split; intros;
            (discriminate || reflexivity) ].
Qed.

(** C3 (the code departs from it). Every other core keeps
    [success = true <-> exitCode = 0] (the lemmas above), and the poller of
    [commands/results] returns "no results yet" as a success with exit code
    0; the interactive [getResultsCore] returns the same outcome with
    [success = false] and [exitCode = 0], which breaks the invariant. *)
Theorem C3_interactive_pending_breaks_exit_invariant :
  exists (r : InteractiveCore.InteractiveCommandResult) (w' : World),
    InteractiveCore.getResultsCore (Some sampleClient) "job-1"
      (freshWorld (sampleConfig []) 0) = (Returned r, w')
    /\ InteractiveCore.message r
       = "No results available yet. The job may still be processing."
    /\ InteractiveCore.success r = false
    /\ InteractiveCore.exitCode r = 0
    /\ ~ exit_coherent r
    /\ Results.success (Results.interpret pendingResponse) = true
    /\ Results.exitCode (Results.interpret pendingResponse) = 0.
Proof.
  eexists. eexists. split; [reflexivity|].
  repeat split; try reflexivity.
  unfold exit_coherent. cbn. intros [_ H]. specialize (H eq_refl). discriminate.
Qed.

(** ** C4: the list of recent jobs *)

Section RecentJobs.

Variable uuid : string.

Local Abbreviation other := (fun u : string => negb (u =? uuid)%string).

Lemma includes_In (l : list string) :
  includes l uuid = true <-> In uuid l.
Proof.
  unfold includes. rewrite existsb_exists. split.
  - intros (x & Hin & Heq). apply String.eqb_eq in Heq. now subst.
  - intros Hin. exists uuid. split; [assumption | apply String.eqb_refl].
Qed.

Lemma filter_other_absent (l : list string) :
  ~ In uuid l -> filter other l = l.
Proof.
  induction l as [|a l IH]; simpl; intros Hnot; [reflexivity|].
  destruct (String.eqb_spec a uuid) as [->|Hne]; simpl.
  - exfalso. apply Hnot. now left.
  - f_equal. apply IH. intros Hin. apply Hnot. now right.
Qed.

Lemma filter_other_remove (l : list string) :
  filter other l = remove string_dec uuid l.
Proof.
  induction l as [|a l IH]; simpl; [reflexivity|].
  destruct (string_dec uuid a) as [<-|Hne].
  - rewrite String.eqb_refl. simpl. exact IH.
  - destruct (String.eqb_spec a uuid) as [->|_]; [contradiction|].
    simpl. now rewrite IH.
Qed.

Lemma filter_other_present (l : list string) :
  NoDup l -> In uuid l ->
  Permutation (uuid :: filter other l) l
  /\ S (List.length (filter other l)) = List.length l.
Proof.
  induction l as [|a l IH]; simpl; intros Hnd Hin; [contradiction|].
  inversion Hnd as [|? ? Hnotin Hnd']; subst.
  destruct (String.eqb_spec a uuid) as [->|Hne]; simpl.
  - rewrite (filter_other_absent l Hnotin). split; reflexivity.
  - destruct Hin as [Heq|Hin]; [contradiction|].
    destruct (IH Hnd' Hin) as [Hperm Hlen]. split.
    + rewrite perm_swap. now apply perm_skip.
    + now rewrite Hlen.
Qed.

Lemma firstn_In {A} (n : nat) (l : list A) (x : A) :
  In x (firstn n l) -> In x l.
Proof.
  revert l. induction n as [|n IH]; intros [|a l]; simpl; try contradiction.
  intros [H|H]; [now left | right; now apply IH].
Qed.

Lemma firstn_NoDup {A} (n : nat) (l : list A) :
  NoDup l -> NoDup (firstn n l).
Proof.
  revert l. induction n as [|n IH]; intros [|a l] Hnd; simpl; try constructor.
  - inversion Hnd; subst. intros Hin. now apply firstn_In in Hin.
  - inversion Hnd; subst. now apply IH.
Qed.

Lemma recentWith_head (l : list string) :
  hd_error (recentWith uuid l) = Some uuid.
Proof.
  reflexivity.
Qed.

Lemma recentWith_length (l : list string) :
  (List.length (recentWith uuid l) <= 10)%nat.
Proof.
  unfold recentWith. cbn [List.length].
  pose proof (firstn_le_length 9 (filter other l)).
  lia.
Qed.

Lemma recentWith_NoDup (l : list string) :
  NoDup l -> NoDup (recentWith uuid l).
Proof.
  intros Hnd. unfold recentWith. constructor.
  - intros Hin. apply firstn_In in Hin. apply filter_In in Hin.
    destruct Hin as [_ Hne].
    rewrite String.eqb_refl in Hne. discriminate.
  - apply firstn_NoDup. now apply NoDup_filter.
Qed.

Lemma recentWith_moves_to_front (l : list string) :
  NoDup l -> In uuid l -> (List.length l <= 10)%nat ->
  Permutation (recentWith uuid l) l.
Proof.
  intros Hnd Hin Hlen. unfold recentWith.
  destruct (filter_other_present l Hnd Hin) as [Hperm Hl].
  rewrite firstn_all2 by lia. exact Hperm.
Qed.

Lemma recentWith_evicts_oldest (l : list string) :
  ~ In uuid l -> List.length l = 10%nat ->
  recentWith uuid l = uuid :: removelast l.
Proof.
  intros Hnot Hlen. unfold recentWith.
  rewrite (filter_other_absent l Hnot), removelast_firstn_len, Hlen.
  reflexivity.
Qed.

End RecentJobs.

Lemma fetch_recent uuid options deps client w :
  uuid <> "" ->
  recent_uuids (config (snd (Results.fetch uuid options deps client w)))
  = if includes (recent_uuids (config w)) uuid
    then recent_uuids (config w)
    else recentWith uuid (recent_uuids (config w)).
Proof.
  intros Huuid. apply String.eqb_neq in Huuid.
  unfold Results.fetch. eff_unfold. cbn. rewrite Huuid. cbn.
  destruct (includes (recent_uuids (config w)) uuid); run_all; reflexivity.
Qed.

Lemma analyzeDocumentCore_success_uuid filePath options cfg deps w r w1 :
  Analyze.analyzeDocumentCore filePath options cfg deps w = (Returned r, w1) ->
  Analyze.success r = true ->
  truthy_uuid (Analyze.uuid r) = true.
Proof.
  unfold Analyze.analyzeDocumentCore, Analyze.submit. eff_unfold.
  run_all; intros H; inversion H; subst; cbn; intros; (discriminate || assumption).
Qed.

(** A successful analysis was run on a configuration with a service
    account, so on the content of a configuration file: [loadConfig] has
    then returned that content and written nothing. *)
Lemma loadConfig_before_success filePath options deps w r w1 :
  Analyze.analyzeDocumentCore filePath options (loadedConfig deps) deps w
  = (Returned r, w1) ->
  Analyze.success r = true ->
  forall w0, Config.loadConfig deps w0 = (Returned (loadedConfig deps), w0).
Proof.
  unfold Config.loadConfig, loadedConfig.
  destruct (configFile deps); intros Hcore Hsucc w0; try reflexivity;
    rewrite analyzeDocumentCore_unconfigured in Hcore by reflexivity;
    inversion Hcore; subst; discriminate.
Qed.

Lemma analyzeDocumentCore_exit_code filePath options cfg deps w :
  exists r w', Analyze.analyzeDocumentCore filePath options cfg deps w = (Returned r, w')
               /\ Analyze.exitCode r = (if Analyze.success r then 0 else 1).
Proof.
  unfold Analyze.analyzeDocumentCore, Analyze.submit. eff_unfold.
  run_all; (eexists; eexists; split; reflexivity).
Qed.

(** C4, as the specification states it, fails on the results path:
    asking for the results of a job already in the list leaves the list as
    it is, so the job is not moved to the front. *)
Lemma C4_counterexample :
  let w' := snd (Results.getResultsCore "b" (Results.mkOptions false None None)
                   (sampleDeps sampleClient) (freshWorld (sampleConfig ["a"; "b"]) 0)) in
  recent_uuids (config w') = ["a"; "b"]
  /\ hd_error (recent_uuids (config w')) <> Some "b".
Proof.
  split; [reflexivity | discriminate].
Qed.

(** C4, amended. The analyze path saves the list [recentWith id l]: the id
    first, then the first nine of the other entries in their former order.
    On a list without duplicates this list has no duplicates and at most
    10 entries; an id already present (list within the cap) is moved to
    the front and nothing else changes; an 11th distinct id drops the
    oldest, last entry.  The results path inserts an id that is not in
    the list in the same way, and leaves the list unchanged when the id is
    already there. *)
Theorem C4_recent_jobs_discipline :
  (forall filePath options deps w r w1 id,
      Analyze.analyzeDocumentCore filePath options (loadedConfig deps) deps w
      = (Returned r, w1) ->
      Analyze.success r = true ->
      Analyze.uuid r = Some id ->
      journal (snd (Analyze.analyzeDocument filePath options deps w))
      = (journal w1
         ++ [SaveConfig (with_recent_uuids
                           (recentWith id (recent_uuids (loadedConfig deps)))
                           (loadedConfig deps))])%list)
  /\ (forall uuid options deps client a w,
         service_account_path (config w) <> "" ->
         clientFactory_outcome deps (service_account_path (config w))
           (api_endpoint (config w)) = Returned client ->
         verifyAuth_outcome client = Returned a ->
         truthy (auth_data a) = true ->
         uuid <> "" ->
         let l := recent_uuids (config w) in
         let l' := recent_uuids
                     (config (snd (Results.getResultsCore uuid options deps w))) in
         (In uuid l -> l' = l)
         /\ (~ In uuid l -> l' = recentWith uuid l /\ l' = uuid :: firstn 9 l))
  /\ (forall uuid l,
         NoDup l ->
         hd_error (recentWith uuid l) = Some uuid
         /\ recentWith uuid l = uuid :: firstn 9 (remove string_dec uuid l)
         /\ NoDup (recentWith uuid l)
         /\ (List.length (recentWith uuid l) <= 10)%nat
         /\ (In uuid l -> (List.length l <= 10)%nat ->
             Permutation (recentWith uuid l) l)
         /\ (~ In uuid l -> List.length l = 10%nat ->
             recentWith uuid l = uuid :: removelast l)).
Proof.
  split; [|split].
  - intros filePath options deps w r w1 id Hcore Hsucc Hid.
    pose proof (analyzeDocumentCore_success_uuid _ _ _ _ _ _ _ Hcore Hsucc) as Htruthy.
    pose proof (loadConfig_before_success _ _ _ _ _ _ Hcore Hsucc w) as Hload.
    unfold Analyze.analyzeDocument. unfold bind at 1. rewrite Hload.
    eff_unfold.
    rewrite Hcore. cbn. rewrite Hsucc, Htruthy, Hid. cbn.
    destruct (saveConfig_outcome deps _); cbn;
      [destruct (negb (Analyze.exitCode r =? 0))|]; reflexivity.
  - intros uuid options deps client a w Hsap Hfac Hauth Hdata Huuid l l'.
    assert (Hl' : l' = if includes l uuid then l else recentWith uuid l).
    { subst l l'.
      rewrite (getResultsCore_authenticated uuid options deps w client a) by assumption.
      pose proof (fetch_recent uuid options deps client (authenticatedWorld w) Huuid) as Hf.
      unfold try_catch.
      destruct (Results.fetch uuid options deps client (authenticatedWorld w))
        as [[r|e] w1]; exact Hf. }
    split; intros Hin.
    + apply includes_In in Hin. now rewrite Hin in Hl'.
    + assert (Hinc : includes l uuid = false).
      { apply not_true_is_false. now rewrite includes_In. }
      rewrite Hinc in Hl'. split; [exact Hl'|].
      rewrite Hl'. unfold recentWith. now rewrite filter_other_absent.
  - intros uuid l Hnd.
    split; [apply recentWith_head|].
    split; [unfold recentWith; now rewrite filter_other_remove|].
    split; [now apply recentWith_NoDup|].
    split; [apply recentWith_length|].
    split; [now apply recentWith_moves_to_front | apply recentWith_evicts_oldest].
Qed.

Lemma tenJobs_NoDup : NoDup tenJobs.
Proof.
  unfold tenJobs.
  repeat (constructor; [simpl; intuition discriminate|]). constructor.
Defined.

Lemma C4_witness :
  Permutation (recentWith "j4" tenJobs) tenJobs
  /\ recentWith "j11" tenJobs = "j11" :: removelast tenJobs.
Proof.
  destruct (proj2 (proj2 C4_recent_jobs_discipline) "j4" tenJobs tenJobs_NoDup)
    as (_ & _ & _ & _ & Hfront & _).
  destruct (proj2 (proj2 C4_recent_jobs_discipline) "j11" tenJobs tenJobs_NoDup)
    as (_ & _ & _ & _ & _ & Hevict).
  split.
  - apply Hfront; [simpl; tauto | simpl; lia].
  - apply Hevict; [simpl; intuition discriminate | reflexivity].
Defined.

(** ** C7, C10: the lifetime parser *)

(** *** Last code unit and all-but-last *)

Lemma lastChar_None (s : string) : lastChar s = None -> s = "".
Proof.
  destruct s as [|c rest]; simpl; [reflexivity|].
  destruct (lastChar rest); discriminate.
Qed.

Lemma endsWith_lastChar (s : string) (c : ascii) :
  endsWith s (String c "")
  = match lastChar s with
    | Some c' => (c' =? c)%char
    | None => false
    end.
Proof.
  unfold endsWith. induction s as [|a s IH]; [reflexivity|].
  destruct s as [|b s'].
  - cbn. destruct (a =? c)%char; reflexivity.
  - change (String.length (String c "")) with 1%nat in *.
    change (String.length (String a (String b s'))) with (S (S (String.length s'))).
    change (String.length (String b s')) with (S (String.length s')) in IH.
    rewrite Nat.sub_succ, Nat.sub_0_r in *.
    change (substring (S (String.length s')) 1 (String a (String b s')))
      with (substring (String.length s') 1 (String b s')).
    cbn [Nat.leb] in *. rewrite IH. cbn [lastChar].
    destruct (lastChar s'); reflexivity.
Qed.

Lemma slice_dropLast (s : string) : slice_0_m1 s = dropLast s.
Proof.
  unfold slice_0_m1. induction s as [|a s IH]; [reflexivity|].
  destruct s as [|b s'].
  - reflexivity.
  - change (String.length (String a (String b s'))) with (S (S (String.length s'))).
    change (String.length (String b s')) with (S (String.length s')) in IH.
    rewrite Nat.sub_succ, Nat.sub_0_r in *.
    change (substring 0 (S (String.length s')) (String a (String b s')))
      with (String a (substring 0 (String.length s') (String b s'))).
    rewrite IH. reflexivity.
Qed.

Lemma append_empty_r (s : string) : s ++ "" = s.
Proof.
  induction s as [|a s IH]; simpl; [reflexivity | now rewrite IH].
Qed.

Lemma lastChar_append (s t : string) :
  t <> "" -> lastChar (s ++ t) = lastChar t.
Proof.
  intros Ht. induction s as [|a s IH]; simpl; [reflexivity|].
  rewrite IH. destruct (lastChar t) eqn:E; [reflexivity|].
  now apply lastChar_None in E.
Qed.

Lemma dropLast_append (s t : string) :
  t <> "" -> dropLast (s ++ t) = s ++ dropLast t.
Proof.
  intros Ht. induction s as [|a s IH]; simpl; [reflexivity|].
  rewrite IH. destruct (s ++ t) eqn:E; [|reflexivity].
  destruct s; simpl in E; [contradiction | discriminate].
Qed.

(** *** Decimal numerals *)

Lemma radixDigits_digitsOf (u : Decimal.uint) (t : string) :
  radixDigits 10 (digitsOf u ++ t) = (uint_digits u ++ radixDigits 10 t)%list.
Proof.
  induction u; cbn [digitsOf NilEmpty.string_of_uint append uint_digits app];
    try reflexivity;
    unfold digitsOf in IHu; cbn [radixDigits]; cbn; now rewrite IHu.
Qed.

Lemma fold_digits_acc (u : Decimal.uint) (acc : positive) :
  fold_left (fun a d => a * 10 + d) (uint_digits u) (Z.pos acc)
  = Z.pos (Pos.of_uint_acc u acc).
Proof.
  revert acc.
  induction u; intros acc; cbn [uint_digits fold_left Pos.of_uint_acc];
    try reflexivity;
    rewrite <- IHu; f_equal; lia.
Qed.

Lemma mathInt_uint_digits (u : Decimal.uint) :
  mathInt 10 (uint_digits u) = Z.of_uint u.
Proof.
  unfold mathInt, Z.of_uint.
  induction u; cbn [uint_digits fold_left Pos.of_uint];
    try reflexivity;
    try (change (0 * 10 + 0) with 0; exact IHu);
    match goal with
    | |- fold_left _ _ (0 * 10 + ?k) = _ =>
        change (0 * 10 + k) with k
    end;
    rewrite fold_digits_acc; reflexivity.
Qed.

Lemma of_uint_nonneg (u : Decimal.uint) : 0 <= Z.of_uint u.
Proof.
  unfold Z.of_uint. apply N2Z.is_nonneg.
Qed.

Lemma uint_digits_nonempty (u : Decimal.uint) :
  u <> Decimal.Nil -> uint_digits u <> [].
Proof.
  destruct u; simpl; intros H; congruence.
Qed.

Lemma lastChar_digitsOf (u : Decimal.uint) (c : ascii) :
  lastChar (digitsOf u) = Some c -> isDecimalDigit c = true.
Proof.
  unfold digitsOf. revert c.
  induction u; intros c; cbn [NilEmpty.string_of_uint lastChar];
    try discriminate;
    (destruct (lastChar (NilEmpty.string_of_uint u)) as [c'|] eqn:E;
     intros H; inversion H; subst; [now apply IHu | reflexivity]).
Qed.

Lemma digitsOf_nonempty (u : Decimal.uint) :
  u <> Decimal.Nil -> digitsOf u <> "".
Proof.
  destruct u; simpl; intros H; congruence.
Qed.

(** *** [parseInt] on a string that starts with a decimal digit *)

Ltac split_ascii c :=
  let b0 := fresh "b" in let b1 := fresh "b" in let b2 := fresh "b" in
  let b3 := fresh "b" in let b4 := fresh "b" in let b5 := fresh "b" in
  let b6 := fresh "b" in let b7 := fresh "b" in
  destruct c as [b0 b1 b2 b3 b4 b5 b6 b7];
  destruct b0, b1, b2, b3, b4, b5, b6, b7.

Lemma parseInt_plain (s : string) :
  plainStart s = true ->
  parseInt s None
  = match radixDigits 10 s with
    | [] => NaN
    | ds => Num (1 * mathInt 10 ds)
    end.
Proof.
  destruct s as [|c rest]; [discriminate|].
  intros H. split_ascii c; try discriminate H.
  all: try reflexivity.
  destruct rest as [|c2 rest2]; [reflexivity|].
  split_ascii c2; try discriminate H; reflexivity.
Qed.

Lemma plainStart_digitsOf (u : Decimal.uint) (t : string) :
  u <> Decimal.Nil ->
  (u = Decimal.D0 Decimal.Nil -> startsWithX t = false) ->
  plainStart (digitsOf u ++ t) = true.
Proof.
  intros Hne Hhex.
  destruct u as [|u'|u'|u'|u'|u'|u'|u'|u'|u'|u']; try reflexivity.
  - contradiction.
  - destruct u'; try reflexivity.
    cbn. rewrite Hhex; reflexivity.
Qed.

(** A decimal numeral followed by anything that does not continue it is
    read as the numeral, a safe integer. *)
Lemma parseInt_digitsOf (u : Decimal.uint) (t : string) :
  u <> Decimal.Nil ->
  radixDigits 10 t = [] ->
  (u = Decimal.D0 Decimal.Nil -> startsWithX t = false) ->
  Z.of_uint u <= MAX_SAFE_INTEGER ->
  parseInt (digitsOf u ++ t) None = Num (Z.of_uint u).
Proof.
  intros Hne Ht Hhex _.
  rewrite parseInt_plain by now apply plainStart_digitsOf.
  rewrite radixDigits_digitsOf, Ht, app_nil_r.
  destruct (uint_digits u) eqn:E.
  - now apply uint_digits_nonempty in E.
  - rewrite <- E, mathInt_uint_digits, Z.mul_1_l. reflexivity.
Qed.

(** *** The parser on a numeral with trailing text *)

Section TtlParser.

Import InteractiveCore.

Lemma digit_not_unit (c : ascii) :
  isDecimalDigit c = true ->
  (c =? "s")%char = false /\ (c =? "m")%char = false /\ (c =? "h")%char = false.
Proof.
  intros H. split_ascii c; try discriminate H; repeat split; reflexivity.
Qed.

Lemma radixDigits_dropLast (t : string) :
  radixDigits 10 t = [] -> radixDigits 10 (dropLast t) = [].
Proof.
  destruct t as [|c [|c' t']]; try reflexivity.
  cbn [dropLast radixDigits].
  destruct (digitValue c) as [d|]; [|reflexivity].
  destruct (d <? 10); [discriminate | reflexivity].
Qed.

Lemma startsWithX_dropLast (t : string) :
  startsWithX t = false -> startsWithX (dropLast t) = false.
Proof.
  destruct t as [|c [|c' t']]; auto.
Qed.

Lemma accepted_when_nonneg (v : Z) :
  0 <= v ->
  (if isNaN (Num v) || lt (Num v) 0
   then Returned invalidTtl
   else Returned (accepted v))
  = Returned (accepted v).
Proof.
  intros Hv. cbn [isNaN lt orb].
  replace (v <? 0) with false; [reflexivity|].
  symmetry. now apply Z.ltb_ge.
Qed.

Lemma unitOf_pos (t : string) : 1 <= unitOf t.
Proof.
  unfold unitOf. destruct (lastChar t) as [c|]; [|lia].
  destruct (c =? "s")%char; [lia|].
  destruct (c =? "m")%char; [lia|].
  destruct (c =? "h")%char; lia.
Qed.

Lemma parse_numeral_then (input : string) (u : Decimal.uint) (t : string) :
  u <> Decimal.Nil ->
  toLowerCase (trim input) = digitsOf u ++ t ->
  radixDigits 10 t = [] ->
  (u = Decimal.D0 Decimal.Nil -> startsWithX t = false) ->
  Z.of_uint u * unitOf t <= MAX_SAFE_INTEGER ->
  parseWorkflowCacheTtlCore input = accepted (Z.of_uint u * unitOf t).
Proof.
  intros Hne Hnorm Ht Hhex Hsafe.
  pose proof (of_uint_nonneg u) as Hpos.
  assert (Hu : Z.of_uint u <= MAX_SAFE_INTEGER).
  { pose proof (unitOf_pos t). nia. }
  assert (Hdrop : parseInt (digitsOf u ++ dropLast t) None = Num (Z.of_uint u)).
  { apply parseInt_digitsOf; auto using radixDigits_dropLast.
    intros H0. apply startsWithX_dropLast. auto. }
  assert (Hkeep : parseInt (digitsOf u ++ t) None = Num (Z.of_uint u)).
  { now apply parseInt_digitsOf. }
  unfold parseWorkflowCacheTtlCore, attempt. cbv zeta.
  rewrite Hnorm, !endsWith_lastChar, slice_dropLast.
  fold invalidTtl.
  destruct (string_dec t "") as [->|Hnonempty].
  - rewrite append_empty_r in *.
    destruct (lastChar (digitsOf u)) as [c|] eqn:E.
    + destruct (digit_not_unit c (lastChar_digitsOf u c E)) as (Hs & Hm & Hh).
      rewrite Hs, Hm, Hh, Hkeep.
      unfold unitOf. cbn [lastChar]. rewrite Z.mul_1_r.
      rewrite accepted_when_nonneg by assumption. reflexivity.
    + apply lastChar_None in E. now apply digitsOf_nonempty in E.
  - rewrite lastChar_append, dropLast_append by assumption.
    unfold unitOf.
    destruct (lastChar t) as [c|] eqn:E.
    + destruct (c =? "s")%char;
        [|destruct (c =? "m")%char; [|destruct (c =? "h")%char]];
        rewrite ?Hdrop, ?Hkeep; cbn [mul]; rewrite ?Z.mul_1_r;
        rewrite accepted_when_nonneg by lia; reflexivity.
    + now apply lastChar_None in E.
Qed.

Lemma parseInt_minus (s : string) :
  plainStart s = true ->
  parseInt (String "-" s) None
  = match radixDigits 10 s with
    | [] => NaN
    | ds => Num (-1 * mathInt 10 ds)
    end.
Proof.
  destruct s as [|c rest]; [discriminate|].
  intros H. split_ascii c; try discriminate H.
  all: try reflexivity.
  destruct rest as [|c2 rest2]; [reflexivity|].
  split_ascii c2; try discriminate H; reflexivity.
Qed.

Lemma parseInt_minus_digitsOf (u : Decimal.uint) (t : string) :
  u <> Decimal.Nil ->
  radixDigits 10 t = [] ->
  (u = Decimal.D0 Decimal.Nil -> startsWithX t = false) ->
  parseInt ("-" ++ digitsOf u ++ t) None = Num (- Z.of_uint u).
Proof.
  intros Hne Ht Hhex.
  change ("-" ++ digitsOf u ++ t) with (String "-" (digitsOf u ++ t)).
  rewrite parseInt_minus by now apply plainStart_digitsOf.
  rewrite radixDigits_digitsOf, Ht, app_nil_r.
  destruct (uint_digits u) eqn:E.
  - now apply uint_digits_nonempty in E.
  - rewrite <- E, mathInt_uint_digits. f_equal; lia.
Qed.

Lemma rejected_when_negative (v : Z) :
  v < 0 ->
  (if isNaN (Num v) || lt (Num v) 0
   then Returned invalidTtl
   else Returned (accepted v))
  = Returned invalidTtl.
Proof.
  intros Hv. cbn [isNaN lt orb].
  replace (v <? 0) with true; [reflexivity|].
  symmetry. now apply Z.ltb_lt.
Qed.

Lemma parse_negative_numeral (input : string) (u : Decimal.uint) (t : string) :
  0 < Z.of_uint u ->
  toLowerCase (trim input) = "-" ++ digitsOf u ++ t ->
  radixDigits 10 t = [] ->
  (u = Decimal.D0 Decimal.Nil -> startsWithX t = false) ->
  parseWorkflowCacheTtlCore input = invalidTtl.
Proof.
  intros Hpos Hnorm Ht Hhex.
  assert (Hne : u <> Decimal.Nil) by (intros ->; cbn in Hpos; lia).
  assert (Hbody : digitsOf u ++ t <> "").
  { pose proof (digitsOf_nonempty u Hne). destruct (digitsOf u); [contradiction | discriminate]. }
  assert (Hkeep : parseInt ("-" ++ digitsOf u ++ t) None = Num (- Z.of_uint u)).
  { now apply parseInt_minus_digitsOf. }
  unfold parseWorkflowCacheTtlCore, attempt. cbv zeta.
  rewrite Hnorm, !endsWith_lastChar, slice_dropLast.
  fold invalidTtl.
  rewrite lastChar_append, dropLast_append by assumption.
  destruct (string_dec t "") as [->|Hnonempty].
  - rewrite append_empty_r in *.
    destruct (lastChar (digitsOf u)) as [c|] eqn:E.
    + destruct (digit_not_unit c (lastChar_digitsOf u c E)) as (Hs & Hm & Hh).
      rewrite Hs, Hm, Hh, Hkeep.
      rewrite rejected_when_negative by lia. reflexivity.
    + apply lastChar_None in E. now apply digitsOf_nonempty in E.
  - rewrite lastChar_append, dropLast_append by assumption.
    assert (Hdrop : parseInt ("-" ++ digitsOf u ++ dropLast t) None = Num (- Z.of_uint u)).
    { apply parseInt_minus_digitsOf; auto using radixDigits_dropLast.
      intros H0. apply startsWithX_dropLast. auto. }
    destruct (lastChar t) as [c|] eqn:E.
    + destruct (c =? "s")%char;
        [|destruct (c =? "m")%char; [|destruct (c =? "h")%char]];
        rewrite ?Hdrop, ?Hkeep; cbn [mul];
        rewrite rejected_when_negative by lia; reflexivity.
    + now apply lastChar_None in E.
Qed.

(** Whatever the input, the parser answers with one of two records. *)
Lemma parse_dichotomy (input : string) :
  parseWorkflowCacheTtlCore input = invalidTtl
  \/ exists v, 0 <= v /\ parseWorkflowCacheTtlCore input = accepted v.
Proof.
  unfold parseWorkflowCacheTtlCore, attempt. cbv zeta.
  fold invalidTtl.
  match goal with
  | |- context [isNaN ?x] => destruct x as [v|]
  end.
  - cbn [isNaN lt orb]. destruct (v <? 0) eqn:E.
    + now left.
    + right. exists v. split; [now apply Z.ltb_ge | reflexivity].
  - now left.
Qed.

End TtlParser.

(** *** Input that does not start like a number *)

Lemma parseInt_non_numeric (c : ascii) (rest : string) :
  numericStart c = false -> parseInt (String c rest) None = NaN.
Proof.
  intros H. split_ascii c; try discriminate H; reflexivity.
Qed.

Lemma parse_non_numeric (input : string) (c : ascii) (rest : string) :
  toLowerCase (trim input) = String c rest ->
  numericStart c = false ->
  InteractiveCore.parseWorkflowCacheTtlCore input = invalidTtl.
Proof.
  intros Hnorm Hc.
  assert (Hdrop : parseInt (dropLast (String c rest)) None = NaN).
  { destruct rest as [|c' rest']; [reflexivity|].
    cbn [dropLast]. now apply parseInt_non_numeric. }
  unfold InteractiveCore.parseWorkflowCacheTtlCore, InteractiveCore.attempt. cbv zeta.
  rewrite Hnorm, slice_dropLast, Hdrop, parseInt_non_numeric by assumption.
  repeat match goal with
         | |- context [endsWith ?a ?b] => destruct (endsWith a b)
         end; reflexivity.
Qed.

(** *** The value of an input, and when it is not a number *)

Lemma radixDigits_nil_iff (R : Z) (s : string) :
  radixDigits R s = [] <-> startsWithDigit R s = false.
Proof.
  destruct s as [|c s]; cbn; [tauto|].
  destruct (digitValue c) as [d|]; [destruct (d <? R)|];
    split; intros; try reflexivity; discriminate.
Qed.

Lemma read_digits_NaN (R k : Z) (s : string) :
  match radixDigits R s with
  | [] => NaN
  | (_ :: _) as ds => Num (k * mathInt R ds)
  end = NaN <-> startsWithDigit R s = false.
Proof.
  rewrite <- radixDigits_nil_iff.
  destruct (radixDigits R s); split; intros; try reflexivity; discriminate.
Qed.

Lemma unsigned_NaN (k : Z) (s : string) :
  (let '(R, S2) :=
     match s with
     | String "0" (String "x" rest) => (16, rest)
     | String "0" (String "X" rest) => (16, rest)
     | _ => (10, s)
     end in
   match radixDigits R S2 with
   | [] => NaN
   | (_ :: _) as ds => Num (k * mathInt R ds)
   end) = NaN
  <-> match s with
      | String "0" (String "x" rest) => startsWithDigit 16 rest
      | String "0" (String "X" rest) => startsWithDigit 16 rest
      | _ => startsWithDigit 10 s
      end = false.
Proof.
  destruct s as [|c s]; [cbn; tauto|].
  split_ascii c; try apply read_digits_NaN.
  destruct s as [|c2 s2]; [apply read_digits_NaN|].
  split_ascii c2; apply read_digits_NaN.
Qed.

(** [parseInt(s)] is [NaN] exactly when [s] does not denote a number. *)
Lemma parseInt_NaN_iff (s : string) :
  parseInt s None = NaN <-> denotesNumber s = false.
Proof.
  unfold parseInt, denotesNumber. cbv zeta.
  destruct (trimStart s) as [|c r]; [cbn; tauto|].
  split_ascii c;
    first [ exact (unsigned_NaN (-1) r)
          | exact (unsigned_NaN 1 r)
          | match goal with
            | |- context [String ?a r] => exact (unsigned_NaN 1 (String a r))
            end ].
Qed.

(** The parser computes the value of the specification, and decides on
    it. *)
Lemma parse_by_value (input : string) :
  InteractiveCore.parseWorkflowCacheTtlCore input
  = match ttlSeconds input with
    | NaN => invalidTtl
    | Num v => if v <? 0 then invalidTtl else accepted v
    end.
Proof.
  unfold InteractiveCore.parseWorkflowCacheTtlCore, InteractiveCore.attempt,
    ttlSeconds, numeralText, unitOf.
  cbv zeta.
  rewrite !endsWith_lastChar, slice_dropLast.
  destruct (lastChar (toLowerCase (trim input))) as [c|];
    [destruct (c =? "s")%char; [|destruct (c =? "m")%char; [|destruct (c =? "h")%char]]|];
    cbn [orb];
    match goal with
    | |- context [parseInt ?x None] => destruct (parseInt x None) as [v|]
    end;
    cbn [mul isNaN lt orb]; rewrite ?Z.mul_1_r;
    try reflexivity;
    match goal with
    | |- context [?a <? 0] => destruct (a <? 0)
    end; reflexivity.
Qed.

Lemma ttlSeconds_NaN_iff (input : string) :
  ttlSeconds input = NaN
  <-> denotesNumber (numeralText (toLowerCase (trim input))) = false.
Proof.
  rewrite <- parseInt_NaN_iff. unfold ttlSeconds. cbv zeta.
  destruct (parseInt (numeralText (toLowerCase (trim input))) None);
    cbn; split; intros; try reflexivity; discriminate.
Qed.

(** C7, as the specification states it, fails on its own example: "x90"
    is answered with the message for an invalid value, not with
    "Invalid format. Examples: 30s, 10m, 2h". *)
Lemma C7_counterexample :
  InteractiveCore.message (InteractiveCore.parseWorkflowCacheTtlCore "x90")
  = "Invalid cache TTL. Must be a positive number."
  /\ InteractiveCore.message (InteractiveCore.parseWorkflowCacheTtlCore "x90")
     <> "Invalid format. Examples: 30s, 10m, 2h".
Proof.
  split; [reflexivity | discriminate].
Qed.

(** C7, amended. [parseWorkflowCacheTtlCore] trims and lower-cases its
    input; a decimal numeral followed by [s] is that many seconds, by [m]
    that many minutes (times 60), by [h] that many hours (times 3600), and
    a bare numeral is seconds, as long as the value in seconds is a safe
    integer.  For every input, the value is the number [parseInt] reads
    in front of the unit letter, times the seconds of the unit: when it is
    [NaN] or negative the input is refused with "Invalid cache TTL. Must
    be a positive number.", and otherwise accepted with that value.  The
    value is [NaN] exactly when the text in front of the unit does not
    denote a number: so for blank input, a lone sign or unit letter, "-x",
    "0x" and "x90".  Every input ends either in that refusal or in the
    success "Cache TTL parsed successfully", and none in "Invalid
    format. Examples: 30s, 10m, 2h". *)
Theorem C7_ttl_units_and_invalid_values :
  (forall input u,
      u <> Decimal.Nil ->
      (toLowerCase (trim input) = digitsOf u ++ "s" ->
       Z.of_uint u <= MAX_SAFE_INTEGER ->
       InteractiveCore.parseWorkflowCacheTtlCore input = accepted (Z.of_uint u))
      /\ (toLowerCase (trim input) = digitsOf u ++ "m" ->
          Z.of_uint u * 60 <= MAX_SAFE_INTEGER ->
          InteractiveCore.parseWorkflowCacheTtlCore input = accepted (Z.of_uint u * 60))
      /\ (toLowerCase (trim input) = digitsOf u ++ "h" ->
          Z.of_uint u * 3600 <= MAX_SAFE_INTEGER ->
          InteractiveCore.parseWorkflowCacheTtlCore input = accepted (Z.of_uint u * 3600))
      /\ (toLowerCase (trim input) = digitsOf u ->
          Z.of_uint u <= MAX_SAFE_INTEGER ->
          InteractiveCore.parseWorkflowCacheTtlCore input = accepted (Z.of_uint u)))
  /\ (forall input,
         (ttlSeconds input = NaN ->
          InteractiveCore.parseWorkflowCacheTtlCore input = invalidTtl)
         /\ (forall v, ttlSeconds input = Num v -> v < 0 ->
                       InteractiveCore.parseWorkflowCacheTtlCore input = invalidTtl)
         /\ (forall v, ttlSeconds input = Num v -> 0 <= v <= MAX_SAFE_INTEGER ->
                       InteractiveCore.parseWorkflowCacheTtlCore input = accepted v)
         /\ (ttlSeconds input = NaN
             <-> denotesNumber (numeralText (toLowerCase (trim input))) = false))
  /\ (forall input,
         In input [""; "   "; "-"; "+"; "-x"; "0x"; "s"; "-m"; "x90"] ->
         InteractiveCore.parseWorkflowCacheTtlCore input = invalidTtl)
  /\ (forall input u suffix,
         0 < Z.of_uint u ->
         In suffix ["s"; "m"; "h"; ""] ->
         toLowerCase (trim input) = "-" ++ digitsOf u ++ suffix ->
         InteractiveCore.parseWorkflowCacheTtlCore input = invalidTtl)
  /\ (forall input c rest,
         toLowerCase (trim input) = String c rest ->
         numericStart c = false ->
         InteractiveCore.parseWorkflowCacheTtlCore input = invalidTtl)
  /\ InteractiveCore.parseWorkflowCacheTtlCore "x90" = invalidTtl
  /\ (forall input,
         InteractiveCore.parseWorkflowCacheTtlCore input = invalidTtl
         \/ (InteractiveCore.success (InteractiveCore.parseWorkflowCacheTtlCore input)
             = true
             /\ InteractiveCore.exitCode (InteractiveCore.parseWorkflowCacheTtlCore input)
                = 0
             /\ InteractiveCore.message (InteractiveCore.parseWorkflowCacheTtlCore input)
                = "Cache TTL parsed successfully"))
  /\ (forall input,
         InteractiveCore.message (InteractiveCore.parseWorkflowCacheTtlCore input)
         <> "Invalid format. Examples: 30s, 10m, 2h").
Proof.
  split; [|split; [|split; [|split; [|split; [|split; [|split]]]]]].
  - intros input u Hne.
    repeat split; intros Hnorm Hsafe.
    + rewrite (parse_numeral_then input u "s");
        [unfold unitOf; cbn; now rewrite Z.mul_1_r | | | | |];
        auto; try discriminate.
      unfold unitOf; cbn. now rewrite Z.mul_1_r.
    + now rewrite (parse_numeral_then input u "m") by (auto; discriminate).
    + now rewrite (parse_numeral_then input u "h") by (auto; discriminate).
    + rewrite (parse_numeral_then input u "");
        [unfold unitOf; cbn; now rewrite Z.mul_1_r | | | | |];
        rewrite ?append_empty_r; auto.
      unfold unitOf; cbn. now rewrite Z.mul_1_r.
  - intros input. rewrite parse_by_value.
    split; [|split; [|split]].
    + intros ->. reflexivity.
    + intros v -> Hv. now replace (v <? 0) with true by (symmetry; apply Z.ltb_lt; lia).
    + intros v -> [Hv _]. now replace (v <? 0) with false by (symmetry; apply Z.ltb_ge; lia).
    + apply ttlSeconds_NaN_iff.
  - intros input Hin. cbn in Hin.
    repeat (destruct Hin as [<-|Hin]; [reflexivity|]). contradiction.
  - intros input u suffix Hpos Hin Hnorm.
    apply (parse_negative_numeral input u suffix); auto.
    + cbn in Hin. destruct Hin as [<-|[<-|[<-|[<-|[]]]]]; reflexivity.
    + cbn in Hin. destruct Hin as [<-|[<-|[<-|[<-|[]]]]]; reflexivity.
  - exact parse_non_numeric.
  - reflexivity.
  - intros input.
    destruct (parse_dichotomy input) as [H|(v & _ & H)]; rewrite H;
      [now left | right; repeat split].
  - intros input.
    destruct (parse_dichotomy input) as [H|(v & _ & H)]; rewrite H; discriminate.
Qed.

Lemma C7_witness :
  InteractiveCore.parseWorkflowCacheTtlCore "  10M " = accepted 600
  /\ InteractiveCore.parseWorkflowCacheTtlCore "-5m" = invalidTtl.
Proof.
  split.
  - apply (proj1 C7_ttl_units_and_invalid_values "  10M "
             (Decimal.D1 (Decimal.D0 Decimal.Nil))).
    + discriminate.
    + reflexivity.
    + discriminate.
  - apply (proj1 (proj2 (proj2 (proj2 C7_ttl_units_and_invalid_values))) "-5m"
             (Decimal.D5 Decimal.Nil) "m").
    + reflexivity.
    + simpl. tauto.
    + reflexivity.
Defined.

(** C10. The parser accepts a decimal numeral followed by arbitrary text
    that does not continue it: "90x" is read as 90 seconds and "10ms", seen
    as ending in the unit [s], as 10 seconds.  In general, if the trimmed,
    lower-cased input is a numeral [u] followed by [t], where [t] does not
    start with a decimal digit (and "0" is not followed by "x"), parsing
    succeeds with the value of [u] times the unit that the last code unit
    of [t] selects, as long as that value is a safe integer. *)
Theorem C10_trailing_characters_accepted :
  InteractiveCore.parseWorkflowCacheTtlCore "90x" = accepted 90
  /\ InteractiveCore.parseWorkflowCacheTtlCore "10ms" = accepted 10
  /\ (forall input u t,
         u <> Decimal.Nil ->
         toLowerCase (trim input) = digitsOf u ++ t ->
         radixDigits 10 t = [] ->
         (u = Decimal.D0 Decimal.Nil -> startsWithX t = false) ->
         Z.of_uint u * unitOf t <= MAX_SAFE_INTEGER ->
         InteractiveCore.parseWorkflowCacheTtlCore input
         = accepted (Z.of_uint u * unitOf t)).
Proof.
  split; [reflexivity|]. split; [reflexivity|].
  intros input u t Hne Hnorm Ht Hhex Hsafe. now apply parse_numeral_then.
Qed.

Lemma C10_witness :
  InteractiveCore.parseWorkflowCacheTtlCore "42 apples" = accepted 42.
Proof.
  apply (proj2 (proj2 C10_trailing_characters_accepted) "42 apples"
           (Decimal.D4 (Decimal.D2 Decimal.Nil)) " apples").
  - discriminate.
  - reflexivity.
  - reflexivity.
  - discriminate.
  - discriminate.
Defined.

(** The worked examples of the specification: "10m" is 600 seconds, shown
    as "10 minutes"; "90" is 90 seconds, shown as "1 minute". *)
Example ttl_examples :
  InteractiveCore.parseWorkflowCacheTtlCore "10m" = accepted 600
  /\ InteractiveCore.message (InteractiveCore.formatCacheTtlCore (Num 600)) = "10 minutes"
  /\ InteractiveCore.parseWorkflowCacheTtlCore "90" = accepted 90
  /\ InteractiveCore.message (InteractiveCore.formatCacheTtlCore (Num 90)) = "1 minute".
Proof.
  repeat split; reflexivity.
Qed.

(** * Further properties of the command cores *)

(** ** The results command *)

(** X1. In [getResultsCore] of [commands/results], a [verifyAuth] that
    resolves to falsy data ends the run with "Authentication failed.", and
    one that throws ends it with "Authentication error: " and the message
    of the error; in both cases the run has only created the client and
    called [verifyAuth]: no [getResults] call, nothing saved, and the list
    of recent jobs left as it was. *)
Theorem X1_results_stop_at_failed_authentication :
  forall (uuid : string) (options : Results.ResultsOptions) (deps : Dependencies)
         (client : Client) (w : World),
    service_account_path (config w) <> "" ->
    clientFactory_outcome deps (service_account_path (config w))
      (api_endpoint (config w)) = Returned client ->
    let run := Results.getResultsCore uuid options deps in
    (forall a,
        verifyAuth_outcome client = Returned a ->
        truthy (auth_data a) = false ->
        fst (run w) = Returned (Results.failure "Authentication failed." NoError))
    /\ (forall e,
           verifyAuth_outcome client = Thrown e ->
           fst (run w)
           = Returned (Results.failure ("Authentication error: " ++ err_message e)
                         (Caught e)))
    /\ ((forall a, verifyAuth_outcome client = Returned a ->
                   truthy (auth_data a) = false) ->
        performed run w = openingCalls (config w)
        /\ config (snd (run w)) = config w).
Proof.
  intros uuid options deps client w Hsap Hfac run. subst run.
  apply String.eqb_neq in Hsap.
  unfold Results.getResultsCore, openingCalls. eff_unfold. cbn.
  rewrite Hsap. cbn. rewrite Hfac. cbn.
  repeat split.
  - intros a Ha Hfalse. rewrite Ha. cbn. rewrite Hfalse. reflexivity.
  - intros e He. rewrite He. reflexivity.
  - destruct (verifyAuth_outcome client) as [a|e]; cbn.
    + rewrite (H a eq_refl). cbn. journal_done.
    + journal_done.
  - destruct (verifyAuth_outcome client) as [a|e]; cbn.
    + rewrite (H a eq_refl). reflexivity.
    + reflexivity.
Qed.

Lemma X1_witness :
  fst (Results.getResultsCore "job-1" (Results.mkOptions true None None)
         (sampleDeps refusedClient) (freshWorld (sampleConfig ["job-0"]) 0))
  = Returned (Results.failure "Authentication failed." NoError)
  /\ config (snd (Results.getResultsCore "job-1" (Results.mkOptions true None None)
                    (sampleDeps refusedClient) (freshWorld (sampleConfig ["job-0"]) 0)))
     = sampleConfig ["job-0"].
Proof.
  destruct (X1_results_stop_at_failed_authentication "job-1"
              (Results.mkOptions true None None) (sampleDeps refusedClient)
              refusedClient (freshWorld (sampleConfig ["job-0"]) 0))
    as (Hfalse & _ & Hquiet); [discriminate | reflexivity |].
  split.
  - apply (Hfalse {| auth_data := JBool false |}); reflexivity.
  - apply Hquiet. intros a Ha. inversion Ha. reflexivity.
Defined.

(** X2. In every run of [getResultsCore] that passes authentication with a
    non-empty job id on a configuration that can be saved, the calls are,
    in order: the creation of the client, [verifyAuth], one [saveConfig]
    of the configuration with the new list when the id was not yet in the
    list (none when it was), and exactly one [getResults].  That call
    carries the polling options when [wait] is set and the interval 0 with
    1 attempt when it is not, whatever the polling options say, and it is
    made whether it then resolves or throws. *)
Theorem X2_results_run_journal :
  forall (uuid : string) (options : Results.ResultsOptions) (deps : Dependencies)
         (client : Client) (a : AuthVerificationResult) (w : World),
    service_account_path (config w) <> "" ->
    clientFactory_outcome deps (service_account_path (config w))
      (api_endpoint (config w)) = Returned client ->
    verifyAuth_outcome client = Returned a ->
    truthy (auth_data a) = true ->
    uuid <> "" ->
    (forall c, saveConfig_outcome deps c = Returned tt) ->
    let l := recent_uuids (config w) in
    performed (Results.getResultsCore uuid options deps) w
    = (openingCalls (config w)
       ++ (if includes l uuid then []
           else [SaveConfig (with_recent_uuids (recentWith uuid l) (config w))])
       ++ [GetResults uuid
             (if Results.wait options
              then Some (Results.numericOption (Results.pollInterval options) 3000,
                         Results.numericOption (Results.maxAttempts options) 10)
              else Some (Num 0, Num 1))])%list.
Proof.
  intros uuid options deps client a w Hsap Hfac Hauth Hdata Huuid Hsave l.
  unfold performed.
  rewrite (getResultsCore_authenticated uuid options deps w client a) by assumption.
  apply String.eqb_neq in Huuid.
  unfold Results.fetch, authenticatedWorld, openingCalls. eff_unfold. cbn.
  rewrite Huuid. cbn. subst l.
  destruct (includes (recent_uuids (config w)) uuid); cbn;
    rewrite ?Hsave; cbn;
    destruct (Results.wait options); cbn;
    match goal with
    | |- context [getResults_outcome ?c ?u ?p] =>
        destruct (getResults_outcome c u p)
    end; journal_done.
Qed.

Lemma X2_witness :
  performed (Results.getResultsCore "job-9" (Results.mkOptions false
               (Some (Results.OString "500")) (Some (Results.ONumber (Num 20))))
               (sampleDeps unreachableClient))
    (freshWorld (sampleConfig ["job-1"]) 0)
  = [CreateClient "/keys/visionfi_service_account.json"
       "https://platform.visionfi.ai/api/v1";
     VerifyAuth;
     SaveConfig (sampleConfig ["job-9"; "job-1"]);
     GetResults "job-9" (Some (Num 0, Num 1))].
Proof.
  refine (X2_results_run_journal "job-9"
            (Results.mkOptions false (Some (Results.OString "500"))
               (Some (Results.ONumber (Num 20))))
            (sampleDeps unreachableClient)
            unreachableClient {| auth_data := JBool true |}
            (freshWorld (sampleConfig ["job-1"]) 0) _ _ _ _ _ _);
    [discriminate | reflexivity | reflexivity | reflexivity | discriminate
    | reflexivity].
Defined.

(** X3. When the remote [getResults] call throws, [getResultsCore] returns
    a failure with exit code 1, the message "Failed to retrieve results: "
    followed by the message of the error, and the error attached; the job
    id has been recorded before the call, so it is in the list of recent
    jobs all the same. *)
Theorem X3_results_transport_error_is_wrapped :
  forall (uuid : string) (options : Results.ResultsOptions) (deps : Dependencies)
         (client : Client) (a : AuthVerificationResult) (e : JsError) (w : World),
    service_account_path (config w) <> "" ->
    clientFactory_outcome deps (service_account_path (config w))
      (api_endpoint (config w)) = Returned client ->
    verifyAuth_outcome client = Returned a ->
    truthy (auth_data a) = true ->
    uuid <> "" ->
    (forall c, saveConfig_outcome deps c = Returned tt) ->
    getResults_outcome client uuid (requestedPolling options) = Thrown e ->
    let run := Results.getResultsCore uuid options deps in
    fst (run w)
    = Returned {| Results.success := false;
                  Results.message := "Failed to retrieve results: " ++ err_message e;
                  Results.exitCode := 1;
                  Results.status := JUndefined;
                  Results.results := JUndefined;
                  Results.error := Caught e |}
    /\ In uuid (recent_uuids (config (snd (run w)))).
Proof.
  intros uuid options deps client a e w Hsap Hfac Hauth Hdata Huuid Hsave Hthrow run.
  subst run.
  rewrite (getResultsCore_authenticated uuid options deps w client a) by assumption.
  pose proof (fetch_recent uuid options deps client (authenticatedWorld w) Huuid) as Hrec.
  assert (Hfetch : fst (Results.fetch uuid options deps client (authenticatedWorld w))
                   = Returned (Results.failure
                                 ("Failed to retrieve results: " ++ err_message e)
                                 (Caught e))).
  { apply String.eqb_neq in Huuid.
    unfold Results.fetch, requestedPolling in *. eff_unfold. cbn. rewrite Huuid. cbn.
    destruct (includes (recent_uuids (config w)) uuid); cbn;
      rewrite ?Hsave; cbn;
      destruct (Results.wait options); cbn; rewrite Hthrow; reflexivity. }
  unfold try_catch.
  destruct (Results.fetch uuid options deps client (authenticatedWorld w))
    as [[r|e'] w1]; cbn in *; [|discriminate].
  split; [exact Hfetch|].
  rewrite Hrec.
  destruct (includes (recent_uuids (config w)) uuid) eqn:E.
  - now apply includes_In.
  - now left.
Qed.

Lemma X3_witness :
  fst (Results.getResultsCore "job-9" (Results.mkOptions true None None)
         (sampleDeps unreachableClient) (freshWorld (sampleConfig ["job-1"]) 0))
  = Returned {| Results.success := false;
                Results.message := "Failed to retrieve results: socket hang up";
                Results.exitCode := 1;
                Results.status := JUndefined;
                Results.results := JUndefined;
                Results.error := Caught (mkError "socket hang up") |}.
Proof.
  refine (proj1 (X3_results_transport_error_is_wrapped "job-9"
                   (Results.mkOptions true None None) (sampleDeps unreachableClient)
                   unreachableClient {| auth_data := JBool true |}
                   (mkError "socket hang up")
                   (freshWorld (sampleConfig ["job-1"]) 0) _ _ _ _ _ _ _));
    [discriminate | reflexivity | reflexivity | reflexivity | discriminate
    | reflexivity | reflexivity].
Defined.

(** X4. When the job id is new and saving the configuration throws,
    [getResultsCore] returns the failure "Unexpected error: " with the
    message of the error and makes no [getResults] call; the list of the
    configuration object in memory has been updated already. *)
Theorem X4_results_save_failure_stops_the_run :
  forall (uuid : string) (options : Results.ResultsOptions) (deps : Dependencies)
         (client : Client) (a : AuthVerificationResult) (e : JsError) (w : World),
    service_account_path (config w) <> "" ->
    clientFactory_outcome deps (service_account_path (config w))
      (api_endpoint (config w)) = Returned client ->
    verifyAuth_outcome client = Returned a ->
    truthy (auth_data a) = true ->
    uuid <> "" ->
    ~ In uuid (recent_uuids (config w)) ->
    saveConfig_outcome deps
      (with_recent_uuids (recentWith uuid (recent_uuids (config w))) (config w))
    = Thrown e ->
    let run := Results.getResultsCore uuid options deps in
    fst (run w)
    = Returned {| Results.success := false;
                  Results.message := "Unexpected error: " ++ err_message e;
                  Results.exitCode := 1;
                  Results.status := JUndefined;
                  Results.results := JUndefined;
                  Results.error := Caught e |}
    /\ existsb isGetResults (performed run w) = false
    /\ recent_uuids (config (snd (run w))) = recentWith uuid (recent_uuids (config w)).
Proof.
  intros uuid options deps client a e w Hsap Hfac Hauth Hdata Huuid Hnew Hsave run.
  subst run. unfold performed.
  rewrite (getResultsCore_authenticated uuid options deps w client a) by assumption.
  assert (Hinc : includes (recent_uuids (config w)) uuid = false).
  { apply not_true_is_false. now rewrite includes_In. }
  apply String.eqb_neq in Huuid.
  unfold Results.fetch, authenticatedWorld. eff_unfold. cbn.
  rewrite Huuid. cbn. rewrite Hinc. cbn. rewrite Hsave. cbn.
  repeat split. journal_done.
Qed.

Lemma X4_witness :
  fst (Results.getResultsCore "job-9" (Results.mkOptions true None None)
         (readOnlyDeps sampleClient) (freshWorld (sampleConfig ["job-1"]) 0))
  = Returned {| Results.success := false;
                Results.message := "Unexpected error: EACCES";
                Results.exitCode := 1;
                Results.status := JUndefined;
                Results.results := JUndefined;
                Results.error := Caught (mkError "EACCES") |}.
Proof.
  refine (proj1 (X4_results_save_failure_stops_the_run "job-9"
                   (Results.mkOptions true None None) (readOnlyDeps sampleClient)
                   sampleClient {| auth_data := JBool true |} (mkError "EACCES")
                   (freshWorld (sampleConfig ["job-1"]) 0) _ _ _ _ _ _ _));
    [discriminate | reflexivity | reflexivity | reflexivity | discriminate
    | simpl; intuition discriminate | reflexivity].
Defined.

Lemma parseInt10_plain (s : string) :
  match s with String c _ => isDecimalDigit c | EmptyString => false end = true ->
  parseInt s (Some 10)
  = match radixDigits 10 s with
    | [] => NaN
    | ds => Num (1 * mathInt 10 ds)
    end.
Proof.
  destruct s as [|c rest]; [discriminate|].
  intros H. split_ascii c; try discriminate H; reflexivity.
Qed.

Lemma parseInt10_digitsOf (u : Decimal.uint) (t : string) :
  u <> Decimal.Nil ->
  radixDigits 10 t = [] ->
  Z.of_uint u <= MAX_SAFE_INTEGER ->
  parseInt (digitsOf u ++ t) (Some 10) = Num (Z.of_uint u).
Proof.
  intros Hne Ht _.
  rewrite parseInt10_plain by (destruct u; try reflexivity; contradiction).
  rewrite radixDigits_digitsOf, Ht, app_nil_r.
  destruct (uint_digits u) eqn:E.
  - now apply uint_digits_nonempty in E.
  - rewrite <- E, mathInt_uint_digits, Z.mul_1_l. reflexivity.
Qed.

Lemma parseInt10_non_numeric (c : ascii) (rest : string) :
  numericStart c = false -> parseInt (String c rest) (Some 10) = NaN.
Proof.
  intros H. split_ascii c; try discriminate H; reflexivity.
Qed.

(** X5. How [getResultsCore] reads a polling option.  Absent, it is the
    default.  Given as a string (the command line passes strings), it is
    read by [parseInt] in radix 10: a decimal numeral followed by anything
    that does not continue it is the value of the numeral when that is a
    safe integer (so "0x10" is 0), and a string that does not start like
    a number is [NaN], which is passed on and not replaced by the
    default.  Given as a number, it is kept unless it is 0 or [NaN],
    which give the default. *)
Theorem X5_polling_option_reading :
  forall (dflt : Z),
    Results.numericOption None dflt = Num dflt
    /\ (forall u t,
           u <> Decimal.Nil ->
           radixDigits 10 t = [] ->
           Z.of_uint u <= MAX_SAFE_INTEGER ->
           Results.numericOption (Some (Results.OString (digitsOf u ++ t))) dflt
           = Num (Z.of_uint u))
    /\ (forall c rest,
           numericStart c = false ->
           Results.numericOption (Some (Results.OString (String c rest))) dflt = NaN)
    /\ (forall n,
           n <> 0 ->
           Results.numericOption (Some (Results.ONumber (Num n))) dflt = Num n)
    /\ Results.numericOption (Some (Results.ONumber (Num 0))) dflt = Num dflt
    /\ Results.numericOption (Some (Results.ONumber NaN)) dflt = Num dflt.
Proof.
  intros dflt. unfold Results.numericOption.
  split; [reflexivity|].
  split; [intros; now apply parseInt10_digitsOf|].
  split; [intros; now apply parseInt10_non_numeric|].
  split; [|split; reflexivity].
  intros n Hn. cbn. apply Z.eqb_neq in Hn. now rewrite Hn.
Qed.

Lemma X5_witness :
  Results.numericOption (Some (Results.OString "0x10")) 3000 = Num 0
  /\ Results.numericOption (Some (Results.OString "soon")) 3000 = NaN
  /\ Results.numericOption (Some (Results.ONumber (Num 250))) 3000 = Num 250.
Proof.
  destruct (X5_polling_option_reading 3000) as (_ & Hnum & Hnan & Hkeep & _).
  split; [|split].
  - apply (Hnum (Decimal.D0 Decimal.Nil) "x10");
      [discriminate | reflexivity | discriminate].
  - apply (Hnan "s"%char "oon"). reflexivity.
  - apply Hkeep. discriminate.
Defined.

(** ** The analyze command *)

Lemma analyzeDocumentCore_authenticated
    (filePath : string) (options : Analyze.AnalyzeOptions) (cfg : CLIConfig)
    (deps : Dependencies) (w : World) (client : Client) (a : AuthVerificationResult) :
  service_account_path cfg <> "" ->
  existsSync deps filePath = true ->
  clientFactory_outcome deps (service_account_path cfg) (api_endpoint cfg)
  = Returned client ->
  verifyAuth_outcome client = Returned a ->
  truthy (auth_data a) = true ->
  Analyze.analyzeDocumentCore filePath options cfg deps w
  = try_catch (Analyze.submit filePath options deps client)
      (fun err => ret (Analyze.failure ("Unexpected error: " ++ err_message err)
                         (Caught err)))
      (afterOpening cfg w).
Proof.
  intros Hsap Hex Hfac Hauth Hdata.
  apply String.eqb_neq in Hsap.
  unfold Analyze.analyzeDocumentCore, afterOpening, openingCalls. eff_unfold. cbn.
  rewrite Hsap, Hex. cbn. rewrite Hfac. cbn. rewrite Hauth. cbn. rewrite Hdata. cbn.
  rewrite <- app_assoc. reflexivity.
Qed.

(** X6. In [analyzeDocumentCore] of [commands/analyze], with a service
    account configured and the file present, a [verifyAuth] that resolves
    to falsy data ends the run with "Authentication failed.", and one that
    throws with "Authentication error: " and the message of the error; the
    run has only created the client and called [verifyAuth], so the
    document is never submitted. *)
Theorem X6_analyze_stop_at_failed_authentication :
  forall (filePath : string) (options : Analyze.AnalyzeOptions) (cfg : CLIConfig)
         (deps : Dependencies) (client : Client) (w : World),
    service_account_path cfg <> "" ->
    existsSync deps filePath = true ->
    clientFactory_outcome deps (service_account_path cfg) (api_endpoint cfg)
    = Returned client ->
    let run := Analyze.analyzeDocumentCore filePath options cfg deps in
    (forall a,
        verifyAuth_outcome client = Returned a ->
        truthy (auth_data a) = false ->
        run w = (Returned (Analyze.failure "Authentication failed." NoError),
                 afterOpening cfg w))
    /\ (forall e,
           verifyAuth_outcome client = Thrown e ->
           run w = (Returned (Analyze.failure
                                ("Authentication error: " ++ err_message e) (Caught e)),
                    afterOpening cfg w))
    /\ ((forall a, verifyAuth_outcome client = Returned a ->
                   truthy (auth_data a) = false) ->
        performed run w = openingCalls cfg).
Proof.
  intros filePath options cfg deps client w Hsap Hex Hfac run. subst run.
  apply String.eqb_neq in Hsap.
  unfold Analyze.analyzeDocumentCore, afterOpening, openingCalls. eff_unfold. cbn.
  rewrite Hsap, Hex. cbn. rewrite Hfac. cbn.
  split; [|split].
  - intros a Ha Hfalse. rewrite Ha. cbn. rewrite Hfalse. cbn.
    now rewrite <- app_assoc.
  - intros e He. rewrite He. cbn. now rewrite <- app_assoc.
  - intros Hnever.
    destruct (verifyAuth_outcome client) as [a|e]; cbn;
      [rewrite (Hnever a eq_refl); cbn|]; journal_done.
Qed.

Lemma X6_witness :
  Analyze.analyzeDocumentCore "invoice.pdf" (Analyze.mkOptions (Some "invoice"))
    (sampleConfig []) (sampleDeps refusedClient) (freshWorld (sampleConfig []) 0)
  = (Returned (Analyze.failure "Authentication failed." NoError),
     afterOpening (sampleConfig []) (freshWorld (sampleConfig []) 0)).
Proof.
  refine (proj1 (X6_analyze_stop_at_failed_authentication "invoice.pdf"
                   (Analyze.mkOptions (Some "invoice")) (sampleConfig [])
                   (sampleDeps refusedClient) refusedClient
                   (freshWorld (sampleConfig []) 0) _ _ _)
            {| auth_data := JBool false |} _ _);
    [discriminate | reflexivity | reflexivity | reflexivity | reflexivity].
Defined.

(** X7. Once authentication has passed, a workflow is given and the file
    can be read, [analyzeDocumentCore] submits the document exactly once,
    with the bytes read, the base name of the path and the workflow key.
    If the call resolves, the result is a success exactly when the
    response carries a non-empty uuid, and then returns that uuid; if it
    throws, the result is the failure "Error submitting document: " with
    the message of the error. *)
Theorem X7_analyze_submits_once :
  forall (filePath workflowKey fileData : string) (cfg : CLIConfig)
         (deps : Dependencies) (client : Client) (a : AuthVerificationResult)
         (w : World),
    service_account_path cfg <> "" ->
    existsSync deps filePath = true ->
    clientFactory_outcome deps (service_account_path cfg) (api_endpoint cfg)
    = Returned client ->
    verifyAuth_outcome client = Returned a ->
    truthy (auth_data a) = true ->
    workflowKey <> "" ->
    readFileSync_outcome deps filePath = Returned fileData ->
    let run := Analyze.analyzeDocumentCore filePath
                 (Analyze.mkOptions (Some workflowKey)) cfg deps in
    performed run w
    = (openingCalls cfg
       ++ [AnalyzeDocument fileData (basename deps filePath) workflowKey])%list
    /\ (forall job,
           analyzeDocument_outcome client fileData (basename deps filePath) workflowKey
           = Returned job ->
           exists r,
             fst (run w) = Returned r
             /\ Analyze.success r = truthy_uuid (job_uuid job)
             /\ Analyze.data r = Some job
             /\ (Analyze.success r = true -> Analyze.uuid r = job_uuid job))
    /\ (forall e,
           analyzeDocument_outcome client fileData (basename deps filePath) workflowKey
           = Thrown e ->
           fst (run w)
           = Returned (Analyze.failure ("Error submitting document: " ++ err_message e)
                         (Caught e))).
Proof.
  intros filePath workflowKey fileData cfg deps client a w
         Hsap Hex Hfac Hauth Hdata Hkey Hread run.
  subst run. unfold performed.
  rewrite (analyzeDocumentCore_authenticated filePath _ cfg deps w client a)
    by assumption.
  apply String.eqb_neq in Hkey.
  unfold Analyze.submit, afterOpening. eff_unfold. cbn.
  rewrite Hkey. cbn. rewrite Hread. cbn.
  split; [|split].
  - destruct (analyzeDocument_outcome client fileData (basename deps filePath) workflowKey)
      as [job|e]; cbn; [destruct (truthy_uuid (job_uuid job)); cbn|];
      journal_done.
  - intros job Hjob. rewrite Hjob. cbn.
    destruct (truthy_uuid (job_uuid job)) eqn:E; cbn;
      eexists; (split; [reflexivity|]); cbn; repeat split; auto; discriminate.
  - intros e He. rewrite He. reflexivity.
Qed.

Lemma X7_witness :
  performed (Analyze.analyzeDocumentCore "docs/invoice.pdf"
               (Analyze.mkOptions (Some "invoice")) (sampleConfig [])
               (sampleDeps sampleClient))
    (freshWorld (sampleConfig []) 0)
  = [CreateClient "/keys/visionfi_service_account.json"
       "https://platform.visionfi.ai/api/v1";
     VerifyAuth;
     AnalyzeDocument "%PDF" "docs/invoice.pdf" "invoice"].
Proof.
  refine (proj1 (X7_analyze_submits_once "docs/invoice.pdf" "invoice" "%PDF"
                   (sampleConfig []) (sampleDeps sampleClient) sampleClient
                   {| auth_data := JBool true |} (freshWorld (sampleConfig []) 0)
                   _ _ _ _ _ _ _));
    [discriminate | reflexivity | reflexivity | reflexivity | reflexivity
    | discriminate | reflexivity].
Defined.

(** X8. When reading the file throws (after authentication has passed and
    with a workflow given), [analyzeDocumentCore] returns the failure
    "Unexpected error: " with the message of the error, and the document
    is not submitted. *)
Theorem X8_analyze_unreadable_file :
  forall (filePath workflowKey : string) (cfg : CLIConfig) (deps : Dependencies)
         (client : Client) (a : AuthVerificationResult) (e : JsError) (w : World),
    service_account_path cfg <> "" ->
    existsSync deps filePath = true ->
    clientFactory_outcome deps (service_account_path cfg) (api_endpoint cfg)
    = Returned client ->
    verifyAuth_outcome client = Returned a ->
    truthy (auth_data a) = true ->
    workflowKey <> "" ->
    readFileSync_outcome deps filePath = Thrown e ->
    Analyze.analyzeDocumentCore filePath (Analyze.mkOptions (Some workflowKey)) cfg deps w
    = (Returned (Analyze.failure ("Unexpected error: " ++ err_message e) (Caught e)),
       afterOpening cfg w).
Proof.
  intros filePath workflowKey cfg deps client a e w
         Hsap Hex Hfac Hauth Hdata Hkey Hread.
  rewrite (analyzeDocumentCore_authenticated filePath _ cfg deps w client a)
    by assumption.
  apply String.eqb_neq in Hkey.
  unfold Analyze.submit, afterOpening. eff_unfold. cbn.
  rewrite Hkey. cbn. rewrite Hread. reflexivity.
Qed.

Lemma X8_witness :
  let deps := {| clientFactory_outcome := clientFactory_outcome (sampleDeps sampleClient);
                 existsSync := fun _ => true;
                 readFileSync_outcome := fun _ => Thrown (mkError "EISDIR");
                 basename := fun p => p;
                 configFile := NoConfigFile;
                 saveConfig_outcome := fun _ => Returned tt |} in
  fst (Analyze.analyzeDocumentCore "docs" (Analyze.mkOptions (Some "invoice"))
         (sampleConfig []) deps (freshWorld (sampleConfig []) 0))
  = Returned (Analyze.failure "Unexpected error: EISDIR" (Caught (mkError "EISDIR"))).
Proof.
  intros deps.
  rewrite (X8_analyze_unreadable_file "docs" "invoice" (sampleConfig []) deps
             sampleClient {| auth_data := JBool true |} (mkError "EISDIR")
             (freshWorld (sampleConfig []) 0));
    [reflexivity | discriminate | reflexivity | reflexivity | reflexivity
    | reflexivity | discriminate | reflexivity].
Defined.

(** X9. The CLI wrapper [analyzeDocument].  With a configuration file in
    place, it saves the configuration exactly when the core reports a
    success, once, with the job id put in front of the recent jobs; it
    then returns, unless that save throws, in which case the error leaves
    the wrapper.  After a failed analysis it has made the calls of the
    core and no other, and ends in [process.exit(1)].  Without a
    configuration file, [loadConfig] writes the defaults, the core finds
    no service account in them, and the wrapper ends in [process.exit(1)]
    with that one save as its only call; if the defaults cannot be
    written, the error leaves the wrapper. *)
Theorem X9_analyze_wrapper_saves_and_exit :
  forall (filePath : string) (options : Analyze.AnalyzeOptions)
         (deps : Dependencies) (w : World),
    let run := Analyze.analyzeDocument filePath options deps in
    (configFile deps = NoConfigFile ->
       journal (snd (run w)) = (journal w ++ [SaveConfig DEFAULT_CONFIG])%list
       /\ (saveConfig_outcome deps DEFAULT_CONFIG = Returned tt ->
           fst (run w) = Returned (Exited 1))
       /\ (forall e, saveConfig_outcome deps DEFAULT_CONFIG = Thrown e ->
                     fst (run w) = Thrown e))
    /\ (configFile deps <> NoConfigFile ->
        exists r w1,
          Analyze.analyzeDocumentCore filePath options (loadedConfig deps) deps w
          = (Returned r, w1)
          /\ (Analyze.success r = false -> run w = (Returned (Exited 1), w1))
          /\ (Analyze.success r = true ->
              exists id,
                Analyze.uuid r = Some id
                /\ id <> ""
                /\ journal (snd (run w))
                   = (journal w1
                      ++ [SaveConfig (with_recent_uuids
                                        (recentWith id (recent_uuids (loadedConfig deps)))
                                        (loadedConfig deps))])%list
                /\ (saveConfig_outcome deps
                      (with_recent_uuids
                         (recentWith id (recent_uuids (loadedConfig deps)))
                         (loadedConfig deps)) = Returned tt ->
                    fst (run w) = Returned Returns)
                /\ (forall e,
                       saveConfig_outcome deps
                         (with_recent_uuids
                            (recentWith id (recent_uuids (loadedConfig deps)))
                            (loadedConfig deps)) = Thrown e ->
                       fst (run w) = Thrown e))).
Proof.
  intros filePath options deps w run. subst run. split.
  - intros Hfile. unfold Analyze.analyzeDocument, Config.loadConfig.
    rewrite Hfile. eff_unfold. cbn.
    destruct (saveConfig_outcome deps DEFAULT_CONFIG) as [[]|e] eqn:Hs; cbn.
    + repeat split; intros; (reflexivity || discriminate).
    + repeat split; intros; try discriminate. congruence.
  - intros Hfile.
    assert (Hload : forall w0,
               Config.loadConfig deps w0 = (Returned (loadedConfig deps), w0)).
    { unfold Config.loadConfig, loadedConfig.
      destruct (configFile deps); [contradiction | reflexivity | reflexivity]. }
    destruct (analyzeDocumentCore_exit_code filePath options (loadedConfig deps) deps w)
      as (r & w1 & Hcore & Hcode).
    exists r, w1. split; [exact Hcore|].
    destruct (Analyze.analyzeDocument filePath options deps w) as [o wf] eqn:Hrun.
    unfold Analyze.analyzeDocument in Hrun. unfold bind at 1 in Hrun.
    rewrite Hload in Hrun. eff_unfold. rewrite Hcore in Hrun.
    cbn in Hrun. rewrite Hcode in Hrun.
    split.
    + intros Hfail. rewrite Hfail in Hrun. cbn in Hrun. now symmetry.
    + intros Hsucc.
      pose proof (analyzeDocumentCore_success_uuid _ _ _ _ _ _ _ Hcore Hsucc) as Ht.
      rewrite Hsucc, Ht in Hrun. cbn in Hrun.
      destruct (Analyze.uuid r) as [id|] eqn:Hid; [|discriminate].
      exists id. split; [reflexivity|].
      split; [intros ->; discriminate|].
      destruct (saveConfig_outcome deps
                  (with_recent_uuids (recentWith id (recent_uuids (loadedConfig deps)))
                     (loadedConfig deps))) as [[]|e] eqn:Hs;
        cbn in Hrun; inversion Hrun; subst; cbn;
        repeat split; intros; try discriminate; congruence.
Qed.

Lemma X9_witness :
  fst (Analyze.analyzeDocument "invoice.pdf" (Analyze.mkOptions (Some "invoice"))
         (sampleDeps sampleClient) (freshWorld DEFAULT_CONFIG 0))
  = Returned (Exited 1)
  /\ journal (snd (Analyze.analyzeDocument "invoice.pdf"
                     (Analyze.mkOptions (Some "invoice"))
                     (sampleDeps sampleClient) (freshWorld DEFAULT_CONFIG 0)))
     = [SaveConfig DEFAULT_CONFIG].
Proof.
  destruct (proj1 (X9_analyze_wrapper_saves_and_exit "invoice.pdf"
                     (Analyze.mkOptions (Some "invoice")) (sampleDeps sampleClient)
                     (freshWorld DEFAULT_CONFIG 0)) eq_refl)
    as (Hj & Hexit & _).
  split; [exact (Hexit eq_refl) | exact Hj].
Defined.

(** ** The auth command *)

Ltac count_done :=
  unfold performed; cbn; repeat rewrite <- app_assoc;
  rewrite ?skipn_length_app, ?skipn_length_self; cbn; lia.

Ltac outcome_leaf :=
  intros;
  try discriminate; try contradiction; try reflexivity; try assumption;
  try congruence;
  try count_done;
  try (repeat match goal with
              | H : _ /\ _ |- _ => destruct H
              | H : exists _, _ |- _ => destruct H
              end; congruence);
  try (eexists; eexists; repeat split; eauto; fail).

(** X10. [authenticateWithApi] always returns a record, whatever its
    collaborators do.  The record is a success exactly when a service
    account is configured, the client factory returns a client and
    [verifyAuth] resolves to truthy data; every other record has exit code
    1.  Without a service account nothing is called; an error thrown by
    the factory or by [verifyAuth] comes back as "Authentication error: "
    with its message; and [verifyAuth] is called at most once. *)
Theorem X10_authentication_outcomes :
  forall (cfg : CLIConfig) (deps : Dependencies) (w : World),
    exists r w',
      Auth.authenticateWithApi cfg deps w = (Returned r, w')
      /\ (Auth.success r = true <->
          service_account_path cfg <> ""
          /\ exists client a,
               clientFactory_outcome deps (service_account_path cfg) (api_endpoint cfg)
               = Returned client
               /\ verifyAuth_outcome client = Returned a
               /\ truthy (auth_data a) = true)
      /\ (Auth.success r = true -> Auth.exitCode r = 0)
      /\ (Auth.success r = false -> Auth.exitCode r = 1)
      /\ (service_account_path cfg = "" -> w' = w)
      /\ (forall e,
             clientFactory_outcome deps (service_account_path cfg) (api_endpoint cfg)
             = Thrown e ->
             service_account_path cfg <> "" ->
             Auth.message r = "Authentication error: " ++ err_message e)
      /\ (forall client e,
             clientFactory_outcome deps (service_account_path cfg) (api_endpoint cfg)
             = Returned client ->
             verifyAuth_outcome client = Thrown e ->
             service_account_path cfg <> "" ->
             Auth.message r = "Authentication error: " ++ err_message e)
      /\ (List.length (filter isVerifyAuth
                         (performed (Auth.authenticateWithApi cfg deps) w)) <= 1)%nat.
Proof.
  intros cfg deps w.
  unfold Auth.authenticateWithApi. eff_unfold.
  destruct (String.eqb_spec (service_account_path cfg) "") as [Hsap|Hsap]; cbn;
    [|destruct (clientFactory_outcome deps (service_account_path cfg) (api_endpoint cfg))
        as [client|e] eqn:Hfac; cbn;
      [destruct (verifyAuth_outcome client) as [a|e] eqn:Hauth; cbn;
       [destruct (truthy (auth_data a)) eqn:Hdata|]|]];
    (eexists; eexists; split; [reflexivity|]); cbn;
    repeat split; outcome_leaf.
Qed.

(** ** The interactive cores *)

(** X11. The interactive [analyzeDocumentCore], when the submission
    resolves with a non-empty uuid and the configuration can be saved,
    returns a success whose data carry the uuid, the response and the
    updated configuration; it has submitted once and then saved that
    configuration once.  The updated configuration differs from the one
    passed in only by its list of recent jobs, which now starts with the
    uuid and has at most 10 entries; the shared configuration object is
    not touched.  When the response carries no uuid (absent or empty) the
    result is a failure with exit code 1 and nothing is saved. *)
Theorem X11_interactive_analyze_records_the_job :
  forall (client : Client) (fileData fileName workflowKey : string)
         (cfg : CLIConfig) (deps : Dependencies) (job : AnalysisJobResult) (w : World),
    analyzeDocument_outcome client fileData fileName workflowKey = Returned job ->
    let run := InteractiveCore.analyzeDocumentCore (Some client) fileData fileName
                 workflowKey cfg deps in
    (forall id,
        job_uuid job = Some id ->
        id <> "" ->
        let updated := with_recent_uuids (recentWith id (recent_uuids cfg)) cfg in
        saveConfig_outcome deps updated = Returned tt ->
        fst (run w)
        = Returned {| InteractiveCore.success := true;
                      InteractiveCore.message := "Document submitted successfully";
                      InteractiveCore.exitCode := 0;
                      InteractiveCore.data :=
                        Some (InteractiveCore.DSubmission id job updated);
                      InteractiveCore.error := NoError |}
        /\ performed run w
           = [AnalyzeDocument fileData fileName workflowKey; SaveConfig updated]
        /\ config (snd (run w)) = config w
        /\ hd_error (recent_uuids updated) = Some id
        /\ (List.length (recent_uuids updated) <= 10)%nat
        /\ service_account_path updated = service_account_path cfg
        /\ api_endpoint updated = api_endpoint cfg
        /\ debug_mode updated = debug_mode cfg
        /\ test_mode updated = test_mode cfg
        /\ workflow_cache_ttl updated = workflow_cache_ttl cfg)
    /\ (truthy_uuid (job_uuid job) = false ->
        fst (run w)
        = Returned {| InteractiveCore.success := false;
                      InteractiveCore.message :=
                        "Document submitted but no UUID was returned";
                      InteractiveCore.exitCode := 1;
                      InteractiveCore.data := Some (InteractiveCore.DJob job);
                      InteractiveCore.error := NoError |}
        /\ performed run w = [AnalyzeDocument fileData fileName workflowKey]).
Proof.
  intros client fileData fileName workflowKey cfg deps job w Hjob run. subst run.
  unfold InteractiveCore.analyzeDocumentCore. eff_unfold. cbn. rewrite Hjob. cbn.
  split.
  - intros id Hid Hne Hsave.
    rewrite Hid. cbn. apply String.eqb_neq in Hne. rewrite Hne. cbn.
    rewrite Hsave. cbn.
    repeat split; try journal_done.
    apply recentWith_length.
  - intros Hfalse.
    destruct (job_uuid job) as [id|]; cbn in *;
      [rewrite Hfalse; cbn|]; split; try reflexivity; journal_done.
Qed.

Lemma X11_witness :
  performed (InteractiveCore.analyzeDocumentCore (Some sampleClient) "%PDF"
               "invoice.pdf" "invoice" (sampleConfig ["job-0"; "job-1"])
               (sampleDeps sampleClient))
    (freshWorld (sampleConfig []) 0)
  = [AnalyzeDocument "%PDF" "invoice.pdf" "invoice";
     SaveConfig (sampleConfig ["job-1"; "job-0"])].
Proof.
  refine (proj1 (proj2 (proj1 (X11_interactive_analyze_records_the_job sampleClient
                                 "%PDF" "invoice.pdf" "invoice"
                                 (sampleConfig ["job-0"; "job-1"])
                                 (sampleDeps sampleClient)
                                 {| job_uuid := Some "job-1"; job_rest := [] |}
                                 (freshWorld (sampleConfig []) 0) _)
                          "job-1" _ _ _)));
    [reflexivity | reflexivity | discriminate | reflexivity].
Defined.

(** X12. In the interactive [analyzeDocumentCore] the configuration is
    saved inside the same [try] as the submission: when the submission has
    resolved with a uuid and saving then throws, the result is the failure
    "Error submitting document: " with the message of the save error,
    although the document has been submitted. *)
Theorem X12_interactive_analyze_save_failure :
  forall (client : Client) (fileData fileName workflowKey id : string)
         (cfg : CLIConfig) (deps : Dependencies) (job : AnalysisJobResult)
         (e : JsError) (w : World),
    analyzeDocument_outcome client fileData fileName workflowKey = Returned job ->
    job_uuid job = Some id ->
    id <> "" ->
    saveConfig_outcome deps (with_recent_uuids (recentWith id (recent_uuids cfg)) cfg)
    = Thrown e ->
    let run := InteractiveCore.analyzeDocumentCore (Some client) fileData fileName
                 workflowKey cfg deps in
    fst (run w)
    = Returned {| InteractiveCore.success := false;
                  InteractiveCore.message :=
                    "Error submitting document: " ++ err_message e;
                  InteractiveCore.exitCode := 1;
                  InteractiveCore.data := None;
                  InteractiveCore.error := Caught e |}
    /\ performed run w
       = [AnalyzeDocument fileData fileName workflowKey;
          SaveConfig (with_recent_uuids (recentWith id (recent_uuids cfg)) cfg)].
Proof.
  intros client fileData fileName workflowKey id cfg deps job e w
         Hjob Hid Hne Hsave run.
  subst run.
  unfold InteractiveCore.analyzeDocumentCore. eff_unfold. cbn. rewrite Hjob. cbn.
  rewrite Hid. cbn. apply String.eqb_neq in Hne. rewrite Hne. cbn.
  rewrite Hsave. cbn.
  split; [reflexivity | journal_done].
Qed.

Lemma X12_witness :
  fst (InteractiveCore.analyzeDocumentCore (Some sampleClient) "%PDF"
         "invoice.pdf" "invoice" (sampleConfig []) (readOnlyDeps sampleClient)
         (freshWorld (sampleConfig []) 0))
  = Returned {| InteractiveCore.success := false;
                InteractiveCore.message := "Error submitting document: EACCES";
                InteractiveCore.exitCode := 1;
                InteractiveCore.data := None;
                InteractiveCore.error := Caught (mkError "EACCES") |}.
Proof.
  refine (proj1 (X12_interactive_analyze_save_failure sampleClient "%PDF"
                   "invoice.pdf" "invoice" "job-1" (sampleConfig [])
                   (readOnlyDeps sampleClient)
                   {| job_uuid := Some "job-1"; job_rest := [] |}
                   (mkError "EACCES") (freshWorld (sampleConfig []) 0) _ _ _ _));
    [reflexivity | reflexivity | discriminate | reflexivity].
Defined.

(** X13. No interactive core lets an error escape: whatever the client,
    the factory and the configuration manager do, [initializeClientCore],
    [verifyAuthenticationCore], [getWorkflowsCore], [analyzeDocumentCore] and
    [getResultsCore] return a record, with exit code 0 or 1.  Handed no
    client, the last four answer "Client not initialized" with exit code 1
    and call nothing. *)
Theorem X13_interactive_cores_always_answer :
  forall (c : option Client) (deps : Dependencies) (cfg : CLIConfig) (w : World),
    (forall path,
        exists r w', InteractiveCore.initializeClientCore path cfg deps w = (Returned r, w')
                     /\ (InteractiveCore.exitCode r = 0 \/ InteractiveCore.exitCode r = 1))
    /\ (exists r w', InteractiveCore.verifyAuthenticationCore c w = (Returned r, w')
                     /\ (InteractiveCore.exitCode r = 0 \/ InteractiveCore.exitCode r = 1))
    /\ (forall force cached cachedAt ttl debug,
           exists r w',
             InteractiveCore.getWorkflowsCore c force cached cachedAt ttl debug w
             = (Returned r, w')
             /\ (InteractiveCore.exitCode r = 0 \/ InteractiveCore.exitCode r = 1))
    /\ (forall fileData fileName workflowKey,
           exists r w',
             InteractiveCore.analyzeDocumentCore c fileData fileName workflowKey cfg deps w
             = (Returned r, w')
             /\ (InteractiveCore.exitCode r = 0 \/ InteractiveCore.exitCode r = 1))
    /\ (forall uuid,
           exists r w', InteractiveCore.getResultsCore c uuid w = (Returned r, w')
                        /\ (InteractiveCore.exitCode r = 0 \/ InteractiveCore.exitCode r = 1))
    /\ (c = None ->
        InteractiveCore.verifyAuthenticationCore c w
        = (Returned InteractiveCore.notInitialized, w)
        /\ (forall force cached cachedAt ttl debug,
               InteractiveCore.getWorkflowsCore c force cached cachedAt ttl debug w
               = (Returned InteractiveCore.notInitialized, w))
        /\ (forall fileData fileName workflowKey,
               InteractiveCore.analyzeDocumentCore c fileData fileName workflowKey cfg deps w
               = (Returned InteractiveCore.notInitialized, w))
        /\ (forall uuid,
               InteractiveCore.getResultsCore c uuid w
               = (Returned InteractiveCore.notInitialized, w))).
Proof.
  intros c deps cfg w.
  repeat split; intros; subst;
    try reflexivity;
    unfold InteractiveCore.initializeClientCore, InteractiveCore.verifyAuthenticationCore,
      InteractiveCore.getWorkflowsCore, InteractiveCore.analyzeDocumentCore,
      InteractiveCore.getResultsCore, InteractiveCore.interpret;
    eff_unfold;
    try destruct c;
    run_all;
    (eexists; eexists; split; [reflexivity|]); cbn; auto.
Qed.

(** ** The workflow cache of a session *)

Lemma getCachedWorkflows_performed self force w :
  performed (Interactive.getCachedWorkflows self force) w
  = performed (InteractiveCore.getWorkflowsCore (Interactive.client self) force
                 (Interactive._cachedWorkflows self) (Interactive._workflowsCachedAt self)
                 (Interactive._workflowCacheTtl self)
                 (debug_mode (Interactive.session_config self))) w.
Proof.
  unfold performed, Interactive.getCachedWorkflows. eff_unfold.
  destruct (InteractiveCore.getWorkflowsCore (Interactive.client self) force
              (Interactive._cachedWorkflows self) (Interactive._workflowsCachedAt self)
              (Interactive._workflowCacheTtl self)
              (debug_mode (Interactive.session_config self)) w) as [[r|e] w1];
    reflexivity.
Qed.

Lemma getCachedWorkflows_stores self client force v w :
  Interactive.client self = Some client ->
  getWorkflows_outcome client = Returned v ->
  truthy (opt_prop v "success") = true ->
  InteractiveCore.shouldFetchFromApi force (Interactive._cachedWorkflows self)
    (clock w) (Interactive._workflowsCachedAt self)
    (Interactive._workflowCacheTtl self) = true ->
  Interactive.getCachedWorkflows self force w
  = (Returned (v, Interactive.storeWorkflows self v (clock w)),
     afterFetch client w).
Proof.
  intros Hc Hv Hsucc Hfetch. apply shouldFetchFromApi_orNull in Hfetch.
  unfold Interactive.getCachedWorkflows, InteractiveCore.getWorkflowsCore, afterFetch.
  eff_unfold. rewrite Hc. cbn. rewrite Hfetch. cbn. rewrite Hv. cbn.
  rewrite Hsucc. reflexivity.
Qed.

Lemma getCachedWorkflows_serves self client w :
  Interactive.client self = Some client ->
  Interactive._cachedWorkflows self <> JUndefined ->
  InteractiveCore.shouldFetchFromApi false (Interactive._cachedWorkflows self)
    (clock w) (Interactive._workflowsCachedAt self)
    (Interactive._workflowCacheTtl self) = false ->
  Interactive.getCachedWorkflows self false w
  = (Returned (Interactive._cachedWorkflows self, self), w).
Proof.
  intros Hc Hdef Hno.
  unfold Interactive.getCachedWorkflows, InteractiveCore.getWorkflowsCore.
  eff_unfold. rewrite Hc. cbn. rewrite (orNull_present _ Hdef), Hno. reflexivity.
Qed.

Lemma successful_response_defined (v : JsVal) :
  truthy (opt_prop v "success") = true -> v <> JUndefined.
Proof.
  intros H ->. discriminate.
Qed.

Lemma successful_response_not_null (v : JsVal) :
  truthy (opt_prop v "success") = true -> v <> JNull.
Proof.
  intros H ->. discriminate.
Qed.

(** X14. When [getCachedWorkflows] fetches (forced, cache empty or entry
    expired) and the listing resolves to a response with a truthy
    [success], the response replaces the cached value wholesale and is
    what the caller gets, and the rest of the session (client, lifetime,
    configuration) is as before.  The timestamp becomes the clock reading
    taken before the call was made, not the reading at its completion:
    when the access returns, the clock is ahead of the new timestamp by
    the duration of the call. *)
Theorem X14_successful_fetch_replaces_the_cache :
  forall (self : Interactive.VisionFiCLI) (client : Client) (force : bool)
         (v : JsVal) (w : World),
    Interactive.client self = Some client ->
    getWorkflows_outcome client = Returned v ->
    truthy (opt_prop v "success") = true ->
    InteractiveCore.shouldFetchFromApi force (Interactive._cachedWorkflows self)
      (clock w) (Interactive._workflowsCachedAt self)
      (Interactive._workflowCacheTtl self) = true ->
    exists self' w',
      Interactive.getCachedWorkflows self force w = (Returned (v, self'), w')
      /\ w' = afterFetch client w
      /\ Interactive._cachedWorkflows self' = v
      /\ Interactive._workflowsCachedAt self' = clock w
      /\ clock w' = Interactive._workflowsCachedAt self' + getWorkflows_duration client
      /\ Interactive._workflowCacheTtl self' = Interactive._workflowCacheTtl self
      /\ Interactive.client self' = Interactive.client self
      /\ Interactive.session_config self' = Interactive.session_config self.
Proof.
  intros self client force v w Hc Hv Hsucc Hfetch.
  exists (Interactive.storeWorkflows self v (clock w)), (afterFetch client w).
  split; [now apply getCachedWorkflows_stores with (client := client)|].
  repeat split.
Qed.

Lemma X14_witness :
  exists self' w',
    Interactive.getCachedWorkflows (staleSession sampleClient) true
      (freshWorld (sampleConfig []) 2000)
    = (Returned (sampleWorkflows, self'), w')
    /\ Interactive._workflowsCachedAt self' = 2000
    /\ clock w' = 2250.
Proof.
  destruct (X14_successful_fetch_replaces_the_cache (staleSession sampleClient)
              sampleClient true sampleWorkflows (freshWorld (sampleConfig []) 2000))
    as (self' & w' & Hrun & _ & _ & Hat & Hclock & _);
    [reflexivity | reflexivity | reflexivity | reflexivity |].
  exists self', w'. split; [exact Hrun|]. split; [exact Hat|].
  rewrite Hclock, Hat. reflexivity.
Defined.

(** X15. What a successful fetch has stored is what later accesses get:
    after [getCachedWorkflows] has fetched a response at clock reading [t],
    every access without forced refresh at a reading [t'] with
    [t' - t <= ttl * 1000] returns that response, makes no remote call and
    leaves the session as it is. *)
Theorem X15_cached_value_is_served_within_lifetime :
  forall (self : Interactive.VisionFiCLI) (client : Client) (force : bool)
         (v : JsVal) (w : World),
    Interactive.client self = Some client ->
    getWorkflows_outcome client = Returned v ->
    truthy (opt_prop v "success") = true ->
    InteractiveCore.shouldFetchFromApi force (Interactive._cachedWorkflows self)
      (clock w) (Interactive._workflowsCachedAt self)
      (Interactive._workflowCacheTtl self) = true ->
    exists self' w1,
      Interactive.getCachedWorkflows self force w = (Returned (v, self'), w1)
      /\ forall later,
          later - clock w <= Interactive._workflowCacheTtl self * 1000 ->
          Interactive.getCachedWorkflows self' false (atTime later w1)
          = (Returned (v, self'), atTime later w1).
Proof.
  intros self client force v w Hc Hv Hsucc Hfetch.
  exists (Interactive.storeWorkflows self v (clock w)), (afterFetch client w).
  split; [now apply getCachedWorkflows_stores with (client := client)|].
  intros later Hlater.
  rewrite (getCachedWorkflows_serves (Interactive.storeWorkflows self v (clock w)) client);
    [reflexivity | exact Hc | now apply successful_response_defined |].
  apply not_true_is_false. rewrite shouldFetchFromApi_spec. cbn.
  intros [H|[H|H]]; [discriminate | | lia].
  now apply successful_response_not_null in Hsucc.
Qed.

Lemma X15_witness :
  exists self' w1,
    Interactive.getCachedWorkflows (staleSession sampleClient) true
      (freshWorld (sampleConfig []) 2000) = (Returned (sampleWorkflows, self'), w1)
    /\ Interactive.getCachedWorkflows self' false (atTime 1202000 w1)
       = (Returned (sampleWorkflows, self'), atTime 1202000 w1).
Proof.
  destruct (X15_cached_value_is_served_within_lifetime (staleSession sampleClient)
              sampleClient true sampleWorkflows (freshWorld (sampleConfig []) 2000))
    as (self' & w1 & Hrun & Hlater);
    [reflexivity | reflexivity | reflexivity | reflexivity |].
  exists self', w1. split; [exact Hrun|].
  apply Hlater. simpl. lia.
Defined.

(** X16. A session with a client always goes to the remote API when the
    refresh is forced, when the cache has just been cleared and on the
    first access after construction, whatever the lifetime and the clock:
    each such access makes exactly one [getWorkflows] call. *)
Theorem X16_forced_cleared_and_first_access_fetch :
  forall (self : Interactive.VisionFiCLI) (client : Client) (cfg : CLIConfig)
         (force : bool) (w : World),
    Interactive.client self = Some client ->
    performed (Interactive.getCachedWorkflows self true) w = [GetWorkflows]
    /\ performed (Interactive.getCachedWorkflows
                    (Interactive.clearWorkflowCache self) force) w = [GetWorkflows]
    /\ performed (Interactive.getCachedWorkflows
                    (Interactive.newSession cfg (Some client)) force) w = [GetWorkflows].
Proof.
  intros self client cfg force w Hc.
  rewrite !getCachedWorkflows_performed.
  split; [|split].
  - rewrite Hc. apply getWorkflowsCore_fetches.
    apply shouldFetchFromApi_spec. now left.
  - change (Interactive.client (Interactive.clearWorkflowCache self))
      with (Interactive.client self).
    rewrite Hc. apply getWorkflowsCore_fetches.
    apply shouldFetchFromApi_spec. right. now left.
  - change (Interactive.client (Interactive.newSession cfg (Some client)))
      with (Some client).
    apply getWorkflowsCore_fetches.
    apply shouldFetchFromApi_spec. right. now left.
Qed.

Lemma X16_witness :
  performed (Interactive.getCachedWorkflows
               (Interactive.clearWorkflowCache (staleSession sampleClient)) false)
    (freshWorld (sampleConfig []) 1001) = [GetWorkflows].
Proof.
  refine (proj1 (proj2 (X16_forced_cleared_and_first_access_fetch
                          (staleSession sampleClient) sampleClient (sampleConfig [])
                          false (freshWorld (sampleConfig []) 1001) _))).
  reflexivity.
Defined.

(** X17. An access to the workflow cache never throws, makes at most one
    call (a [getWorkflows]), returns the value the session holds
    afterwards, and changes nothing of the session but the cached value and
    its timestamp.  It keeps the cache well formed (empty, or a response
    with a truthy [success]); on a well-formed session the value returned
    is [null] exactly when the cache was empty and no fetch succeeded. *)
Theorem X17_cache_access_invariants :
  forall (self : Interactive.VisionFiCLI) (force : bool) (w : World),
    exists v self' w',
      Interactive.getCachedWorkflows self force w = (Returned (v, self'), w')
      /\ v = Interactive._cachedWorkflows self'
      /\ (performed (Interactive.getCachedWorkflows self force) w = []
          \/ performed (Interactive.getCachedWorkflows self force) w = [GetWorkflows])
      /\ Interactive.client self' = Interactive.client self
      /\ Interactive._workflowCacheTtl self' = Interactive._workflowCacheTtl self
      /\ Interactive.session_config self' = Interactive.session_config self
      /\ config w' = config w
      /\ (cacheWellFormed self -> cacheWellFormed self')
      /\ (cacheWellFormed self ->
          (v = JNull <->
           Interactive._cachedWorkflows self = JNull
           /\ match Interactive.client self with
              | None => True
              | Some client => fetchFails client
              end)).
Proof.
  intros self force w.
  unfold Interactive.getCachedWorkflows, InteractiveCore.getWorkflowsCore,
    cacheWellFormed, fetchFails.
  eff_unfold.
  destruct (Interactive.client self) as [client|] eqn:Hc; cbn;
    [destruct (InteractiveCore.shouldFetchFromApi force
                 (InteractiveCore.orNull (Interactive._cachedWorkflows self))
                 (clock w) (Interactive._workflowsCachedAt self)
                 (Interactive._workflowCacheTtl self)) eqn:Hfetch; cbn;
     [destruct (getWorkflows_outcome client) as [resp|e] eqn:Hv; cbn;
      [destruct (truthy (opt_prop resp "success")) eqn:Hsucc; cbn|]|]|];
    (eexists; eexists; eexists; split; [reflexivity|]); cbn;
    rewrite ?skipn_length_app, ?skipn_length_self;
    repeat split; auto; intros; try tauto; try congruence;
    try (exfalso; subst; discriminate);
    try match goal with
        | H : _ /\ true = false |- _ => destruct H; discriminate
        end;
    try (exfalso; apply not_true_iff_false in Hfetch; apply Hfetch;
         apply fetch_decision; unfold noEntry; tauto).
Qed.

(** ** The lifetime parser, continued *)

Lemma isWhiteSpace_lowerChar (c : ascii) :
  isWhiteSpace (lowerChar c) = isWhiteSpace c.
Proof.
  split_ascii c; reflexivity.
Qed.

Lemma lowerChar_idempotent (c : ascii) :
  lowerChar (lowerChar c) = lowerChar c.
Proof.
  split_ascii c; reflexivity.
Qed.

Lemma toLowerCase_idempotent (s : string) :
  toLowerCase (toLowerCase s) = toLowerCase s.
Proof.
  induction s as [|c s IH]; simpl; [reflexivity|].
  now rewrite lowerChar_idempotent, IH.
Qed.

Lemma trimStart_toLowerCase (s : string) :
  trimStart (toLowerCase s) = toLowerCase (trimStart s).
Proof.
  induction s as [|c s IH]; simpl; [reflexivity|].
  rewrite isWhiteSpace_lowerChar.
  destruct (isWhiteSpace c); [exact IH | reflexivity].
Qed.

Lemma trimEnd_toLowerCase (s : string) :
  trimEnd (toLowerCase s) = toLowerCase (trimEnd s).
Proof.
  induction s as [|c s IH]; simpl; [reflexivity|].
  rewrite IH, isWhiteSpace_lowerChar.
  destruct (trimEnd s); simpl; [destruct (isWhiteSpace c)|]; reflexivity.
Qed.

Lemma trim_toLowerCase (s : string) :
  trim (toLowerCase s) = toLowerCase (trim s).
Proof.
  unfold trim. now rewrite trimStart_toLowerCase, trimEnd_toLowerCase.
Qed.

Lemma trimStart_startsTrimmed (s : string) : startsTrimmed (trimStart s).
Proof.
  induction s as [|c s IH]; simpl; [exact I|].
  destruct (isWhiteSpace c) eqn:E; [exact IH | exact E].
Qed.

Lemma trimStart_fixed (s : string) : startsTrimmed s -> trimStart s = s.
Proof.
  destruct s as [|c s]; simpl; [reflexivity|]. now intros ->.
Qed.

Lemma trimEnd_startsTrimmed (s : string) :
  startsTrimmed s -> startsTrimmed (trimEnd s).
Proof.
  destruct s as [|c s]; simpl; [auto|]. intros Hc.
  destruct (trimEnd s); simpl; [rewrite Hc; simpl|]; exact Hc.
Qed.

Lemma trimEnd_idempotent (s : string) : trimEnd (trimEnd s) = trimEnd s.
Proof.
  induction s as [|c s IH]; simpl; [reflexivity|].
  destruct (trimEnd s) as [|k ks] eqn:E.
  - destruct (isWhiteSpace c) eqn:Hc; simpl; [reflexivity | now rewrite Hc].
  - change (trimEnd (String c (String k ks)))
      with (match trimEnd (String k ks) with
            | EmptyString => if isWhiteSpace c then EmptyString else String c EmptyString
            | kept => String c kept
            end).
    now rewrite IH.
Qed.

Lemma trim_idempotent (s : string) : trim (trim s) = trim s.
Proof.
  unfold trim.
  rewrite (trimStart_fixed (trimEnd (trimStart s)))
    by (apply trimEnd_startsTrimmed, trimStart_startsTrimmed).
  apply trimEnd_idempotent.
Qed.

Lemma normalize_idempotent (s : string) :
  toLowerCase (trim (toLowerCase (trim s))) = toLowerCase (trim s).
Proof.
  now rewrite trim_toLowerCase, trim_idempotent, toLowerCase_idempotent.
Qed.

(** X18. [parseWorkflowCacheTtlCore] depends on its input only through the
    trimmed, lower-cased text: trimming and lower-casing are idempotent
    and commute, so an input that has already been trimmed, lower-cased,
    or both (as the configuration menu does before it calls the parser)
    gets the same answer as the raw input. *)
Theorem X18_parser_ignores_prior_normalisation :
  forall (input : string),
    InteractiveCore.parseWorkflowCacheTtlCore (toLowerCase (trim input))
    = InteractiveCore.parseWorkflowCacheTtlCore input
    /\ InteractiveCore.parseWorkflowCacheTtlCore (trim input)
       = InteractiveCore.parseWorkflowCacheTtlCore input
    /\ InteractiveCore.parseWorkflowCacheTtlCore (toLowerCase input)
       = InteractiveCore.parseWorkflowCacheTtlCore input
    /\ trim (trim input) = trim input
    /\ toLowerCase (toLowerCase input) = toLowerCase input
    /\ trim (toLowerCase input) = toLowerCase (trim input).
Proof.
  intros input.
  unfold InteractiveCore.parseWorkflowCacheTtlCore.
  split; [now rewrite normalize_idempotent|].
  split; [now rewrite trim_idempotent|].
  split; [now rewrite trim_toLowerCase, toLowerCase_idempotent|].
  split; [apply trim_idempotent|].
  split; [apply toLowerCase_idempotent | apply trim_toLowerCase].
Qed.

Lemma stableString_append (s t : string) :
  stableString (s ++ t) = stableString s && stableString t.
Proof.
  induction s as [|c s IH]; simpl; [reflexivity|].
  now rewrite IH, andb_assoc.
Qed.

Lemma stableString_normalized (s : string) :
  stableString s = true -> toLowerCase (trim s) = s.
Proof.
  intros H.
  assert (Hlow : toLowerCase s = s).
  { induction s as [|c s IH]; simpl in *; [reflexivity|].
    apply andb_true_iff in H. destruct H as [Hc Hs].
    unfold stableChar in Hc. apply andb_true_iff in Hc. destruct Hc as [_ Hc].
    apply Ascii.eqb_eq in Hc. now rewrite Hc, IH. }
  assert (Hend : trimEnd s = s).
  { clear Hlow. induction s as [|c s IH]; simpl in *; [reflexivity|].
    apply andb_true_iff in H. destruct H as [Hc Hs].
    unfold stableChar in Hc. apply andb_true_iff in Hc. destruct Hc as [Hc _].
    apply negb_true_iff in Hc. rewrite (IH Hs), Hc.
    destruct s; reflexivity. }
  assert (Hstart : trimStart s = s).
  { destruct s as [|c s]; simpl in *; [reflexivity|].
    apply andb_true_iff in H. destruct H as [Hc _].
    unfold stableChar in Hc. apply andb_true_iff in Hc. destruct Hc as [Hc _].
    apply negb_true_iff in Hc. now rewrite Hc. }
  unfold trim. now rewrite Hstart, Hend, Hlow.
Qed.

Lemma stableString_digitsOf (u : Decimal.uint) : stableString (digitsOf u) = true.
Proof.
  unfold digitsOf. induction u; simpl; auto.
Qed.

Lemma numeralOf_nonnil (n : Z) : numeralOf n <> Decimal.Nil.
Proof.
  destruct n; simpl; [discriminate | |]; apply DecimalPos.Unsigned.to_uint_nonnil.
Qed.

Lemma numeralOf_value (n : Z) : Z.of_uint (numeralOf n) = Z.abs n.
Proof.
  destruct n; simpl; [reflexivity | |];
    unfold Z.of_uint; now rewrite DecimalPos.Unsigned.of_to.
Qed.

Lemma show_nonneg (n : Z) :
  0 <= n <= MAX_SAFE_INTEGER -> show (Num n) = digitsOf (numeralOf n).
Proof.
  destruct n; simpl; [reflexivity | reflexivity | lia].
Qed.

Lemma show_negative (n : Z) :
  - MAX_SAFE_INTEGER <= n < 0 -> show (Num n) = "-" ++ digitsOf (numeralOf n).
Proof.
  destruct n; simpl; [lia | lia | reflexivity].
Qed.

(** A safe number written out in decimal and followed by a unit letter,
    or by nothing, is read back as that number in that unit. *)
Lemma parse_shown_number (n : Z) (suffix : string) :
  0 <= n ->
  n * unitOf suffix <= MAX_SAFE_INTEGER ->
  In suffix ["s"; "m"; "h"; ""] ->
  InteractiveCore.parseWorkflowCacheTtlCore (show (Num n) ++ suffix)
  = accepted (n * unitOf suffix).
Proof.
  intros Hn Hsafe Hin.
  assert (Hu : n <= MAX_SAFE_INTEGER).
  { pose proof (unitOf_pos suffix). nia. }
  rewrite show_nonneg by lia.
  rewrite (parse_numeral_then _ (numeralOf n) suffix).
  - now rewrite numeralOf_value, Z.abs_eq.
  - apply numeralOf_nonnil.
  - apply stableString_normalized.
    rewrite stableString_append, stableString_digitsOf.
    cbn in Hin. destruct Hin as [<-|[<-|[<-|[<-|[]]]]]; reflexivity.
  - cbn in Hin. destruct Hin as [<-|[<-|[<-|[<-|[]]]]]; reflexivity.
  - cbn in Hin. destruct Hin as [<-|[<-|[<-|[<-|[]]]]]; reflexivity.
  - now rewrite numeralOf_value, Z.abs_eq.
Qed.

(** X19. Parsing and formatting agree on whole units: for a number [n]
    written in decimal, "ns" with [n < 60] is parsed as [n] seconds and
    shown as "n seconds"; "nm" with [1 <= n < 60] is parsed as [60 n]
    seconds and shown as "n minute" or "n minutes"; "nh" with [1 <= n],
    as long as [3600 n] is a safe integer, is parsed as [3600 n] seconds
    and shown as "n hour" or "n hours"; the singular is used exactly for
    [n = 1]. *)
Theorem X19_parse_then_format_on_whole_units :
  forall (n : Z),
    0 <= n ->
    n * 3600 <= MAX_SAFE_INTEGER ->
    (n < 60 ->
     InteractiveCore.parseWorkflowCacheTtlCore (show (Num n) ++ "s") = accepted n
     /\ InteractiveCore.message (InteractiveCore.formatCacheTtlCore (Num n))
        = show (Num n) ++ " seconds")
    /\ (1 <= n < 60 ->
        InteractiveCore.parseWorkflowCacheTtlCore (show (Num n) ++ "m")
        = accepted (n * 60)
        /\ InteractiveCore.message (InteractiveCore.formatCacheTtlCore (Num (n * 60)))
           = show (Num n) ++ " minute" ++ plural n)
    /\ (1 <= n ->
        InteractiveCore.parseWorkflowCacheTtlCore (show (Num n) ++ "h")
        = accepted (n * 3600)
        /\ InteractiveCore.message (InteractiveCore.formatCacheTtlCore (Num (n * 3600)))
           = show (Num n) ++ " hour" ++ plural n).
Proof.
  intros n Hn Hsafe.
  assert (Hunit : forall suffix, In suffix ["s"; "m"; "h"; ""] ->
                                 n * unitOf suffix <= MAX_SAFE_INTEGER).
  { intros suffix Hin. cbn in Hin.
    destruct Hin as [<-|[<-|[<-|[<-|[]]]]]; unfold unitOf; cbn; lia. }
  split; [|split]; intros Hrange; split.
  - rewrite (parse_shown_number n "s" Hn (Hunit "s" ltac:(simpl; tauto)))
      by (simpl; tauto).
    unfold unitOf. cbn. now rewrite Z.mul_1_r.
  - unfold InteractiveCore.formatCacheTtlCore. cbn [InteractiveCore.message lt].
    replace (n <? 60) with true by (symmetry; apply Z.ltb_lt; lia).
    reflexivity.
  - now rewrite (parse_shown_number n "m" Hn (Hunit "m" ltac:(simpl; tauto)))
      by (simpl; tauto).
  - unfold InteractiveCore.formatCacheTtlCore, plural.
    cbn [InteractiveCore.message lt floor_div neq1].
    replace (n * 60 <? 60) with false by (symmetry; apply Z.ltb_ge; lia).
    replace (n * 60 <? 3600) with true by (symmetry; apply Z.ltb_lt; lia).
    rewrite Z.div_mul by lia.
    destruct (n =? 1); reflexivity.
  - now rewrite (parse_shown_number n "h" Hn (Hunit "h" ltac:(simpl; tauto)))
      by (simpl; tauto).
  - unfold InteractiveCore.formatCacheTtlCore, plural.
    cbn [InteractiveCore.message lt floor_div neq1].
    replace (n * 3600 <? 60) with false by (symmetry; apply Z.ltb_ge; lia).
    replace (n * 3600 <? 3600) with false by (symmetry; apply Z.ltb_ge; lia).
    rewrite Z.div_mul by lia.
    destruct (n =? 1); reflexivity.
Qed.

Lemma X19_witness :
  InteractiveCore.parseWorkflowCacheTtlCore "45m" = accepted 2700
  /\ InteractiveCore.message (InteractiveCore.formatCacheTtlCore (Num 2700))
     = "45 minutes".
Proof.
  refine (proj1 (proj2 (X19_parse_then_format_on_whole_units 45 _ _)) _);
    [discriminate | discriminate | split; [discriminate | reflexivity]].
Defined.

Lemma parse_shown_negative (n : Z) :
  - MAX_SAFE_INTEGER <= n < 0 ->
  InteractiveCore.parseWorkflowCacheTtlCore (show (Num n)) = invalidTtl.
Proof.
  intros Hn.
  rewrite show_negative by assumption.
  apply (parse_negative_numeral _ (numeralOf n) "").
  - rewrite numeralOf_value. lia.
  - rewrite append_empty_r. apply stableString_normalized.
    change ("-" ++ digitsOf (numeralOf n))
      with (String "-" (digitsOf (numeralOf n))).
    cbn [stableString]. rewrite stableString_digitsOf.
    reflexivity.
  - reflexivity.
  - reflexivity.
Qed.

(** X20. [setWorkflowCacheTtl] takes a number through its decimal text
    and the parser and, for a safe integer, gets the same number back: for
    every safe integer [n >= 0] (and a configuration that can be saved)
    it answers [true], stores [n] as the lifetime of the session and of
    its configuration, and saves that configuration once; the cached
    workflows and their timestamp stay, so the entry is judged against
    the new lifetime from then on.  For every negative safe integer, and
    for [NaN], it answers [false], saves nothing and leaves the session
    as it was. *)
Theorem X20_set_lifetime_round_trip :
  forall (self : Interactive.VisionFiCLI) (deps : Dependencies) (n : Z) (w : World),
    isSafeInteger n ->
    (0 <= n ->
     saveConfig_outcome deps
       (with_workflow_cache_ttl n (Interactive.session_config self)) = Returned tt ->
     exists self',
       Interactive.setWorkflowCacheTtl self deps (Num n) w
       = (Returned (true, self'),
          afterCall (SaveConfig (with_workflow_cache_ttl n
                                   (Interactive.session_config self))) w)
       /\ Interactive._workflowCacheTtl self' = n
       /\ Interactive.session_config self'
          = with_workflow_cache_ttl n (Interactive.session_config self)
       /\ Interactive._cachedWorkflows self' = Interactive._cachedWorkflows self
       /\ Interactive._workflowsCachedAt self' = Interactive._workflowsCachedAt self
       /\ Interactive.client self' = Interactive.client self)
    /\ (n < 0 ->
        Interactive.setWorkflowCacheTtl self deps (Num n) w = (Returned (false, self), w))
    /\ Interactive.setWorkflowCacheTtl self deps NaN w = (Returned (false, self), w).
Proof.
  intros self deps n w [Hlow Hhigh].
  split; [|split].
  - intros Hn Hsave.
    unfold Interactive.setWorkflowCacheTtl.
    assert (Hsafe : n * unitOf "" <= MAX_SAFE_INTEGER)
      by (unfold unitOf; cbn; lia).
    pose proof (parse_shown_number n "" Hn Hsafe) as Hparse.
    rewrite append_empty_r in Hparse.
    rewrite Hparse by (simpl; tauto).
    unfold unitOf. cbn [lastChar]. rewrite Z.mul_1_r.
    unfold accepted, afterCall. eff_unfold. cbn. rewrite Hsave. cbn.
    eexists. split; [reflexivity|]. repeat split.
  - intros Hn.
    unfold Interactive.setWorkflowCacheTtl.
    rewrite parse_shown_negative by lia. reflexivity.
  - reflexivity.
Qed.

Lemma X20_witness :
  exists self',
    Interactive.setWorkflowCacheTtl (staleSession sampleClient)
      (sampleDeps sampleClient) (Num 90) (freshWorld (sampleConfig []) 0)
    = (Returned (true, self'),
       afterCall (SaveConfig (with_workflow_cache_ttl 90 (sampleConfig [])))
         (freshWorld (sampleConfig []) 0))
    /\ Interactive._workflowCacheTtl self' = 90.
Proof.
  destruct (proj1 (X20_set_lifetime_round_trip (staleSession sampleClient)
                     (sampleDeps sampleClient) 90 (freshWorld (sampleConfig []) 0)
                     ltac:(split; discriminate)))
    as (self' & Hrun & Httl & _); [discriminate | reflexivity |].
  exists self'. split; [exact Hrun | exact Httl].
Defined.

(** ** Setting up a service account *)

Lemma trimmed_nonempty (s : string) : s <> "" -> (s =? "")%string = false.
Proof. intros H. apply String.eqb_neq. exact H. Qed.

Ltac setup_leaf :=
  intros;
  try discriminate; try contradiction; try reflexivity; try assumption;
  try (match goal with
       | H : _ \/ _ |- _ => destruct H as [H|[? H]]; congruence
       end);
  try congruence;
  try (unfold performed; cbn; apply skipn_length_self);
  try journal_done.

Section SetupRuns.

Import InteractiveSetup.

Variable env : Environment.
Variable deps : Dependencies.
Variable cfg : CLIConfig.

(** X21. [setupServiceAccountWithPathCore] on a path that is not blank,
    names an existing file once trimmed and tilde-expanded, and for which
    the client factory and [saveConfig] both return: the result is a
    success with exit code 0 that carries the new client and the new
    configuration; exactly two calls are made, the creation of the client
    for the expanded path and one save of the new configuration; and the
    new configuration differs from the old one in [service_account_path]
    only, which is the expanded path. *)
Theorem X21_setup_with_path_configures (input : string) (c : Client) (w : World) :
  trim input <> "" ->
  existsSync deps (expandedPath env input) = true ->
  clientFactory_outcome deps (expandedPath env input) (api_endpoint cfg) = Returned c ->
  saveConfig_outcome deps (with_service_account_path (expandedPath env input) cfg)
  = Returned tt ->
  let run := setupServiceAccountWithPathCore env input cfg deps in
  let updated := with_service_account_path (expandedPath env input) cfg in
  fst (run w)
  = Returned {| success := true;
                message := "Service account configured successfully";
                exitCode := 0;
                data := Some {| setup_client := Some c; setup_config := updated |};
                error := NoError |}
  /\ performed run w
     = [CreateClient (expandedPath env input) (api_endpoint cfg); SaveConfig updated]
  /\ service_account_path updated = expandedPath env input
  /\ api_endpoint updated = api_endpoint cfg
  /\ recent_uuids updated = recent_uuids cfg
  /\ debug_mode updated = debug_mode cfg
  /\ test_mode updated = test_mode cfg
  /\ workflow_cache_ttl updated = workflow_cache_ttl cfg.
Proof.
  intros Hne Hex Hc Hs. cbv zeta.
  unfold setupServiceAccountWithPathCore, InteractiveCore.initializeClientCore.
  fold (expandedPath env input).
  rewrite (trimmed_nonempty _ Hne), Hex. cbn [negb].
  eff_unfold. rewrite Hc. cbn. rewrite Hs. cbn.
  repeat split. journal_done.
Qed.

(** X22. How [setupServiceAccountWithPathCore] fails.  A blank path is
    refused with "Service account path is empty" and a path whose
    expansion names no file with "File not found: " and the expanded
    path, both with exit code 1 and without any call.  When the client
    factory throws, the failure of [initializeClientCore] is returned
    ("Failed to initialize client: " and the error's message, exit code
    1, no data) and nothing is saved.  When [saveConfig] throws, the core
    returns no record at all: the error of [saveConfig] leaves the core,
    after the client has been created. *)
Theorem X22_setup_with_path_failures (input : string) (w : World) :
  let run := setupServiceAccountWithPathCore env input cfg deps in
  let path := expandedPath env input in
  (trim input = "" ->
     fst (run w) = Returned {| success := false;
                               message := "Service account path is empty";
                               exitCode := 1; data := None; error := NoError |}
     /\ performed run w = [])
  /\ (trim input <> "" -> existsSync deps path = false ->
        fst (run w) = Returned {| success := false;
                                  message := "File not found: " ++ path;
                                  exitCode := 1; data := None; error := NoError |}
        /\ performed run w = [])
  /\ (forall e, trim input <> "" -> existsSync deps path = true ->
        clientFactory_outcome deps path (api_endpoint cfg) = Thrown e ->
        fst (run w) = Returned {| success := false;
                                  message := "Failed to initialize client: "
                                             ++ err_message e;
                                  exitCode := 1; data := None; error := Caught e |}
        /\ performed run w = [CreateClient path (api_endpoint cfg)])
  /\ (forall c e, trim input <> "" -> existsSync deps path = true ->
        clientFactory_outcome deps path (api_endpoint cfg) = Returned c ->
        saveConfig_outcome deps (with_service_account_path path cfg) = Thrown e ->
        fst (run w) = Thrown e
        /\ performed run w
           = [CreateClient path (api_endpoint cfg);
              SaveConfig (with_service_account_path path cfg)]).
Proof.
  cbv zeta.
  unfold setupServiceAccountWithPathCore, InteractiveCore.initializeClientCore.
  fold (expandedPath env input).
  repeat split.
  - rewrite H. reflexivity.
  - rewrite H. unfold performed. cbn. apply skipn_length_self.
  - rewrite (trimmed_nonempty _ H), H0. reflexivity.
  - rewrite (trimmed_nonempty _ H), H0. unfold performed. cbn.
    apply skipn_length_self.
  - rewrite (trimmed_nonempty _ H), H0. cbn [negb]. eff_unfold.
    rewrite H1. reflexivity.
  - rewrite (trimmed_nonempty _ H), H0. cbn [negb]. eff_unfold.
    rewrite H1. journal_done.
  - rewrite (trimmed_nonempty _ H), H0. cbn [negb]. eff_unfold.
    rewrite H1. cbn. rewrite H2. reflexivity.
  - rewrite (trimmed_nonempty _ H), H0. cbn [negb]. eff_unfold.
    rewrite H1. cbn. rewrite H2. journal_done.
Qed.

(** X23. [setupDefaultServiceAccountCore] always returns a record, and
    the record is coherent (success exactly with exit code 0).  A success
    means that the source path is not blank and names an existing file,
    that the key directory was made and the file copied, and that the
    client factory and [saveConfig] returned; the client is then created
    for the default key path, not for the source path, the saved
    configuration has the default key path as its service account, and
    client creation and one save are the only calls.  A failure has exit
    code 1 and no data.  An error thrown by [mkdirSync], [copyFileSync]
    or [saveConfig] is returned as "Failed to setup default service
    account: " followed by its message; before the key directory is made
    and the file copied no call is made. *)
Theorem X23_default_setup_outcomes (input : string) (w : World) :
  let run := setupDefaultServiceAccountCore env input cfg deps in
  let key := defaultKeyPath env in
  let updated := with_service_account_path key cfg in
  exists r,
    fst (run w) = Returned r
    /\ exit_coherent r
    /\ (success r = true ->
          trim input <> ""
          /\ existsSync deps (expandedPath env input) = true
          /\ mkdirSync_outcome env (dirname env key) = Returned tt
          /\ copyFileSync_outcome env (expandedPath env input) key = Returned tt
          /\ saveConfig_outcome deps updated = Returned tt
          /\ (exists c, clientFactory_outcome deps key (api_endpoint cfg) = Returned c
                        /\ data r = Some {| setup_client := Some c;
                                            setup_config := updated |})
          /\ performed run w = [CreateClient key (api_endpoint cfg); SaveConfig updated])
    /\ (success r = false -> exitCode r = 1 /\ data r = None)
    /\ (forall e, trim input <> "" -> existsSync deps (expandedPath env input) = true ->
          mkdirSync_outcome env (dirname env key) = Thrown e
          \/ (mkdirSync_outcome env (dirname env key) = Returned tt
              /\ copyFileSync_outcome env (expandedPath env input) key = Thrown e) ->
          message r = "Failed to setup default service account: " ++ err_message e
          /\ success r = false
          /\ performed run w = [])
    /\ (forall c e, trim input <> "" -> existsSync deps (expandedPath env input) = true ->
          mkdirSync_outcome env (dirname env key) = Returned tt ->
          copyFileSync_outcome env (expandedPath env input) key = Returned tt ->
          clientFactory_outcome deps key (api_endpoint cfg) = Returned c ->
          saveConfig_outcome deps updated = Thrown e ->
          message r = "Failed to setup default service account: " ++ err_message e
          /\ success r = false
          /\ performed run w = [CreateClient key (api_endpoint cfg); SaveConfig updated]).
Proof.
  cbv zeta.
  unfold setupDefaultServiceAccountCore, InteractiveCore.initializeClientCore.
  fold (expandedPath env input).
  destruct (trim input =? "")%string eqn:Ht.
  { apply String.eqb_eq in Ht.
    eexists; split; [reflexivity|]. unfold exit_coherent. cbn.
    repeat split; setup_leaf. }
  apply String.eqb_neq in Ht.
  destruct (existsSync deps (expandedPath env input)) eqn:Hex; cbn [negb].
  2: { eexists; split; [reflexivity|]. unfold exit_coherent. cbn.
       repeat split; setup_leaf. }
  eff_unfold.
  destruct (mkdirSync_outcome env (dirname env (defaultKeyPath env))) as [[]|e1] eqn:Hmk.
  2: { eexists; split; [reflexivity|]. unfold exit_coherent. cbn.
       repeat split; setup_leaf. }
  destruct (copyFileSync_outcome env (expandedPath env input) (defaultKeyPath env))
    as [[]|e2] eqn:Hcp.
  2: { eexists; split; [reflexivity|]. unfold exit_coherent. cbn.
       repeat split; setup_leaf. }
  cbn.
  destruct (clientFactory_outcome deps (defaultKeyPath env) (api_endpoint cfg))
    as [c|e3] eqn:Hcf; cbn.
  2: { eexists; split; [reflexivity|]. unfold exit_coherent. cbn.
       repeat split; setup_leaf. }
  destruct (saveConfig_outcome deps
              (with_service_account_path (defaultKeyPath env) cfg)) as [[]|e4] eqn:Hsv;
    cbn.
  - eexists; split; [reflexivity|]. unfold exit_coherent. cbn.
    repeat split; setup_leaf.
    exists c. split; reflexivity.
  - eexists; split; [reflexivity|]. unfold exit_coherent. cbn.
    repeat split; setup_leaf.
Qed.

End SetupRuns.

Lemma X21_witness :
  fst (InteractiveSetup.setupServiceAccountWithPathCore sampleEnv
         "  ~/keys/sa.json " DEFAULT_CONFIG (sampleDeps sampleClient)
         (freshWorld DEFAULT_CONFIG 0))
  = Returned
      {| InteractiveSetup.success := true;
         InteractiveSetup.message := "Service account configured successfully";
         InteractiveSetup.exitCode := 0;
         InteractiveSetup.data :=
           Some {| InteractiveSetup.setup_client := Some sampleClient;
                   InteractiveSetup.setup_config :=
                     with_service_account_path "/home/ada/keys/sa.json"
                       DEFAULT_CONFIG |};
         InteractiveSetup.error := NoError |}.
Proof.
  refine (proj1 (X21_setup_with_path_configures sampleEnv (sampleDeps sampleClient)
                   DEFAULT_CONFIG "  ~/keys/sa.json " sampleClient
                   (freshWorld DEFAULT_CONFIG 0) _ _ _ _));
    [discriminate | reflexivity | reflexivity | reflexivity].
Defined.

(** ** Expansion of the home directory *)

Lemma string_append_assoc (a b c : string) : (a ++ b) ++ c = a ++ b ++ c.
Proof. induction a as [|x a IH]; cbn; [reflexivity | rewrite IH; reflexivity]. Qed.

Lemma getSubstitution_plain_head matched before after (c : ascii) (r : string) :
  Ascii.eqb c "$" = false ->
  getSubstitution matched before after (String c r)
  = String c (getSubstitution matched before after r).
Proof.
  intros Hc. split_ascii c; try discriminate Hc; reflexivity.
Qed.

Lemma getSubstitution_append matched before after (h r : string) :
  noDollar h = true ->
  getSubstitution matched before after (h ++ r)
  = h ++ getSubstitution matched before after r.
Proof.
  induction h as [|c h IH]; intros H; [reflexivity|].
  cbn [noDollar] in H. apply andb_prop in H. destruct H as [Hc Hh].
  apply negb_true_iff in Hc.
  change (String c h ++ r) with (String c (h ++ r)).
  rewrite (getSubstitution_plain_head _ _ _ _ _ Hc), (IH Hh). reflexivity.
Qed.

Lemma getSubstitution_noDollar matched before after (r : string) :
  noDollar r = true -> getSubstitution matched before after r = r.
Proof.
  intros H. rewrite <- (append_empty_r r) at 1.
  rewrite (getSubstitution_append _ _ _ _ _ H). cbn. apply append_empty_r.
Qed.

(** X24. The expansion [path.replace(/^~/, os.homedir())] of the set-up
    cores.  The empty path and a path that does not start with a tilde
    are left as they are.  For a path that starts with a tilde and a home
    directory without a dollar sign, the tilde, and only this first
    character, is replaced by the home directory.  A home directory with
    a dollar sign is not inserted as it is: [replace] reads [$$] as one
    dollar sign, [$&] as the tilde it matched, [$'] as the rest of the
    path and [$`] as the empty text before the tilde. *)
Theorem X24_home_directory_expansion (home rest : string) :
  replaceLeadingTilde "" home = ""
  /\ (forall c s, Ascii.eqb c "~" = false ->
        replaceLeadingTilde (String c s) home = String c s)
  /\ (noDollar home = true ->
        replaceLeadingTilde (String "~" rest) home = home ++ rest)
  /\ (forall h1 h2, noDollar h1 = true -> noDollar h2 = true ->
        replaceLeadingTilde (String "~" rest) (h1 ++ "$$" ++ h2)
        = h1 ++ "$" ++ h2 ++ rest
        /\ replaceLeadingTilde (String "~" rest) (h1 ++ "$&" ++ h2)
           = h1 ++ "~" ++ h2 ++ rest
        /\ replaceLeadingTilde (String "~" rest) (h1 ++ "$'" ++ h2)
           = h1 ++ rest ++ h2 ++ rest
        /\ replaceLeadingTilde (String "~" rest) (h1 ++ "$`" ++ h2)
           = h1 ++ h2 ++ rest).
Proof.
  split; [reflexivity|]. split; [|split].
  - intros c s Hc. split_ascii c; try discriminate Hc; reflexivity.
  - intros H. unfold replaceLeadingTilde.
    rewrite (getSubstitution_noDollar _ _ _ _ H). reflexivity.
  - intros h1 h2 H1 H2. unfold replaceLeadingTilde.
    rewrite !(getSubstitution_append _ _ _ _ _ H1).
    cbn [getSubstitution append].
    rewrite !(getSubstitution_noDollar _ _ _ _ H2).
    rewrite !string_append_assoc. cbn [append].
    repeat split; reflexivity.
Qed.

(** ** Updating one setting *)

Section ConfigUpdates.

Import InteractiveSetup.

Variable deps : Dependencies.

(** X25. [updateConfigCore] always returns a record and always makes
    exactly one call, the save of the configuration in which the entry
    has been set.  The record is a success (exit code 0, message
    "Configuration updated: " and the key, the entry and the new
    configuration as data) exactly when that save returns; when the save
    throws, the record is a failure with exit code 1, the message "Failed
    to update configuration: " followed by the error's message, and no
    data. *)
Theorem X25_update_config_outcomes (cfg : CLIConfig) (entry : ConfigEntry) (w : World) :
  let run := updateConfigCore cfg entry deps in
  let updated := withEntry entry cfg in
  exists r,
    fst (run w) = Returned r
    /\ performed run w = [SaveConfig updated]
    /\ exit_coherent r
    /\ (success r = true <-> saveConfig_outcome deps updated = Returned tt)
    /\ (success r = true ->
          message r = "Configuration updated: " ++ keyOf entry
          /\ data r = Some {| update_entry := entry; update_config := updated |})
    /\ (forall e, saveConfig_outcome deps updated = Thrown e ->
          message r = "Failed to update configuration: " ++ err_message e
          /\ exitCode r = 1
          /\ data r = None
          /\ error r = Caught e).
Proof.
  cbv zeta. unfold updateConfigCore. eff_unfold. cbn.
  destruct (saveConfig_outcome deps (withEntry entry cfg)) as [[]|e0] eqn:Hs; cbn;
    (eexists; split; [reflexivity|]); unfold exit_coherent; cbn;
    repeat split; setup_leaf.
Qed.

(** X26. Two updates in a row, the second on the configuration the first
    one returned, both successful.  The configuration returned last has
    the second entry's value under the second key; under the first key it
    has the first entry's value when the keys differ, and the order of
    the two updates is then immaterial; when the keys are the same, the
    first update leaves no trace.  Every setting the two entries do not
    name is as in the configuration the first update started from. *)
Theorem X26_successive_updates (cfg : CLIConfig) (e1 e2 : ConfigEntry)
    (r1 r2 : ResultOf UpdateData) (d1 d2 : UpdateData) (w1 w2 : World) :
  fst (updateConfigCore cfg e1 deps w1) = Returned r1 ->
  data r1 = Some d1 ->
  fst (updateConfigCore (update_config d1) e2 deps w2) = Returned r2 ->
  data r2 = Some d2 ->
  update_config d2 = withEntry e2 (withEntry e1 cfg)
  /\ withEntry e2 (update_config d2) = update_config d2
  /\ (keyOf e1 <> keyOf e2 ->
        withEntry e1 (update_config d2) = update_config d2
        /\ update_config d2 = withEntry e1 (withEntry e2 cfg))
  /\ (keyOf e1 = keyOf e2 -> update_config d2 = withEntry e2 cfg)
  /\ (keyOf e1 <> "service_account_path" -> keyOf e2 <> "service_account_path" ->
        service_account_path (update_config d2) = service_account_path cfg)
  /\ (keyOf e1 <> "api_endpoint" -> keyOf e2 <> "api_endpoint" ->
        api_endpoint (update_config d2) = api_endpoint cfg)
  /\ (keyOf e1 <> "recent_uuids" -> keyOf e2 <> "recent_uuids" ->
        recent_uuids (update_config d2) = recent_uuids cfg)
  /\ (keyOf e1 <> "debug_mode" -> keyOf e2 <> "debug_mode" ->
        debug_mode (update_config d2) = debug_mode cfg)
  /\ (keyOf e1 <> "test_mode" -> keyOf e2 <> "test_mode" ->
        test_mode (update_config d2) = test_mode cfg)
  /\ (keyOf e1 <> "workflow_cache_ttl" -> keyOf e2 <> "workflow_cache_ttl" ->
        workflow_cache_ttl (update_config d2) = workflow_cache_ttl cfg).
Proof.
  intros H1 D1 H2 D2.
  assert (E1 : update_config d1 = withEntry e1 cfg).
  { revert H1. unfold updateConfigCore. eff_unfold. cbn.
    destruct (saveConfig_outcome deps (withEntry e1 cfg)) as [[]|?]; cbn;
      intros H; injection H as <-; cbn in D1; [|discriminate].
    injection D1 as <-. reflexivity. }
  assert (E2 : update_config d2 = withEntry e2 (update_config d1)).
  { revert H2. unfold updateConfigCore. eff_unfold. cbn.
    destruct (saveConfig_outcome deps (withEntry e2 (update_config d1))) as [[]|?]; cbn;
      intros H; injection H as <-; cbn in D2; [|discriminate].
    injection D2 as <-. reflexivity. }
  rewrite E2, E1. clear.
  destruct e1, e2; cbn; repeat split; intros;
    try reflexivity; try discriminate; try congruence.
Qed.

End ConfigUpdates.

Lemma X26_witness :
  InteractiveSetup.update_config
    {| InteractiveSetup.update_entry := InteractiveSetup.RecentUuids [];
       InteractiveSetup.update_config :=
         InteractiveSetup.withEntry (InteractiveSetup.RecentUuids [])
           (InteractiveSetup.withEntry (InteractiveSetup.DebugMode true)
              (sampleConfig ["job-1"])) |}
  = InteractiveSetup.withEntry (InteractiveSetup.RecentUuids [])
      (InteractiveSetup.withEntry (InteractiveSetup.DebugMode true)
         (sampleConfig ["job-1"])).
Proof.
  refine (proj1 (X26_successive_updates (sampleDeps sampleClient)
                   (sampleConfig ["job-1"])
                   (InteractiveSetup.DebugMode true) (InteractiveSetup.RecentUuids [])
                   _ _
                   {| InteractiveSetup.update_entry := InteractiveSetup.DebugMode true;
                      InteractiveSetup.update_config :=
                        InteractiveSetup.withEntry (InteractiveSetup.DebugMode true)
                          (sampleConfig ["job-1"]) |}
                   _ (freshWorld (sampleConfig ["job-1"]) 0)
                   (freshWorld (sampleConfig ["job-1"]) 0) _ _ _ _));
    reflexivity.
Defined.

(** ** The command line *)

Section CommandLine.

Import Cli.

Variable deps : Dependencies.

Lemma loadConfig_returns (w : World) :
  loadReturns deps ->
  Config.loadConfig deps w = (Returned (loadedConfig deps), afterLoading deps w).
Proof.
  unfold loadReturns, Config.loadConfig, loadedConfig, afterLoading, firstRunCalls.
  eff_unfold.
  destruct (configFile deps); intros H; cbn;
    [rewrite (H eq_refl); reflexivity | |];
    rewrite app_nil_r; destruct w; reflexivity.
Qed.

Lemma loadConfig_throws (w : World) (e : JsError) :
  configFile deps = NoConfigFile ->
  saveConfig_outcome deps DEFAULT_CONFIG = Thrown e ->
  Config.loadConfig deps w = (Thrown e, afterLoading deps w).
Proof.
  unfold Config.loadConfig, afterLoading, firstRunCalls. eff_unfold.
  intros -> H. cbn. rewrite H. reflexivity.
Qed.

(** X27. How the actions of [cli.ts] leave the process.  Each of [auth
    verify], [analyze] and [results] loads the configuration and runs its
    core on it; it then returns when the core reported a success, and
    calls [process.exit(1)] when it reported a failure; no other exit code
    occurs.  When there is no configuration file and the defaults cannot
    be written, the error of [loadConfig] is caught by the action, which
    calls [process.exit(1)] without running its core.  Of the calls the
    journal keeps, an action makes those of [loadConfig] (the save of the
    defaults on a first run) and those of its core, and no other; in
    particular the [analyze] action never saves a job: a job submitted
    through it is not entered in [recent_uuids]. *)
Theorem X27_command_line_endings (filePath uuid : string)
    (analyzeOptions : Analyze.AnalyzeOptions)
    (resultsOptions : Results.ResultsOptions) (w : World) :
  (forall e,
      configFile deps = NoConfigFile ->
      saveConfig_outcome deps DEFAULT_CONFIG = Thrown e ->
      authVerifyAction deps w = (Returned (Exited 1), afterLoading deps w)
      /\ analyzeAction filePath analyzeOptions deps w
         = (Returned (Exited 1), afterLoading deps w)
      /\ resultsAction uuid resultsOptions deps w
         = (Returned (Exited 1), afterLoading deps w))
  /\ (loadReturns deps ->
      (exists r w1,
          Auth.authenticateWithApi (loadedConfig deps) deps (afterLoading deps w)
          = (Returned r, w1)
          /\ authVerifyAction deps w
             = (Returned (if Auth.success r then Returns else Exited 1), w1))
      /\ (exists r w1,
             Analyze.analyzeDocumentCore filePath analyzeOptions (loadedConfig deps)
               deps (afterLoading deps w) = (Returned r, w1)
             /\ analyzeAction filePath analyzeOptions deps w
                = (Returned (if Analyze.success r then Returns else Exited 1), w1)
             /\ filter isSaveConfig
                  (performed (analyzeAction filePath analyzeOptions deps) w)
                = firstRunCalls deps)
      /\ (exists r w1,
             Results.getResultsCore uuid resultsOptions deps
               (holdingConfig (loadedConfig deps) (afterLoading deps w))
             = (Returned r, w1)
             /\ resultsAction uuid resultsOptions deps w
                = (Returned (if Results.success r then Returns else Exited 1), w1))).
Proof.
  split.
  - intros e Hfile Hsave.
    unfold authVerifyAction, analyzeAction, resultsAction.
    unfold try_catch, bind.
    rewrite !(loadConfig_throws w e Hfile Hsave). repeat split.
  - intros Hload. split; [|split].
    + unfold authVerifyAction. unfold try_catch, bind at 1.
      rewrite (loadConfig_returns w Hload).
      unfold handleCommandResult, Auth.authenticateWithApi. eff_unfold.
      run_all; (eexists; eexists; split; reflexivity).
    + unfold analyzeAction, performed. unfold try_catch at 1 2, bind at 1 3.
      rewrite !(loadConfig_returns w Hload).
      unfold handleCommandResult, Analyze.analyzeDocumentCore, Analyze.submit,
        afterLoading.
      eff_unfold.
      run_all; (eexists; eexists; split; [reflexivity|]); cbn;
        (split; [reflexivity|]);
        repeat rewrite <- app_assoc;
        rewrite ?skipn_length_app; rewrite ?filter_app; cbn;
        rewrite ?app_nil_r;
        unfold firstRunCalls; destruct (configFile deps); reflexivity.
    + unfold resultsAction. unfold try_catch at 1, bind at 1.
      rewrite (loadConfig_returns w Hload).
      unfold handleCommandResult, Results.getResultsCore, Results.fetch,
        Results.interpret, holdingConfig, afterLoading.
      eff_unfold.
      run_all; (eexists; eexists; split; reflexivity).
Qed.

End CommandLine.

Lemma X27_witness :
  Cli.analyzeAction "invoice.pdf" (Analyze.mkOptions (Some "invoice"))
    (configuredDeps sampleClient (sampleConfig []))
    (freshWorld (sampleConfig []) 0)
  = (Returned Returns,
     {| journal := [CreateClient "/keys/visionfi_service_account.json"
                      "https://platform.visionfi.ai/api/v1";
                    VerifyAuth;
                    AnalyzeDocument "%PDF" "invoice.pdf" "invoice"];
        config := sampleConfig [];
        clock := 0 |}).
Proof.
  destruct (proj1 (proj2 (proj2 (X27_command_line_endings
                                   (configuredDeps sampleClient (sampleConfig []))
                                   "invoice.pdf" "" (Analyze.mkOptions (Some "invoice"))
                                   (Results.mkOptions false None None)
                                   (freshWorld (sampleConfig []) 0))
                            ltac:(intros H; discriminate H))))
    as (r & w1 & Hcore & Hrun & _).
  injection Hcore as <- <-. exact Hrun.
Defined.
